(** * pysgrid: reading an SGRID topology out of a netCDF dataset

    A shallow embedding of [pysgrid/read_netcdf.py]: the convention
    detector ([NetCDFDataset]), the coordinate inference, the two topology
    resolvers ([SGrid2D], [SGrid3D]) and the top-level loader
    [load_grid_from_nc_dataset].

    The dataset is read-only; the grid object handed to the loader is
    mutated in place, so the resolvers live in a state-and-exception monad
    over the attribute dictionary of that object.  Python semantics are
    those of Python 3. *)

From stdpp Require Import gmap strings list fin_maps pretty.
From Stdlib Require Import ZArith Ascii String.

Local Open Scope string_scope.
Local Open Scope Z_scope.
Local Open Scope list_scope.
Set Warnings "-register-all".

(** ** Python text primitives

    Strings are sequences of code points below 256. *)

Module PyStr.

(** [str.isspace] on one code point (the white space [str.strip]
    removes): TAB..CR, FS..US, SPACE, NEL and NBSP. *)
Definition isspace (a : ascii) : bool :=
  let n := N_of_ascii a in
  ((9 <=? n) && (n <=? 13) || (28 <=? n) && (n <=? 31)
   || (n =? 32) || (n =? 133) || (n =? 160))%N.

Fixpoint lstrip (s : string) : string :=
  match s with
  | EmptyString => EmptyString
  | String a s' => if isspace a then lstrip s' else s
  end.

Fixpoint rstrip (s : string) : string :=
  match s with
  | EmptyString => EmptyString
  | String a s' =>
      match rstrip s' with
      | EmptyString => if isspace a then EmptyString else String a EmptyString
      | r => String a r
      end
  end.

(** [s.strip()] *)
Definition strip (s : string) : string := lstrip (rstrip s).

(** [s.split(sep)] for a one-character separator: empty fields are kept,
    and the empty string splits into one empty field. *)
Fixpoint split (sep : ascii) (s : string) : list string :=
  match s with
  | EmptyString => [EmptyString]
  | String a s' =>
      if bool_decide (a = sep) then EmptyString :: split sep s'
      else match split sep s' with
           | h :: t => String a h :: t
           | [] => [String a EmptyString]
           end
  end.

(** [str.lower] on one code point: A..Z and the Latin-1 capitals. *)
Definition lower_char (a : ascii) : ascii :=
  let n := N_of_ascii a in
  if ((65 <=? n) && (n <=? 90)
      || (192 <=? n) && (n <=? 222) && negb (n =? 215))%N
  then ascii_of_N (n + 32) else a.

(** [s.lower()] *)
Fixpoint lower (s : string) : string :=
  match s with
  | EmptyString => EmptyString
  | String a s' => String (lower_char a) (lower s')
  end.

(** [sub in s] *)
Fixpoint contains (sub s : string) : bool :=
  String.prefix sub s ||
  match s with
  | EmptyString => false
  | String _ s' => contains sub s'
  end.

End PyStr.

(** ** The dataset (netCDF4.Dataset), as the reader sees it *)

(** The value of a netCDF attribute: text or a number. *)
Inductive attr_value : Type :=
| AStr (s : string)
| AInt (z : Z).

Global Instance attr_value_eq_dec : EqDecision attr_value.
Proof. solve_decision. Defined.

(** The array a variable holds ([var[:]]); the reader never looks inside. *)
Definition ndarray : Type := list Z.

(** A netCDF variable: its name, the names of its dimensions, its
    attributes ([ncattrs]) and its data. *)
Record nc_variable : Type := {
  name : string;
  dimensions : list string;
  ncattrs : gmap string attr_value;
  data : ndarray
}.

(** [nc_dataset.dimensions] and [nc_dataset.variables] are ordered
    dictionaries: iteration follows the list, lookup takes the entry of
    that name. *)
Record nc_dataset : Type := {
  ds_dimensions : list (string * Z);
  ds_variables : list nc_variable
}.

(** [nc_vars.keys()] *)
Definition keys (ds : nc_dataset) : list string := name <$> ds_variables ds.

Fixpoint lookup_variable (vars : list nc_variable) (k : string)
  : option nc_variable :=
  match vars with
  | [] => None
  | v :: vars' => if bool_decide (name v = k) then Some v
                  else lookup_variable vars' k
  end.

(** ** Values held by the grid object *)

(** Modelled from the spec: what [ParsePadding.parse_padding] (module
    [utils], not part of the source at hand) returns for one clause of a
    padding attribute, the triple of section 4.3. *)
Record grid_padding : Type := {
  dim_name : string;
  shared_dim_name : string;
  padding_kind : string
}.

(** Modelled from the spec: one entry of a center slicing, the pair
    [(start, stop)] of section 3; [None] leaves the end open. *)
Definition py_slice : Type := (option Z * option Z)%type.

(** Modelled from the spec: the Variable Descriptor of section 3, which
    [SGridVariable.create_variable] (module [variables], not part of the
    source at hand) builds for a variable.  The loader reads its name as
    [variable] and assigns its [center_slicing]. *)
Record sgrid_variable : Type := {
  variable : string;
  center_slicing : option (list py_slice);
  is_grid_variable : bool
}.

Inductive value : Type :=
| VNone
| VStr (s : string)
| VInt (z : Z)
| VTuple (items : list value)
| VList (items : list value)
| VArray (a : ndarray)
| VPadding (p : grid_padding)
| VVariable (v : sgrid_variable).

Definition of_attr (a : attr_value) : value :=
  match a with
  | AStr s => VStr s
  | AInt z => VInt z
  end.

(** An optional name: [None] or the string. *)
Definition of_name (o : option string) : value :=
  match o with
  | Some s => VStr s
  | None => VNone
  end.

(** ** Exceptions *)

Inductive exn : Type :=
| AttributeError (attr : string)
| KeyError (key : value)
| IndexError
| TypeError
| ValueError (msg : string)
| SGridNonCompliantError
| OtherError (msg : string).

Inductive outcome (A : Type) : Type :=
| Ok (a : A)
| Raise (e : exn).
Arguments Ok {A} a.
Arguments Raise {A} e.

Global Instance outcome_ret : MRet outcome := @Ok.
Global Instance outcome_bind : MBind outcome := λ A B f m,
  match m with
  | Ok a => f a
  | Raise e => Raise e
  end.

Definition is_AttributeError (e : exn) : bool :=
  match e with AttributeError _ => true | _ => false end.

Definition is_KeyError (e : exn) : bool :=
  match e with KeyError _ => true | _ => false end.

(** [try: body / except E: handler / else: orelse].  What [orelse] raises
    is not caught. *)
Definition try_except {A B} (body : outcome A) (caught : exn → bool)
    (handler : outcome B) (orelse : A → outcome B) : outcome B :=
  match body with
  | Ok a => orelse a
  | Raise e => if caught e then handler else Raise e
  end.

(** [for x in l: s = body(s, x)] *)
Fixpoint for_each {A S} (body : S → A → outcome S) (s : S) (l : list A)
  : outcome S :=
  match l with
  | [] => Ok s
  | x :: l' => s' ← body s x; for_each body s' l'
  end.

(** [nc_vars[k]] *)
Definition getitem (ds : nc_dataset) (k : string) : outcome nc_variable :=
  match lookup_variable (ds_variables ds) k with
  | Some v => Ok v
  | None => Raise (KeyError (VStr k))
  end.

(** [for nc_var in nc_vars.keys(): nc_var_obj = nc_vars[nc_var]; ...] *)
Definition for_each_variable {S} (ds : nc_dataset)
    (body : S → string → nc_variable → outcome S) (s : S) : outcome S :=
  for_each (λ s nc_var, nc_var_obj ← getitem ds nc_var; body s nc_var nc_var_obj)
    s (keys ds).

(** [var.attr] for a netCDF attribute *)
Definition getattr (v : nc_variable) (attr : string) : outcome attr_value :=
  match ncattrs v !! attr with
  | Some a => Ok a
  | None => Raise (AttributeError attr)
  end.

(** [a.strip()]: only text has the method. *)
Definition py_strip (a : attr_value) : outcome string :=
  match a with
  | AStr s => Ok (PyStr.strip s)
  | AInt _ => Raise (AttributeError "strip")
  end.

(** [a.split(' ')] *)
Definition py_split (a : attr_value) : outcome (list string) :=
  match a with
  | AStr s => Ok (PyStr.split " " s)
  | AInt _ => Raise (AttributeError "split")
  end.

(** [a == s] against a text literal *)
Definition attr_eq_str (a : attr_value) (s : string) : bool :=
  bool_decide (a = AStr s).

(** [a == n] against an integer literal *)
Definition attr_eq_int (a : attr_value) (n : Z) : bool :=
  bool_decide (a = AInt n).

(** [a >= n]: numbers compare, anything else against a number is a
    [TypeError]. *)
Definition py_ge (a : option attr_value) (n : Z) : outcome bool :=
  match a with
  | Some (AInt z) => Ok (n <=? z)
  | _ => Raise TypeError
  end.

(** ** The grid object

    Modelled from the spec: the Grid Model object (class [SGrid]) is not
    part of the source at hand.  It is taken as a plain Python object: its
    attribute dictionary maps attribute names to values, an assignment
    creates or overwrites an entry, [del] removes the entry and raises
    [AttributeError] when there is none.  An attribute that is "unset"
    holds [VNone]; an attribute that is "absent" has no entry. *)
Abbreviation sgrid := (gmap string value).

(** The resolvers mutate the grid in place and may raise: what was
    assigned before an exception stays assigned. *)
Definition M (A : Type) : Type := sgrid → outcome A * sgrid.

Global Instance M_ret : MRet M := λ A a g, (Ok a, g).
Global Instance M_bind : MBind M := λ A B f m g,
  match m g with
  | (Ok a, g') => f a g'
  | (Raise e, g') => (Raise e, g')
  end.

Definition lift {A} (o : outcome A) : M A := λ g, (o, g).

(** [self._sgrid.attr = v] *)
Definition setattr (attr : string) (v : value) : M unit :=
  λ g, (Ok (), <[attr := v]> g).

(** [del self._sgrid.attr] *)
Definition delattr (attr : string) : M unit :=
  λ g, match g !! attr with
       | Some _ => (Ok (), delete attr g)
       | None => (Raise (AttributeError attr), g)
       end.

(** [self._sgrid.attr] *)
Definition getattr_grid (attr : string) : M value :=
  λ g, match g !! attr with
       | Some v => (Ok v, g)
       | None => (Raise (AttributeError attr), g)
       end.

(** [try / except / else] around a read of the dataset, with handlers
    that act on the grid. *)
Definition try_exceptM {A B} (body : outcome A) (caught : exn → bool)
    (handler : M B) (orelse : A → M B) : M B :=
  match body with
  | Ok a => orelse a
  | Raise e => if caught e then handler else lift (Raise e)
  end.

(** [for x in l: body(x)] on the grid *)
Fixpoint for_eachM {A S} (body : S → A → M S) (s : S) (l : list A) : M S :=
  match l with
  | [] => mret s
  | x :: l' => s' ← body s x; for_eachM body s' l'
  end.

(** ** What the reader imports from the rest of the package

    [lookup], [utils], [variables] and the grid's [add_property] method are
    outside the source at hand; the reader is verified against any
    implementation of them. *)
Class Collaborators : Type := {
  (** [lookup.LON_GRID_CELL_NODE_LONG_NAME] *)
  LON_GRID_CELL_NODE_LONG_NAME : list string;
  (** [lookup.LAT_GRID_CELL_NODE_LONG_NAME] *)
  LAT_GRID_CELL_NODE_LONG_NAME : list string;
  (** [ParsePadding(topology_variable).parse_padding(padding_str)] *)
  parse_padding : string → attr_value → outcome (list grid_padding);
  (** [pair_arrays(x_array, y_array)] *)
  pair_arrays : ndarray → ndarray → outcome ndarray;
  (** [SGridVariable.create_variable(nc_var)] *)
  create_variable : nc_variable → outcome sgrid_variable;
  (** [determine_variable_slicing(sgrid, nc_dataset, variable, method='center')] *)
  determine_variable_slicing :
    sgrid → nc_dataset → string → outcome (list py_slice);
  (** [sgrid.add_property(name, value)] *)
  add_property : string → value → M unit
}.

(** The three coordinate slots of the inference: x, y and z. *)
Record slots : Type := {
  x_coordinate : option string;
  y_coordinate : option string;
  z_coordinate : option string
}.

Definition set_x (s : slots) (n : string) : slots :=
  {| x_coordinate := Some n; y_coordinate := y_coordinate s;
     z_coordinate := z_coordinate s |}.
Definition set_y (s : slots) (n : string) : slots :=
  {| x_coordinate := x_coordinate s; y_coordinate := Some n;
     z_coordinate := z_coordinate s |}.
Definition set_z (s : slots) (n : string) : slots :=
  {| x_coordinate := x_coordinate s; y_coordinate := y_coordinate s;
     z_coordinate := Some n |}.

Definition no_slots : slots :=
  {| x_coordinate := None; y_coordinate := None; z_coordinate := None |}.

(** Truth value of an optional name: [None] and the empty string are
    false. *)
Definition truthy (o : option string) : bool :=
  match o with
  | Some s => negb (bool_decide (s = ""))
  | None => false
  end.

(** [a in names] for a list of accepted strings *)
Definition attr_in (a : attr_value) (names : list string) : bool :=
  match a with
  | AStr s => bool_decide (s ∈ names)
  | AInt _ => false
  end.

(** Whether a loop goes on to its next element or was left by [break]. *)
Inductive loop_ctl : Type := Continue | Break.

Fixpoint for_each_break {A S} (body : S → A → outcome (loop_ctl * S))
    (s : S) (l : list A) : outcome S :=
  match l with
  | [] => Ok s
  | x :: l' =>
      r ← body s x;
      match r with
      | (Continue, s') => for_each_break body s' l'
      | (Break, s') => Ok s'
      end
  end.

(** ** NetCDFDataset: the convention detector *)

Section NetCDFDataset.
Context `{Collaborators}.
Variable ncd : nc_dataset.

(** [find_grid_cell_node_vars] *)
Definition find_grid_cell_node_vars
  : outcome (option string * option string) :=
  for_each_variable ncd
    (λ '(grid_cell_node_lon, grid_cell_node_lat) nc_var nc_var_obj,
      try_except (getattr nc_var_obj "long_name") is_AttributeError
        (Ok (grid_cell_node_lon, grid_cell_node_lat))
        (λ nc_var_long_name,
           let grid_cell_node_lon :=
             if attr_in nc_var_long_name LON_GRID_CELL_NODE_LONG_NAME
             then Some nc_var else grid_cell_node_lon in
           let grid_cell_node_lat :=
             if attr_in nc_var_long_name LAT_GRID_CELL_NODE_LONG_NAME
             then Some nc_var else grid_cell_node_lat in
           Ok (grid_cell_node_lon, grid_cell_node_lat)))
    (None, None).

(** [find_grid_topology_vars]: the body of the scan for one variable. *)
Definition topology_scan_step (grid_topology_vars : list string)
    (nc_var : string) (nc_var_obj : nc_variable) : outcome (list string) :=
  '(cf_role, topology_dim) ←
    try_except (a ← getattr nc_var_obj "cf_role"; py_strip a)
      is_AttributeError
      (Ok (None, None))
      (λ cf_role,
         topology_dim ← getattr nc_var_obj "topology_dimension";
         Ok (Some cf_role, Some topology_dim));
  qualifies ←
    (if bool_decide (cf_role = Some "grid_topology")
     then py_ge topology_dim 2 else Ok false);
  Ok (if qualifies : bool then grid_topology_vars ++ [nc_var]
      else grid_topology_vars).

Definition find_grid_topology_vars : outcome (option string) :=
  grid_topology_vars ← for_each_variable ncd topology_scan_step [];
  Ok (head grid_topology_vars).

(** [search_variables_by_location] *)
Definition search_variables_by_location (location_str : string)
  : outcome (list string) :=
  for_each_variable ncd (λ search_results nc_var nc_var_obj,
      try_except (getattr nc_var_obj "location") is_AttributeError
        (Ok search_results)
        (λ nc_var_location,
           Ok (if attr_eq_str nc_var_location location_str
               then search_results ++ [nc_var] else search_results)))
    [].

(** [find_coordinates_by_location], the branch taken when the location
    variable has no [coordinates] attribute: the variables it collects. *)
Definition potential_coordinates (location_var_dims : list string)
    (var_with_location : string) : outcome (list nc_variable) :=
  for_each_variable ncd (λ potential_coordinates nc_var nc_var_obj,
      let nc_var_dim_set : gset string :=
        list_to_set (dimensions nc_var_obj) in
      Ok (if bool_decide (nc_var_dim_set ⊆ list_to_set location_var_dims)
             && bool_decide (nc_var ≠ var_with_location)
             && bool_decide (0 < size nc_var_dim_set)%nat
          then potential_coordinates ++ [nc_var_obj]
          else potential_coordinates))
    [].

(** ... and what one collected variable does to the slots. *)
Definition classify_potential (s : slots) (potential_coordinate : nc_variable)
  : slots :=
  let pc_name := name potential_coordinate in
  if PyStr.contains "lon" (PyStr.lower pc_name) then set_x s pc_name
  else if PyStr.contains "lat" (PyStr.lower pc_name) then set_y s pc_name
  else set_z s pc_name.

(** The branch taken when the location variable has a [coordinates]
    attribute: what one token of the attribute does to the slots. *)
Definition classify_token (s : slots) (lvc : string) : outcome slots :=
  var_coord ← getitem ncd lvc;
  try_except (getattr var_coord "standard_name") is_AttributeError
    (Ok (if PyStr.contains "lon" (PyStr.lower (name var_coord))
         then set_x s lvc
         else if PyStr.contains "lat" (PyStr.lower (name var_coord))
         then set_y s lvc
         else s))
    (λ var_coord_standard_name,
       Ok (if attr_eq_str var_coord_standard_name "longitude"
           then set_x s lvc
           else if attr_eq_str var_coord_standard_name "latitude"
           then set_y s lvc
           else s)).

Definition classify_coordinates (s : slots)
    (location_var_coordinates : attr_value) : outcome slots :=
  stripped ← py_strip location_var_coordinates;
  let lvc_split := PyStr.split " " stripped in
  s' ← for_each classify_token s lvc_split;
  Ok (if bool_decide (List.length lvc_split = 3%nat)
      then match last lvc_split with
           | Some lvc => set_z s' lvc
           | None => s'
           end
      else s').

(** The body of the loop over the variables that carry the location. *)
Definition location_step (s : slots) (var_with_location : string)
  : outcome (loop_ctl * slots) :=
  location_var ← getitem ncd var_with_location;
  let location_var_dims := dimensions location_var in
  try_except (getattr location_var "coordinates") is_AttributeError
    (potential_coordinates ←
       potential_coordinates location_var_dims var_with_location;
     Ok (Continue, foldl classify_potential s potential_coordinates))
    (λ location_var_coordinates,
       s' ← classify_coordinates s location_var_coordinates;
       Ok (Break, s')).

(** The tuple built from the slots, and [all(coordinates)]. *)
Definition coordinates_of (topology_dim : Z) (s : slots)
  : list (option string) :=
  if bool_decide (topology_dim = 2)
  then [x_coordinate s; y_coordinate s]
  else [x_coordinate s; y_coordinate s; z_coordinate s].

Definition coordinate_result (topology_dim : Z) (s : slots)
  : option (list (option string)) :=
  let coordinates := coordinates_of topology_dim s in
  if forallb truthy coordinates then Some coordinates else None.

(** [find_coordinates_by_location], up to the end of its loop: the
    slots as the loop leaves them. *)
Definition location_slots (location_str : string) : outcome slots :=
  vars_with_location ← search_variables_by_location location_str;
  for_each_break location_step no_slots vars_with_location.

(** [find_coordinates_by_location] *)
Definition find_coordinates_by_location (location_str : string)
    (topology_dim : Z) : outcome (option (list (option string))) :=
  s ← location_slots location_str;
  Ok (coordinate_result topology_dim s).

(** [sgrid_compliant_file] *)
Definition sgrid_compliant_file : outcome bool :=
  grid_vars ← find_grid_topology_vars;
  Ok (bool_decide (grid_vars ≠ None)).

End NetCDFDataset.

(** ** Reading values back from the grid *)

Fixpoint chars (s : string) : list value :=
  match s with
  | EmptyString => []
  | String a s' => VStr (String a EmptyString) :: chars s'
  end.

(** The items a value yields when it is iterated or indexed. *)
Definition py_iter (v : value) : outcome (list value) :=
  match v with
  | VTuple items | VList items => Ok items
  | VStr s => Ok (chars s)
  | VArray a => Ok (VInt <$> a)
  | VPadding p =>
      Ok [VStr (dim_name p); VStr (shared_dim_name p);
          VStr (padding_kind p)]
  | VNone | VInt _ | VVariable _ => Raise TypeError
  end.

(** [a, b = v] *)
Definition unpack2 (v : value) : outcome (value * value) :=
  items ← py_iter v;
  match items with
  | [a; b] => Ok (a, b)
  | _ => Raise (ValueError "wrong number of values to unpack")
  end.

(** [v[i]] *)
Definition py_index (v : value) (i : nat) : outcome value :=
  items ← py_iter v;
  match items !! i with
  | Some a => Ok a
  | None => Raise IndexError
  end.

(** [nc_dataset.variables[k]] for a key read back from the grid *)
Definition getitem_value (ds : nc_dataset) (k : value) : outcome nc_variable :=
  match k with
  | VStr s => getitem ds s
  | VList _ | VArray _ => Raise TypeError
  | _ => Raise (KeyError k)
  end.

(** The value stored for inferred coordinates: the tuple, or [None]. *)
Definition coordinates_value (r : option (list (option string))) : value :=
  match r with
  | Some names => VTuple (of_name <$> names)
  | None => VNone
  end.

(** [str(a)] *)
Definition py_str (a : attr_value) : string :=
  match a with
  | AStr s => s
  | AInt z => pretty z
  end.

(** ** SGridND and its two subclasses *)

Section SGridND.
Context `{Collaborators}.
(** [self.nc_dataset], [self.topology_variable], [self.topology_var] and
    the class attribute [topology_dim]. *)
Variable nc_ds : nc_dataset.
Variable topology_variable : string.
Variable topology_var : nc_variable.
Variable topology_dim : Z.

(** [[(ds_dim, len(ds_dims[ds_dim])) for ds_dim in ds_dims]] *)
Definition grid_dims : value :=
  VList ((λ '(ds_dim, len), VTuple [VStr ds_dim; VInt len])
           <$> ds_dimensions nc_ds).

Definition set_dimensions : M unit := setattr "dimensions" grid_dims.

Definition set_topology_dimension : M unit :=
  setattr "topology_dimension" (VInt topology_dim).

(** The pattern of every [set_*_dimensions]: read the attribute off the
    topology variable; when it is there, parse its padding and assign
    both. *)
Definition set_dimensions_of (attr dim_target padding_target : string)
  : M unit :=
  try_exceptM (getattr topology_var attr) is_AttributeError
    (mret ())
    (λ dim,
       dim_padding ← lift (parse_padding topology_variable dim);
       setattr dim_target (of_attr dim);;
       setattr padding_target (VList (VPadding <$> dim_padding))).

(** The pattern of the [set_*_coordinates] that have no fallback: the
    attribute split on blanks, kept as a tuple or as a list. *)
Definition set_coordinates_of (attr : string) (wrap : list value → value)
  : M unit :=
  try_exceptM (getattr topology_var attr) is_AttributeError
    (mret ())
    (λ coordinates,
       coordinates_val ← lift (py_split coordinates);
       setattr attr (wrap (VStr <$> coordinates_val))).

Definition set_edge1_dimensions : M unit :=
  set_dimensions_of "edge1_dimensions" "edge1_dimension" "edge1_padding".
Definition set_edge1_coordinates : M unit :=
  set_coordinates_of "edge1_coordinates" VTuple.
Definition set_edge2_dimensions : M unit :=
  set_dimensions_of "edge2_dimensions" "edge2_dimension" "edge2_padding".
Definition set_edge2_coordinates : M unit :=
  set_coordinates_of "edge2_coordinates" VTuple.

Definition set_sgrid_topology : M unit :=
  topology_dim ← lift (getattr topology_var "topology_dimension");
  setattr "topology_dimension" (of_attr topology_dim).

Definition set_sgrid_node_coordinates : M unit :=
  node_dims ← lift (getattr topology_var "node_dimensions");
  setattr "node_dimensions" (of_attr node_dims);;
  try_exceptM (getattr topology_var "node_coordinates") is_AttributeError
    ('(lon, lat) ← lift (find_grid_cell_node_vars nc_ds);
     setattr "node_coordinates" (VTuple [of_name lon; of_name lat]))
    (λ node_coordinates,
       node_coordinate_val ← lift (py_split node_coordinates);
       setattr "node_coordinates" (VTuple (VStr <$> node_coordinate_val))).

(** The body of the loop of [set_sgrid_variable_attributes]. *)
Definition variable_step (acc : list string * list string)
    (nc_variable : string) : M (list string * list string) :=
  let '(dataset_variables, grid_variables) := acc in
  nc_var ← lift (getitem nc_ds nc_variable);
  let nc_var_name := name nc_var in
  sgrid_var ← lift (create_variable nc_var);
  var_center_slicing ←
    (λ g, (determine_variable_slicing g nc_ds nc_variable, g));
  let sgrid_var :=
    {| variable := variable sgrid_var;
       center_slicing := Some var_center_slicing;
       is_grid_variable := is_grid_variable sgrid_var |} in
  add_property (variable sgrid_var) (VVariable sgrid_var);;
  mret (dataset_variables ++ [nc_var_name],
        if bool_decide (is_Some (ncattrs nc_var !! "grid"))
        then grid_variables ++ [nc_var_name] else grid_variables).

Definition set_sgrid_variable_attributes : M unit :=
  '(dataset_variables, grid_variables) ←
    for_eachM variable_step ([], []) (keys nc_ds);
  setattr "variables" (VList (VStr <$> dataset_variables));;
  setattr "grid_variables" (VList (VStr <$> grid_variables)).

Definition set_sgrid_angles : M unit :=
  try_exceptM (getitem nc_ds "angle") is_KeyError
    (mret ())
    (λ angle, setattr "angles" (VArray (data angle))).

Definition set_sgrid_time : M unit :=
  time ← lift (try_except (getitem nc_ds "time") is_KeyError
                 (getitem nc_ds "Times") Ok);
  setattr "grid_times" (VArray (data time)).

(** *** SGrid2D *)

Definition set_face_dimensions : M unit :=
  set_dimensions_of "face_dimensions" "face_dimensions" "face_padding".

Definition set_sgrid_vertical_dimensions : M unit :=
  set_dimensions_of "vertical_dimensions" "vertical_dimensions"
    "vertical_padding".

Definition set_face_coordindates : M unit :=
  try_exceptM (getattr topology_var "face_coordinates") is_AttributeError
    (grid_cell_center_vars ←
       lift (find_coordinates_by_location nc_ds "face" topology_dim);
     setattr "face_coordinates" (coordinates_value grid_cell_center_vars))
    (λ face_coordinates,
       face_coordinate_val ← lift (py_split face_coordinates);
       setattr "face_coordinates" (VTuple (VStr <$> face_coordinate_val))).

Definition set_all_edge_attributes_2d : M unit :=
  set_edge1_dimensions;; set_edge1_coordinates;;
  set_edge2_dimensions;; set_edge2_coordinates.

Definition set_all_face_attributes_2d : M unit :=
  set_face_dimensions;; set_face_coordindates.

Definition set_cell_center_lat_lon_2d : M unit :=
  face_coordinates ← getattr_grid "face_coordinates";
  '(grid_cell_center_lon_var, grid_cell_center_lat_var) ←
    lift (unpack2 face_coordinates);
  grid_cell_center_lat ← lift (getitem_value nc_ds grid_cell_center_lat_var);
  grid_cell_center_lon ← lift (getitem_value nc_ds grid_cell_center_lon_var);
  centers ← lift (pair_arrays (data grid_cell_center_lon)
                              (data grid_cell_center_lat));
  setattr "centers" (VArray centers).

Definition set_cell_node_lat_lon_2d : M unit :=
  node_coordinates ← getattr_grid "node_coordinates";
  '(grid_cell_nodes_lon_var, grid_cell_nodes_lat_var) ←
    lift (unpack2 node_coordinates);
  grid_cell_nodes_lat ← lift (getitem_value nc_ds grid_cell_nodes_lat_var);
  grid_cell_nodes_lon ← lift (getitem_value nc_ds grid_cell_nodes_lon_var);
  nodes ← lift (pair_arrays (data grid_cell_nodes_lon)
                            (data grid_cell_nodes_lat));
  setattr "nodes" (VArray nodes).

(** The attributes [SGrid2D.delete_nd_attributes] deletes, in order. *)
Definition nd_attributes_2d : list string :=
  ["volume_padding"; "volume_dimensions"; "volume_coordinates";
   "face1_padding"; "face1_coordinates"; "face1_dimensions";
   "face2_padding"; "face2_coordinates"; "face2_dimensions";
   "face3_padding"; "face3_coordinates"; "face3_dimensions";
   "edge3_padding"; "edge3_coordinates"; "edge3_dimensions"].

Definition delete_all (attrs : list string) : M unit :=
  for_eachM (λ _ attr, delattr attr) () attrs.

Definition delete_nd_attributes_2d : M unit := delete_all nd_attributes_2d.

(** *** SGrid3D *)

Definition set_volume_dimensions : M unit :=
  set_dimensions_of "volume_dimensions" "volume_dimensions" "volume_padding".

Definition set_volume_coordinates : M unit :=
  try_exceptM (getattr topology_var "volume_coordinates") is_AttributeError
    (grid_cell_center_vars ←
       lift (find_coordinates_by_location nc_ds "volume" topology_dim);
     setattr "volume_coordinates" (coordinates_value grid_cell_center_vars))
    (λ volume_coordinates,
       volume_coordinates_val ← lift (py_split volume_coordinates);
       setattr "volume_coordinates"
         (VTuple (VStr <$> volume_coordinates_val))).

Definition set_edge3_dimensions : M unit :=
  set_dimensions_of "edge3_dimensions" "edge3_dimension" "edge3_padding".
Definition set_edge3_coordinates : M unit :=
  set_coordinates_of "edge3_coordinates" VTuple.

Definition set_all_edge_attributes_3d : M unit :=
  set_edge1_dimensions;; set_edge1_coordinates;;
  set_edge2_dimensions;; set_edge2_coordinates;;
  set_edge3_dimensions;; set_edge3_coordinates.

Definition set_face1_dimensions : M unit :=
  set_dimensions_of "face1_dimensions" "face1_dimensions" "face1_padding".
Definition set_face1_coordinates : M unit :=
  set_coordinates_of "face1_coordinates" VList.
Definition set_face2_dimensions : M unit :=
  set_dimensions_of "face2_dimensions" "face2_dimensions" "face2_padding".
Definition set_face2_coordinates : M unit :=
  set_coordinates_of "face2_coordinates" VList.
Definition set_face3_dimensions : M unit :=
  set_dimensions_of "face3_dimensions" "face3_dimensions" "face3_padding".
Definition set_face3_coordinates : M unit :=
  set_coordinates_of "face3_coordinates" VList.

Definition set_all_face_attributes_3d : M unit :=
  set_face1_dimensions;; set_face1_coordinates;;
  set_face2_dimensions;; set_face2_coordinates;;
  set_face3_dimensions;; set_face3_coordinates.

Definition set_cell_center_lat_lon_3d : M unit :=
  volume_coordinates ← getattr_grid "volume_coordinates";
  grid_cell_center_lon_var ← lift (py_index volume_coordinates 0);
  volume_coordinates ← getattr_grid "volume_coordinates";
  grid_cell_center_lat_var ← lift (py_index volume_coordinates 1);
  grid_cell_center_lon ← lift (getitem_value nc_ds grid_cell_center_lon_var);
  grid_cell_center_lat ← lift (getitem_value nc_ds grid_cell_center_lat_var);
  centers ← lift (pair_arrays (data grid_cell_center_lon)
                              (data grid_cell_center_lat));
  setattr "centers" (VArray centers).

Definition set_cell_node_lat_lon_3d : M unit := mret ().

(** The attributes [SGrid3D.delete_nd_attributes] deletes, in order. *)
Definition nd_attributes_3d : list string :=
  ["face_padding"; "face_coordinates"; "face_dimensions";
   "vertical_padding"; "vertical_dimensions"].

Definition delete_nd_attributes_3d : M unit := delete_all nd_attributes_3d.

End SGridND.

(** ** The loader *)

Section Loader.
Context `{Collaborators}.

(** The calls made on [sg2 = SGrid2D(grid, nc_dataset, topology_var)]. *)
Definition resolve_2d (nc_ds : nc_dataset) (topology_var : string)
    (nc_grid_topology_var : nc_variable) : M unit :=
  set_dimensions nc_ds;;
  set_topology_dimension 2;;
  set_sgrid_topology nc_grid_topology_var;;
  set_sgrid_vertical_dimensions topology_var nc_grid_topology_var;;
  set_sgrid_node_coordinates nc_ds nc_grid_topology_var;;
  set_all_edge_attributes_2d topology_var nc_grid_topology_var;;
  set_all_face_attributes_2d nc_ds topology_var nc_grid_topology_var 2;;
  set_cell_center_lat_lon_2d nc_ds;;
  set_cell_node_lat_lon_2d nc_ds;;
  set_sgrid_angles nc_ds;;
  set_sgrid_time nc_ds;;
  set_sgrid_variable_attributes nc_ds;;
  delete_nd_attributes_2d.

(** The calls made on [sg3 = SGrid3D(grid, nc_dataset, topology_var)]. *)
Definition resolve_3d (nc_ds : nc_dataset) (topology_var : string)
    (nc_grid_topology_var : nc_variable) : M unit :=
  set_dimensions nc_ds;;
  set_topology_dimension 3;;
  set_sgrid_topology nc_grid_topology_var;;
  set_sgrid_node_coordinates nc_ds nc_grid_topology_var;;
  set_all_edge_attributes_3d topology_var nc_grid_topology_var;;
  set_all_face_attributes_3d topology_var nc_grid_topology_var;;
  set_volume_dimensions topology_var nc_grid_topology_var;;
  set_volume_coordinates nc_ds nc_grid_topology_var 3;;
  set_cell_center_lat_lon_3d nc_ds;;
  set_cell_node_lat_lon_3d;;
  set_sgrid_angles nc_ds;;
  set_sgrid_time nc_ds;;
  set_sgrid_variable_attributes nc_ds;;
  delete_nd_attributes_3d.

Definition unsupported_message (topology_dimension : attr_value) : string :=
  "A topology dimension of " +:+ py_str topology_dimension
    +:+ " is unsupported".

(** [load_grid_from_nc_dataset(nc_dataset, grid, grid_topology_vars)].
    The grid is the state; the loader returns the very object it was
    given, so [Ok ()] together with the final state is the returned
    Grid Model, and [Raise e] returns none. *)
Definition load_grid_from_nc_dataset (nc_ds : nc_dataset)
    (grid_topology_vars : option string) : M unit :=
  is_sgrid_compliant ← lift (sgrid_compliant_file nc_ds);
  if is_sgrid_compliant : bool then
    setattr "dimensions" (grid_dims nc_ds);;
    grid_topology_vars_attr ←
      match grid_topology_vars with
      | None => lift (find_grid_topology_vars nc_ds)
      | Some _ => mret grid_topology_vars
      end;
    setattr "grid_topology_vars" (of_name grid_topology_vars_attr);;
    match grid_topology_vars_attr with
    | None => lift (Raise (KeyError VNone))
    | Some topology_var =>
        nc_grid_topology_var ← lift (getitem nc_ds topology_var);
        topology_dimension ←
          lift (getattr nc_grid_topology_var "topology_dimension");
        if attr_eq_int topology_dimension 2 then
          resolve_2d nc_ds topology_var nc_grid_topology_var
        else if attr_eq_int topology_dimension 3 then
          resolve_3d nc_ds topology_var nc_grid_topology_var
        else
          lift (Raise (ValueError (unsupported_message topology_dimension)))
    end
  else
    lift (Raise SGridNonCompliantError).

End Loader.

(** ** Sample data

    A simple implementation of the collaborators, enough to run the loader
    on datasets whose topology variable declares no padding, and a few
    small datasets. *)

(** Longitudes and latitudes zipped into pairs, laid out flat. *)
Fixpoint zip_pairs (xs ys : ndarray) : ndarray :=
  match xs, ys with
  | x :: xs', y :: ys' => x :: y :: zip_pairs xs' ys'
  | _, _ => []
  end.

Definition sample_collaborators : Collaborators := {|
  LON_GRID_CELL_NODE_LONG_NAME := ["longitude of grid cell nodes"];
  LAT_GRID_CELL_NODE_LONG_NAME := ["latitude of grid cell nodes"];
  parse_padding := λ _ _, Ok [];
  pair_arrays := λ x y, Ok (zip_pairs x y);
  create_variable := λ v,
    Ok {| variable := name v; center_slicing := None;
          is_grid_variable := bool_decide (is_Some (ncattrs v !! "grid")) |};
  determine_variable_slicing := λ _ ds nc_variable,
    v ← getitem ds nc_variable;
    Ok ((λ _, (None, None)) <$> dimensions v);
  add_property := setattr
|}.

Definition mk_variable (n : string) (dims : list string)
    (attrs : list (string * attr_value)) : nc_variable :=
  {| name := n; dimensions := dims; ncattrs := list_to_map attrs;
     data := [] |}.

Definition mk_dataset (vars : list nc_variable) : nc_dataset :=
  {| ds_dimensions := [("xi", 4); ("eta", 3)]; ds_variables := vars |}.

(** A station-data file: one variable with a [cf_role], as the CF
    conventions put on time-series identifiers, and no grid topology. *)
Definition station_dataset : nc_dataset :=
  mk_dataset [mk_variable "station" ["xi"] [("cf_role", AStr "timeseries_id")]].

(** A variable whose [cf_role] is a number. *)
Definition numeric_role_dataset : nc_dataset :=
  mk_dataset [mk_variable "flag" ["xi"] [("cf_role", AInt 7)]].

(** A grid of topology dimension 4. *)
Definition dataset_4d : nc_dataset :=
  mk_dataset [mk_variable "grid" []
                [("cf_role", AStr "grid_topology");
                 ("topology_dimension", AInt 4)]].

(** ** The specification's vocabulary *)

(** A variable qualifies as the topology variable, in the specification's
    words: its [cf_role], trimmed, is ["grid_topology"] and its
    [topology_dimension] is at least 2. *)
Definition qualifies (v : nc_variable) : bool :=
  match ncattrs v !! "cf_role", ncattrs v !! "topology_dimension" with
  | Some (AStr role), Some (AInt d) =>
      bool_decide (PyStr.strip role = "grid_topology") && (2 <=? d)
  | _, _ => false
  end.

(** The datasets on which the scan for the topology variable runs to its
    end: a variable with a textual [cf_role] also has a
    [topology_dimension], and a number for it when the role is
    ["grid_topology"]. *)
Definition scan_safe (v : nc_variable) : bool :=
  match ncattrs v !! "cf_role", ncattrs v !! "topology_dimension" with
  | Some (AStr role), None => false
  | Some (AStr role), Some (AStr _) =>
      negb (bool_decide (PyStr.strip role = "grid_topology"))
  | _, _ => true
  end.

(** Every [topology_dimension] attribute of the variable is a number. *)
Definition numeric_dimension (v : nc_variable) : bool :=
  match ncattrs v !! "topology_dimension" with
  | Some (AStr _) => false
  | _ => true
  end.

(** The topology variable the loader works on: the one passed in, or the
    one the scan finds. *)
Definition selects (ds : nc_dataset) (grid_topology_vars : option string)
    (topology_var : string) : Prop :=
  match grid_topology_vars with
  | None => find_grid_topology_vars ds = Ok (Some topology_var)
  | Some given => given = topology_var
  end.

(** A ROMS-like 2-D dataset whose topology variable names its node and
    face coordinates but carries no [face_dimensions]. *)
Definition dataset_2d : nc_dataset :=
  mk_dataset
    [mk_variable "grid" []
       [("cf_role", AStr "grid_topology"); ("topology_dimension", AInt 2);
        ("node_dimensions", AStr "xi_psi eta_psi");
        ("node_coordinates", AStr "lon_psi lat_psi");
        ("face_coordinates", AStr "lon_rho lat_rho")];
     mk_variable "lon_psi" ["eta"; "xi"] [];
     mk_variable "lat_psi" ["eta"; "xi"] [];
     mk_variable "lon_rho" ["eta"; "xi"] [];
     mk_variable "lat_rho" ["eta"; "xi"] [];
     mk_variable "time" ["time"] []].

(** The same dataset without its time variable. *)
Definition dataset_2d_no_time : nc_dataset :=
  mk_dataset (take 5 (ds_variables dataset_2d)).

(** ... and with the time variable under its other name. *)
Definition dataset_2d_Times : nc_dataset :=
  mk_dataset (take 5 (ds_variables dataset_2d)
              ++ [mk_variable "Times" ["time"] []]).

(** Modelled from the spec: the fields of the Grid Model (section 3), each
    of them unset on a grid that has not been resolved yet. *)
Definition grid_model_fields : list string :=
  ["dimensions"; "topology_dimension"; "grid_topology_vars";
   "node_dimensions"; "node_coordinates";
   "edge1_dimensions"; "edge1_padding"; "edge1_coordinates";
   "edge2_dimensions"; "edge2_padding"; "edge2_coordinates";
   "edge3_dimensions"; "edge3_padding"; "edge3_coordinates";
   "face_dimensions"; "face_padding"; "face_coordinates";
   "vertical_dimensions"; "vertical_padding";
   "face1_dimensions"; "face1_padding"; "face1_coordinates";
   "face2_dimensions"; "face2_padding"; "face2_coordinates";
   "face3_dimensions"; "face3_padding"; "face3_coordinates";
   "volume_dimensions"; "volume_padding"; "volume_coordinates";
   "angles"; "grid_times"; "centers"; "nodes";
   "variables"; "grid_variables"].

Definition fresh_grid : sgrid :=
  list_to_map ((λ field, (field, VNone)) <$> grid_model_fields).

(** The attributes the loader assigns or deletes whatever the topology
    variable carries ... *)
Definition unconditional_attributes : list string :=
  ["dimensions"; "grid_topology_vars"; "topology_dimension";
   "node_dimensions"; "node_coordinates";
   "face_coordinates"; "volume_coordinates";
   "centers"; "nodes"; "angles"; "grid_times";
   "variables"; "grid_variables"]
  ++ nd_attributes_2d ++ nd_attributes_3d.

(** ... and the ones it assigns only when the topology variable has the
    attribute on the left. *)
Definition conditional_attributes : list (string * string) :=
  [("edge1_dimensions", "edge1_dimension"); ("edge1_dimensions", "edge1_padding");
   ("edge1_coordinates", "edge1_coordinates");
   ("edge2_dimensions", "edge2_dimension"); ("edge2_dimensions", "edge2_padding");
   ("edge2_coordinates", "edge2_coordinates");
   ("edge3_dimensions", "edge3_dimension"); ("edge3_dimensions", "edge3_padding");
   ("edge3_coordinates", "edge3_coordinates");
   ("vertical_dimensions", "vertical_dimensions");
   ("vertical_dimensions", "vertical_padding");
   ("face_dimensions", "face_dimensions"); ("face_dimensions", "face_padding");
   ("face1_dimensions", "face1_dimensions"); ("face1_dimensions", "face1_padding");
   ("face1_coordinates", "face1_coordinates");
   ("face2_dimensions", "face2_dimensions"); ("face2_dimensions", "face2_padding");
   ("face2_coordinates", "face2_coordinates");
   ("face3_dimensions", "face3_dimensions"); ("face3_dimensions", "face3_padding");
   ("face3_coordinates", "face3_coordinates");
   ("volume_dimensions", "volume_dimensions");
   ("volume_dimensions", "volume_padding")].

(** Whether the loader, working on the given topology variable, may
    assign or delete the attribute [a] of the grid by name. *)
Definition touched (nc_grid_topology_var : nc_variable) (a : string) : bool :=
  bool_decide (a ∈ unconditional_attributes)
  || existsb (λ '(attr, target),
        bool_decide (target = a)
        && bool_decide (is_Some (ncattrs nc_grid_topology_var !! attr)))
       conditional_attributes.

(** A step on the grid that leaves every attribute outside [S] as it
    found it, whether it returns or raises. *)
Definition preserves {A} (S : string → Prop) (m : M A) : Prop :=
  ∀ g a, ¬ S a → (m g).2 !! a = g !! a.

(** A grid on which [edge1_coordinates] was set by hand beforehand. *)
Definition preset_grid : sgrid :=
  <["edge1_coordinates" := VTuple [VStr "lon_u"; VStr "lat_u"]]> fresh_grid.

(** A variable carries the location tag [location_str]. *)
Definition tagged (location_str : string) (v : nc_variable) : bool :=
  bool_decide (ncattrs v !! "location" = Some (AStr location_str)).

(** In the specification's words: [v] is another variable than the
    location variable, and its dimensions are a non-empty subset of the
    location variable's. *)
Definition candidate (location_var v : nc_variable) : bool :=
  forallb (λ d, bool_decide (d ∈ dimensions location_var)) (dimensions v)
  && bool_decide (name v ≠ name location_var)
  && bool_decide (dimensions v ≠ []).

(** In the specification's words: [sub] occurs in [s] up to the case of
    the letters of [s]. *)
Definition occurs_ignoring_case (sub s : string) : Prop :=
  ∃ before middle after,
    s = before +:+ middle +:+ after ∧ PyStr.lower middle = sub.

(** The slots the tuple of the given topology dimension is built from. *)
Definition required_slots (topology_dim : Z) (s : slots)
  : list (option string) :=
  if bool_decide (topology_dim = 2)
  then [x_coordinate s; y_coordinate s]
  else [x_coordinate s; y_coordinate s; z_coordinate s].

(** Two face variables on grids of their own, none with a [coordinates]
    attribute, each with a longitude and a latitude on its dimensions. *)
Definition two_faces_dataset : nc_dataset :=
  mk_dataset
    [mk_variable "u" ["eta_u"; "xi_u"] [("location", AStr "face")];
     mk_variable "v" ["eta_v"; "xi_v"] [("location", AStr "face")];
     mk_variable "lon_u" ["eta_u"; "xi_u"] [];
     mk_variable "lat_u" ["eta_u"; "xi_u"] [];
     mk_variable "lon_v" ["eta_v"; "xi_v"] [];
     mk_variable "lat_v" ["eta_v"; "xi_v"] []].

(** A face variable with a [coordinates] attribute between two without:
    the loop stops at it. *)
Definition three_faces_dataset : nc_dataset :=
  mk_dataset
    [mk_variable "u" ["eta_u"; "xi_u"] [("location", AStr "face")];
     mk_variable "rho" ["eta_rho"; "xi_rho"]
       [("location", AStr "face"); ("coordinates", AStr "lon_rho lat_rho")];
     mk_variable "v" ["eta_v"; "xi_v"] [("location", AStr "face")];
     mk_variable "lon_u" ["eta_u"; "xi_u"] [];
     mk_variable "lat_u" ["eta_u"; "xi_u"] [];
     mk_variable "depth_u" ["eta_u"] [];
     mk_variable "lon_rho" ["eta_rho"; "xi_rho"] [];
     mk_variable "lat_rho" ["eta_rho"; "xi_rho"] [];
     mk_variable "lon_v" ["eta_v"; "xi_v"] [];
     mk_variable "lat_v" ["eta_v"; "xi_v"] []].

(** A face variable next to a variable whose name holds both "lon" and
    "lat". *)
Definition lonlat_dataset : nc_dataset :=
  mk_dataset
    [mk_variable "h" ["eta"; "xi"] [("location", AStr "face")];
     mk_variable "lonlat" ["eta"; "xi"] []].

(** The names the slots hold are names of variables of the dataset. *)
Definition slots_named (ds : nc_dataset) (s : slots) : Prop :=
  ∀ n, x_coordinate s = Some n ∨ y_coordinate s = Some n
       ∨ z_coordinate s = Some n → n ∈ keys ds.

(** ** More of the vocabulary and of the sample data *)

(** The variable has a [long_name] that is one of the accepted names. *)
Definition long_name_in (names : list string) (v : nc_variable) : bool :=
  match ncattrs v !! "long_name" with
  | Some a => attr_in a names
  | None => false
  end.

(** The last element of a list when it has one, the given default when it
    is empty: the value of a variable that a loop assigns on each match. *)
Definition last_or {A} (default : option A) (l : list A) : option A :=
  match last l with
  | Some x => Some x
  | None => default
  end.

(** The variable has a [grid] attribute. *)
Definition has_grid (v : nc_variable) : bool :=
  bool_decide (is_Some (ncattrs v !! "grid")).

(** A dataset without any [cf_role]. *)
Definition plain_dataset : nc_dataset :=
  mk_dataset [mk_variable "temp" ["eta"; "xi"]
                [("long_name", AStr "temperature")]].

(** Two topology variables, the first with blanks around its role, behind
    a data variable and before a mesh of another convention. *)
Definition two_grids_dataset : nc_dataset :=
  mk_dataset
    [mk_variable "temp" ["eta"; "xi"] [("grid", AStr "grid_a")];
     mk_variable "grid_a" []
       [("cf_role", AStr " grid_topology "); ("topology_dimension", AInt 3)];
     mk_variable "grid_b" []
       [("cf_role", AStr "grid_topology"); ("topology_dimension", AInt 2)];
     mk_variable "mesh" []
       [("cf_role", AStr "mesh_topology"); ("topology_dimension", AInt 2)]].

(** Node variables recognised by their long names, two of them for the
    longitude. *)
Definition node_vars_dataset : nc_dataset :=
  mk_dataset
    [mk_variable "lon_psi" ["eta"; "xi"]
       [("long_name", AStr "longitude of grid cell nodes")];
     mk_variable "lat_psi" ["eta"; "xi"]
       [("long_name", AStr "latitude of grid cell nodes")];
     mk_variable "lon_vert" ["eta"; "xi"]
       [("long_name", AStr "longitude of grid cell nodes")];
     mk_variable "temp" ["eta"; "xi"] [("long_name", AStr "temperature")];
     mk_variable "flag" ["eta"] [("long_name", AInt 3)]].

(** A 3-D topology variable that declares nothing but its role and its
    dimension. *)
Definition bare_3d_dataset : nc_dataset :=
  mk_dataset [mk_variable "grid" []
                [("cf_role", AStr "grid_topology");
                 ("topology_dimension", AInt 3)]].

(** The [coordinates] attribute of the variable, when it has one, is text
    whose tokens, trimmed and split on single blanks, all name variables
    of the dataset. *)
Definition coordinates_resolve (ds : nc_dataset) (v : nc_variable) : bool :=
  match ncattrs v !! "coordinates" with
  | None => true
  | Some (AInt _) => false
  | Some (AStr c) =>
      forallb (λ t, bool_decide (t ∈ keys ds))
        (PyStr.split " " (PyStr.strip c))
  end.

(** A face variable whose [coordinates] are separated by two blanks. *)
Definition double_blank_dataset : nc_dataset :=
  mk_dataset
    [mk_variable "rho" ["eta_rho"; "xi_rho"]
       [("location", AStr "face"); ("coordinates", AStr "lon_rho  lat_rho")];
     mk_variable "lon_rho" ["eta_rho"; "xi_rho"] [];
     mk_variable "lat_rho" ["eta_rho"; "xi_rho"] []].

(** A volume variable with its three coordinates. *)
Definition volume_dataset : nc_dataset :=
  mk_dataset
    [mk_variable "rho" ["s_rho"; "eta_rho"; "xi_rho"]
       [("location", AStr "volume");
        ("coordinates", AStr "lon_rho lat_rho s_rho")];
     mk_variable "lon_rho" ["eta_rho"; "xi_rho"] [];
     mk_variable "lat_rho" ["eta_rho"; "xi_rho"] [];
     mk_variable "s_rho" ["s_rho"] []].

(** A topology variable that declares nothing. *)
Definition bare_topology : nc_variable := mk_variable "grid" [] [].

(** A topology variable whose [face_coordinates] end with a blank, and
    one whose [volume_coordinates] hold a single name. *)
Definition trailing_blank_topology : nc_variable :=
  mk_variable "grid" [] [("face_coordinates", AStr "lon_rho lat_rho ")].

Definition single_name_topology : nc_variable :=
  mk_variable "grid" [] [("volume_coordinates", AStr "lon_rho")].

(** A topology variable with its [node_dimensions] only. *)
Definition node_dimensions_topology : nc_variable :=
  mk_variable "grid" [] [("node_dimensions", AStr "xi_psi eta_psi")].

(** The attributes that identify the grid: assigned at the start of a
    load and by no later step. *)
Definition identifying_attributes : list string :=
  ["dimensions"; "grid_topology_vars"; "topology_dimension"].

(** The plural names under which the dimensions of the first two edges
    are not stored. *)
Definition edge_dimensions_attributes : list string :=
  ["edge1_dimensions"; "edge2_dimensions"].

(** The 2-D dataset with edge dimensions declared on its topology
    variable. *)
Definition dataset_2d_edges : nc_dataset :=
  mk_dataset
    [mk_variable "grid" []
       [("cf_role", AStr "grid_topology"); ("topology_dimension", AInt 2);
        ("node_dimensions", AStr "xi_psi eta_psi");
        ("node_coordinates", AStr "lon_psi lat_psi");
        ("face_coordinates", AStr "lon_rho lat_rho");
        ("edge1_dimensions", AStr "xi_u: xi_psi eta_u: eta_psi (padding: both)");
        ("edge2_dimensions", AStr "xi_v: xi_psi (padding: both) eta_v: eta_psi")];
     mk_variable "lon_psi" ["eta"; "xi"] [];
     mk_variable "lat_psi" ["eta"; "xi"] [];
     mk_variable "lon_rho" ["eta"; "xi"] [];
     mk_variable "lat_rho" ["eta"; "xi"] [];
     mk_variable "time" ["time"] []].

(** A 3-D dataset: node and volume coordinates named on the topology
    variable. *)
Definition dataset_3d : nc_dataset :=
  mk_dataset
    [mk_variable "grid" []
       [("cf_role", AStr "grid_topology"); ("topology_dimension", AInt 3);
        ("node_dimensions", AStr "xi_psi eta_psi s_w");
        ("node_coordinates", AStr "lon_psi lat_psi s_w");
        ("volume_coordinates", AStr "lon_rho lat_rho s_rho")];
     mk_variable "lon_psi" ["eta"; "xi"] [];
     mk_variable "lat_psi" ["eta"; "xi"] [];
     mk_variable "lon_rho" ["eta"; "xi"] [];
     mk_variable "lat_rho" ["eta"; "xi"] [];
     mk_variable "time" ["time"] []].

(** ** Vocabulary of the statements on the whole load *)

(** Every run of the step that returns leaves the grid in a state that
    satisfies [Q]. *)
Definition establishes {A} (Q : sgrid → Prop) (m : M A) : Prop :=
  ∀ g a g', m g = (Ok a, g') → Q g'.

(** The grid holds what a [set_*_dimensions] step stores for the
    attribute value [d]: the value itself under [dim_target] and its
    parsed padding under [padding_target]. *)
Definition stored_dimensions `{Collaborators} (topology_variable : string)
    (d : attr_value) (dim_target padding_target : string) (g : sgrid) : Prop :=
  ∃ p, parse_padding topology_variable d = Ok p
       ∧ g !! dim_target = Some (of_attr d)
       ∧ g !! padding_target = Some (VList (VPadding <$> p)).

(** The [*_dimensions] attributes each resolver reads off the topology
    variable, with the two attributes of the grid it stores them under. *)
Definition dimension_targets_2d : list (string * string * string) :=
  [("vertical_dimensions", "vertical_dimensions", "vertical_padding");
   ("edge1_dimensions", "edge1_dimension", "edge1_padding");
   ("edge2_dimensions", "edge2_dimension", "edge2_padding");
   ("face_dimensions", "face_dimensions", "face_padding")].

Definition dimension_targets_3d : list (string * string * string) :=
  [("edge1_dimensions", "edge1_dimension", "edge1_padding");
   ("edge2_dimensions", "edge2_dimension", "edge2_padding");
   ("edge3_dimensions", "edge3_dimension", "edge3_padding");
   ("face1_dimensions", "face1_dimensions", "face1_padding");
   ("face2_dimensions", "face2_dimensions", "face2_padding");
   ("face3_dimensions", "face3_dimensions", "face3_padding");
   ("volume_dimensions", "volume_dimensions", "volume_padding")].

(** A 4-D topology variable followed by a station variable, and a
    variable of dimension 4 that has no [cf_role]. *)
Definition station_4d_dataset : nc_dataset :=
  mk_dataset
    [mk_variable "grid" []
       [("cf_role", AStr "grid_topology"); ("topology_dimension", AInt 4)];
     mk_variable "station" ["xi"] [("cf_role", AStr "timeseries_id")]].

Definition unmarked_4d_dataset : nc_dataset :=
  mk_dataset [mk_variable "grid" [] [("topology_dimension", AInt 4)]].


(** The names around the dimensions of the first two edges: the plural
    ones of the topology variable and the ones the grid stores them
    under. *)
Definition edge_dimension_names : list string :=
  ["edge1_dimensions"; "edge2_dimensions";
   "edge1_dimension"; "edge1_padding"; "edge2_dimension"; "edge2_padding"].



(** The calls the loader makes on the 2-D resolver before
    [set_sgrid_time], in the order of the source, and the same for the
    3-D resolver. *)
Definition resolve_2d_before_time `{Collaborators} (nc_ds : nc_dataset)
    (topology_var : string) (nc_grid_topology_var : nc_variable) : M unit :=
  set_dimensions nc_ds;;
  set_topology_dimension 2;;
  set_sgrid_topology nc_grid_topology_var;;
  set_sgrid_vertical_dimensions topology_var nc_grid_topology_var;;
  set_sgrid_node_coordinates nc_ds nc_grid_topology_var;;
  set_all_edge_attributes_2d topology_var nc_grid_topology_var;;
  set_all_face_attributes_2d nc_ds topology_var nc_grid_topology_var 2;;
  set_cell_center_lat_lon_2d nc_ds;;
  set_cell_node_lat_lon_2d nc_ds;;
  set_sgrid_angles nc_ds.

Definition resolve_3d_before_time `{Collaborators} (nc_ds : nc_dataset)
    (topology_var : string) (nc_grid_topology_var : nc_variable) : M unit :=
  set_dimensions nc_ds;;
  set_topology_dimension 3;;
  set_sgrid_topology nc_grid_topology_var;;
  set_sgrid_node_coordinates nc_ds nc_grid_topology_var;;
  set_all_edge_attributes_3d topology_var nc_grid_topology_var;;
  set_all_face_attributes_3d topology_var nc_grid_topology_var;;
  set_volume_dimensions topology_var nc_grid_topology_var;;
  set_volume_coordinates nc_ds nc_grid_topology_var 3;;
  set_cell_center_lat_lon_3d nc_ds;;
  set_cell_node_lat_lon_3d;;
  set_sgrid_angles nc_ds.

(** Two grids hold the same under every attribute of [W]. *)
Definition agree (W : list string) (g1 g2 : sgrid) : Prop :=
  ∀ a, a ∈ W → g1 !! a = g2 !! a.

(** Two runs side by side, started on the grids [g1] and [g2]: in the
    grids [h1] and [h2] they have reached, every attribute holds the same
    in both, or still holds in each what was handed in. *)
Definition same_or_untouched (g1 g2 h1 h2 : sgrid) : Prop :=
  ∀ b, h1 !! b = h2 !! b ∨ (h1 !! b = g1 !! b ∧ h2 !! b = g2 !! b).

(** A step that keeps two such runs side by side: from grids that agree
    on [W], two runs of the step that return give the same value, grids
    that agree on [W'], and attributes that are still the same or
    untouched. *)
Definition settles {A} (g1 g2 : sgrid) (W W' : list string) (m : M A)
  : Prop :=
  ∀ h1 h2 a1 a2 h1' h2',
    agree W h1 h2 → same_or_untouched g1 g2 h1 h2 →
    m h1 = (Ok a1, h1') → m h2 = (Ok a2, h2') →
    a1 = a2 ∧ agree W' h1' h2' ∧ same_or_untouched g1 g2 h1' h2'.

(** * Properties *)

(** ** Loops and lookups *)

Lemma lookup_variable_name vars k v :
  lookup_variable vars k = Some v → name v = k.
Proof.
  induction vars as [|w vars IH]; simpl; [done|].
  case_bool_decide; [by intros [= ->]|done].
Qed.

Lemma lookup_variable_elem vars k v :
  lookup_variable vars k = Some v → v ∈ vars.
Proof.
  induction vars as [|w vars IH]; simpl; [done|].
  case_bool_decide.
  - intros [= ->]. by left.
  - intros ?. right. by apply IH.
Qed.

Lemma lookup_variable_nodup vars v :
  NoDup (name <$> vars) → v ∈ vars → lookup_variable vars (name v) = Some v.
Proof.
  induction vars as [|w vars IH]; simpl; [by intros _ ?%elem_of_nil|].
  intros [Hw Hnd]%NoDup_cons [->|Hv]%elem_of_cons.
  - by rewrite bool_decide_true.
  - rewrite bool_decide_false; [by apply IH|].
    intros Heq. apply Hw. rewrite Heq. by apply list_elem_of_fmap_2.
Qed.

Lemma getitem_nodup ds v :
  NoDup (keys ds) → v ∈ ds_variables ds → getitem ds (name v) = Ok v.
Proof.
  intros Hnd Hv. unfold getitem. by rewrite (lookup_variable_nodup _ _ Hnd Hv).
Qed.

Lemma getitem_Ok ds k v :
  getitem ds k = Ok v → name v = k ∧ v ∈ ds_variables ds.
Proof.
  unfold getitem. destruct (lookup_variable _ _) eqn:E; [|done].
  intros [= ->]. eauto using lookup_variable_name, lookup_variable_elem.
Qed.

(** On a dictionary (no key twice) the loop over the keys is the loop over
    the variables. *)
Lemma for_each_variable_nodup {S} ds (body : S → string → nc_variable → outcome S) s :
  NoDup (keys ds) →
  for_each_variable ds body s
  = for_each (λ s v, body s (name v) v) s (ds_variables ds).
Proof.
  intros Hnd. unfold for_each_variable, keys.
  assert (Hgen : ∀ l s, (∀ v, v ∈ l → getitem ds (name v) = Ok v) →
    for_each (λ s k, v ← getitem ds k; body s k v) s (name <$> l)
    = for_each (λ s v, body s (name v) v) s l).
  { induction l as [|v l IH]; intros s' Hsub; simpl; [done|].
    rewrite Hsub; [|by left]. simpl.
    destruct (body s' (name v) v); simpl; [|done].
    apply IH. intros w Hw. apply Hsub. by right. }
  apply Hgen. eauto using getitem_nodup.
Qed.

Lemma for_each_Ok_inv {A S} (body : S → A → outcome S) s l r x :
  for_each body s l = Ok r → x ∈ l → ∃ s1 s2, body s1 x = Ok s2.
Proof.
  revert s. induction l as [|y l IH]; intros s; simpl; [by intros _ ?%elem_of_nil|].
  destruct (body s y) as [s'|e] eqn:E; simpl; [|done].
  intros Hr [->|Hx]%elem_of_cons; eauto.
Qed.

Lemma for_each_Raise_inv {A S} (body : S → A → outcome S) s l e :
  for_each body s l = Raise e → ∃ s1 x, x ∈ l ∧ body s1 x = Raise e.
Proof.
  revert s. induction l as [|y l IH]; intros s; simpl; [done|].
  destruct (body s y) as [s'|e'] eqn:E; simpl.
  - intros (s1 & x & ? & ?)%IH. exists s1, x. split; [by right|done].
  - intros [= ->]. exists s, y. split; [by left|done].
Qed.

(** ** The scan for the topology variable *)

Lemma topology_scan_step_safe acc k v :
  scan_safe v = true →
  topology_scan_step acc k v = Ok (if qualifies v then acc ++ [k] else acc).
Proof.
  unfold scan_safe, qualifies, topology_scan_step, getattr.
  destruct (ncattrs v !! "cf_role") as [[role|z]|]; simpl; [|done..].
  destruct (ncattrs v !! "topology_dimension") as [[d|d]|]; simpl; [| |done].
  - case_bool_decide as E; [done|]. intros _.
    rewrite bool_decide_false; [done|congruence].
  - intros _. case_bool_decide as E.
    + rewrite bool_decide_true; [done|congruence].
    + rewrite bool_decide_false; [done|congruence].
Qed.

Lemma topology_scan_step_stuck acc k v role :
  ncattrs v !! "cf_role" = Some (AStr role) →
  ncattrs v !! "topology_dimension" = None →
  topology_scan_step acc k v = Raise (AttributeError "topology_dimension").
Proof.
  intros Hrole Hdim. unfold topology_scan_step, getattr.
  by rewrite Hrole, Hdim.
Qed.

Lemma topology_scan_step_Raise acc k v e :
  topology_scan_step acc k v = Raise e →
  e = AttributeError "topology_dimension"
  ∨ e = TypeError ∧ numeric_dimension v = false.
Proof.
  unfold topology_scan_step, getattr, numeric_dimension.
  destruct (ncattrs v !! "cf_role") as [[role|z]|]; simpl; [|done..].
  destruct (ncattrs v !! "topology_dimension") as [[d|d]|]; simpl.
  - case_bool_decide; simpl; [|done]. intros [= <-]. by right.
  - case_bool_decide; simpl; done.
  - intros [= <-]. by left.
Qed.

(** On a dataset where the scan runs to its end, it returns the first
    qualifying variable in the order of the store, or none. *)
Lemma find_grid_topology_vars_safe ds :
  NoDup (keys ds) →
  forallb scan_safe (ds_variables ds) = true →
  find_grid_topology_vars ds
  = Ok (head (name <$> filter (λ v, qualifies v = true) (ds_variables ds))).
Proof.
  intros Hnd Hsafe. unfold find_grid_topology_vars.
  rewrite for_each_variable_nodup by done.
  assert (Hgen : ∀ l acc, forallb scan_safe l = true →
    for_each (λ s v, topology_scan_step s (name v) v) acc l
    = Ok (acc ++ (name <$> filter (λ v, qualifies v = true) l))).
  { induction l as [|v l IH]; intros acc Hl; simpl.
    - by rewrite app_nil_r.
    - simpl in Hl. apply andb_prop in Hl as [Hv Hl].
      rewrite topology_scan_step_safe by done. simpl.
      rewrite filter_cons. destruct (qualifies v) eqn:Q.
      + rewrite decide_True by done. rewrite IH by done.
        by rewrite <- app_assoc.
      + rewrite decide_False by done. by rewrite IH. }
  by rewrite Hgen.
Qed.

(** A dataset with no topology variable is refused, and the grid handed
    in is left as it was. *)
Lemma load_non_compliant `{Collaborators} ds grid_topology_vars g :
  find_grid_topology_vars ds = Ok None →
  load_grid_from_nc_dataset ds grid_topology_vars g
  = (Raise SGridNonCompliantError, g).
Proof.
  intros Hfind. unfold load_grid_from_nc_dataset, sgrid_compliant_file.
  by rewrite Hfind.
Qed.

(** An exception of the scan leaves the loader as it is. *)
Lemma load_scan_raises `{Collaborators} ds grid_topology_vars g e :
  find_grid_topology_vars ds = Raise e →
  load_grid_from_nc_dataset ds grid_topology_vars g = (Raise e, g).
Proof.
  intros Hfind. unfold load_grid_from_nc_dataset, sgrid_compliant_file.
  by rewrite Hfind.
Qed.

(** ** Claims on the scan and on the loader's errors *)

(** C1.  The station dataset has no qualifying variable, yet the loader
    does not raise the non-compliance error on it: the scan reads
    [topology_dimension] off the variable that has a [cf_role] and the
    [AttributeError] of that read escapes, through the compliance check,
    to the caller.  The grid handed in is left untouched. *)
Theorem load_station_dataset_not_classified `{Collaborators} grid_topology_vars g :
  filter (λ v, qualifies v = true) (ds_variables station_dataset) = []
  ∧ load_grid_from_nc_dataset station_dataset grid_topology_vars g
    = (Raise (AttributeError "topology_dimension"), g)
  ∧ Raise (AttributeError "topology_dimension")
    ≠ Raise (A:=unit) SGridNonCompliantError.
Proof.
  split; [by vm_compute|]. split; [|done].
  apply load_scan_raises. by vm_compute.
Qed.

(** C3.  On the station dataset no variable qualifies, and the scan does
    not return none: it stops with the [AttributeError] of reading
    [topology_dimension] off a variable that only has a [cf_role]. *)
Theorem scan_station_dataset_raises :
  filter (λ v, qualifies v = true) (ds_variables station_dataset) = []
  ∧ find_grid_topology_vars station_dataset
    = Raise (AttributeError "topology_dimension").
Proof. split; by vm_compute. Qed.

(** C9, as stated, fails: a variable whose [cf_role] is a number and which
    has no [topology_dimension] is skipped, the scan returns none and the
    loader raises the non-compliance error. *)
Lemma numeric_role_is_skipped :
  (∃ v, v ∈ ds_variables numeric_role_dataset
        ∧ is_Some (ncattrs v !! "cf_role")
        ∧ ncattrs v !! "topology_dimension" = None)
  ∧ find_grid_topology_vars numeric_role_dataset = Ok None
  ∧ load_grid_from_nc_dataset (H:=sample_collaborators)
      numeric_role_dataset None ∅
    = (Raise SGridNonCompliantError, ∅).
Proof.
  split; [|split; by vm_compute].
  eexists. split; [by left|]. split; [|by vm_compute].
  by vm_compute; eauto.
Qed.

(** C9, amended.  A variable whose [cf_role] is text, whatever the text,
    and which has no [topology_dimension] makes the scan stop with an
    error, and with it the compliance check and the loader, which leaves
    the grid untouched: the variable is not skipped and none is not
    returned.  The error is the [AttributeError] of the missing attribute
    when every [topology_dimension] of the dataset is a number; otherwise
    it can be the [TypeError] of comparing text with 2. *)
Theorem scan_stops_on_missing_topology_dimension `{Collaborators} ds v role :
  NoDup (keys ds) →
  v ∈ ds_variables ds →
  ncattrs v !! "cf_role" = Some (AStr role) →
  ncattrs v !! "topology_dimension" = None →
  ∃ e, (e = AttributeError "topology_dimension" ∨ e = TypeError)
       ∧ (forallb numeric_dimension (ds_variables ds) = true →
          e = AttributeError "topology_dimension")
       ∧ find_grid_topology_vars ds = Raise e
       ∧ sgrid_compliant_file ds = Raise e
       ∧ ∀ grid_topology_vars g,
           load_grid_from_nc_dataset ds grid_topology_vars g = (Raise e, g).
Proof.
  intros Hnd Hv Hrole Hdim.
  assert (∃ e, for_each (λ s w, topology_scan_step s (name w) w) []
                 (ds_variables ds) = Raise e) as [e He].
  { destruct (for_each _ _ _) as [r|e] eqn:E; [|by eauto].
    destruct (for_each_Ok_inv _ _ _ _ _ E Hv) as (s1 & s2 & Hstep).
    by rewrite (topology_scan_step_stuck _ _ _ _ Hrole Hdim) in Hstep. }
  assert (Hfind : find_grid_topology_vars ds = Raise e).
  { unfold find_grid_topology_vars.
    rewrite for_each_variable_nodup by done. by rewrite He. }
  destruct (for_each_Raise_inv _ _ _ _ He) as (s1 & w & Hw & Hstep).
  apply topology_scan_step_Raise in Hstep.
  exists e. split; [destruct Hstep as [?|[? _]]; auto|]. split.
  { intros Hnum. destruct Hstep as [->|[_ Hstep]]; [done|].
    rewrite forallb_forall in Hnum. rewrite Hnum in Hstep; [done|].
    by apply list_elem_of_In. }
  split; [done|]. split.
  - unfold sgrid_compliant_file. by rewrite Hfind.
  - intros. by apply load_scan_raises.
Qed.

Lemma scan_stops_on_station_dataset :
  find_grid_topology_vars station_dataset
  = Raise (AttributeError "topology_dimension").
Proof.
  destruct (scan_stops_on_missing_topology_dimension
              (H:=sample_collaborators) station_dataset
              (mk_variable "station" ["xi"] [("cf_role", AStr "timeseries_id")])
              "timeseries_id")
    as (e & _ & Hnum & Hfind & _).
  - apply (bool_decide_unpack _). by vm_compute.
  - by left.
  - by vm_compute.
  - by vm_compute.
  - rewrite Hfind. f_equal. apply Hnum. by vm_compute.
Defined.

(** C2, as stated, fails: a topology variable of dimension 4, named by
    the caller, does not make the loader raise the [ValueError] of the
    unsupported dimension when the compliance check, which comes first,
    does not answer true.  Next to a station variable the check raises
    the [AttributeError] of the scan; without a [cf_role] on any variable
    it answers false and the loader raises the non-compliance error. *)
Lemma unsupported_dimension_other_errors :
  (∃ v, getitem station_4d_dataset "grid" = Ok v
        ∧ ncattrs v !! "topology_dimension" = Some (AInt 4))
  ∧ load_grid_from_nc_dataset (H:=sample_collaborators)
      station_4d_dataset (Some "grid") ∅
    = (Raise (AttributeError "topology_dimension"), ∅)
  ∧ (∃ v, getitem unmarked_4d_dataset "grid" = Ok v
          ∧ ncattrs v !! "topology_dimension" = Some (AInt 4))
  ∧ load_grid_from_nc_dataset (H:=sample_collaborators)
      unmarked_4d_dataset (Some "grid") ∅
    = (Raise SGridNonCompliantError, ∅).
Proof.
  split; [eexists; split; vm_compute; reflexivity|].
  split; [vm_compute; reflexivity|].
  split; [eexists; split; vm_compute; reflexivity|].
  vm_compute. reflexivity.
Qed.

(** C2, amended.  When the compliance check answers true and the selected
    topology variable has a [topology_dimension] that is neither 2 nor 3,
    the loader raises the [ValueError] that names the unsupported
    dimension, and nothing else; no grid is returned.  The grid handed in
    has by then received [dimensions] and [grid_topology_vars]. *)
Theorem load_unsupported_topology_dimension `{Collaborators}
    ds grid_topology_vars topology_var nc_grid_topology_var d g :
  sgrid_compliant_file ds = Ok true →
  selects ds grid_topology_vars topology_var →
  getitem ds topology_var = Ok nc_grid_topology_var →
  ncattrs nc_grid_topology_var !! "topology_dimension" = Some d →
  d ≠ AInt 2 → d ≠ AInt 3 →
  load_grid_from_nc_dataset ds grid_topology_vars g
  = (Raise (ValueError (unsupported_message d)),
     <["grid_topology_vars" := VStr topology_var]>
       (<["dimensions" := grid_dims ds]> g)).
Proof.
  intros Hc Hsel Hvar Hd H2 H3.
  unfold load_grid_from_nc_dataset, mbind, M_bind, lift, setattr.
  rewrite Hc.
  destruct grid_topology_vars as [given|]; simpl in Hsel;
    [subst given; unfold mret, M_ret|rewrite Hsel];
    rewrite Hvar; unfold getattr; rewrite Hd; unfold attr_eq_int;
    by rewrite !bool_decide_false by done.
Qed.

Lemma load_dataset_4d :
  load_grid_from_nc_dataset (H:=sample_collaborators) dataset_4d None ∅
  = (Raise (ValueError "A topology dimension of 4 is unsupported"),
     <["grid_topology_vars" := VStr "grid"]>
       (<["dimensions" := grid_dims dataset_4d]> ∅)).
Proof.
  apply (load_unsupported_topology_dimension (H:=sample_collaborators)
           dataset_4d None "grid"
           (mk_variable "grid" []
              [("cf_role", AStr "grid_topology");
               ("topology_dimension", AInt 4)])
           (AInt 4) ∅).
  - by vm_compute.
  - by vm_compute.
  - by vm_compute.
  - by vm_compute.
  - done.
  - done.
Defined.

(** ** The resolvers, step by step *)

Lemma M_bind_Ok_inv {A B} (m : M A) (k : A → M B) g b g' :
  (m ≫= k) g = (Ok b, g') →
  ∃ a g1, m g = (Ok a, g1) ∧ k a g1 = (Ok b, g').
Proof.
  unfold mbind, M_bind. destruct (m g) as [[a|e] g1] eqn:E; [|done].
  intros Hk. by exists a, g1.
Qed.

Lemma returned_grid {A} (r : outcome A * sgrid) a :
  r.1 = Ok a → r = (Ok a, r.2).
Proof. destruct r as [o g]. simpl. by intros ->. Qed.

Tactic Notation "bind_inv" hyp(H) "as" ident(a) ident(g) ident(Hm) :=
  apply M_bind_Ok_inv in H as (a & g & Hm & H).

(** A load that returns went through one of the two resolvers, on the
    topology variable that was selected. *)
Lemma load_Ok_inv `{Collaborators} ds grid_topology_vars g g' :
  load_grid_from_nc_dataset ds grid_topology_vars g = (Ok (), g') →
  ∃ topology_var nc_grid_topology_var g1,
    sgrid_compliant_file ds = Ok true
    ∧ selects ds grid_topology_vars topology_var
    ∧ getitem ds topology_var = Ok nc_grid_topology_var
    ∧ g1 = <["grid_topology_vars" := VStr topology_var]>
             (<["dimensions" := grid_dims ds]> g)
    ∧ (ncattrs nc_grid_topology_var !! "topology_dimension" = Some (AInt 2)
       ∧ resolve_2d ds topology_var nc_grid_topology_var g1 = (Ok (), g')
       ∨ ncattrs nc_grid_topology_var !! "topology_dimension" = Some (AInt 3)
         ∧ resolve_3d ds topology_var nc_grid_topology_var g1 = (Ok (), g')).
Proof.
  unfold load_grid_from_nc_dataset. intros Hload.
  bind_inv Hload as c g0 Hc. unfold lift in Hc.
  injection Hc as Hc <-. destruct c; [|done].
  bind_inv Hload as u g1 Hdims. injection Hdims as _ <-.
  bind_inv Hload as sel g2 Hsel.
  bind_inv Hload as u' g3 Hset. injection Hset as _ <-.
  destruct sel as [tv|]; [|done].
  assert (selects ds grid_topology_vars tv
          ∧ g2 = <["dimensions" := grid_dims ds]> g) as [Hs ->].
  { destruct grid_topology_vars as [given|]; simpl in *.
    - by injection Hsel as -> <-.
    - unfold lift in Hsel. by injection Hsel as -> <-. }
  bind_inv Hload as var g4 Hvar. unfold lift in Hvar. injection Hvar as Hvar <-.
  bind_inv Hload as d g5 Hd. unfold lift in Hd. injection Hd as Hd <-.
  unfold getattr in Hd.
  destruct (ncattrs var !! "topology_dimension") as [d'|] eqn:Ed; [|done].
  injection Hd as ->. unfold attr_eq_int in Hload.
  eexists tv, var, _. do 3 (split; [done|]). split; [reflexivity|].
  case_bool_decide as E2; [left; by subst|].
  case_bool_decide as E3; [right; by subst|done].
Qed.

Lemma set_sgrid_time_no_time ds g :
  lookup_variable (ds_variables ds) "time" = None →
  lookup_variable (ds_variables ds) "Times" = None →
  set_sgrid_time ds g = (Raise (KeyError (VStr "Times")), g).
Proof.
  intros Htime HTimes. unfold set_sgrid_time, getitem.
  by rewrite Htime, HTimes.
Qed.

Lemma resolve_2d_time `{Collaborators} ds topology_var nc_grid_topology_var g g' :
  resolve_2d ds topology_var nc_grid_topology_var g = (Ok (), g') →
  ∃ g1 g2, set_sgrid_time ds g1 = (Ok (), g2).
Proof.
  unfold resolve_2d. intros Hr.
  do 10 (let u := fresh "u" in let g := fresh "g" in let Hm := fresh "Hm" in
         bind_inv Hr as u g Hm).
  bind_inv Hr as tt gt Htime. destruct tt. eauto.
Qed.

Lemma resolve_3d_time `{Collaborators} ds topology_var nc_grid_topology_var g g' :
  resolve_3d ds topology_var nc_grid_topology_var g = (Ok (), g') →
  ∃ g1 g2, set_sgrid_time ds g1 = (Ok (), g2).
Proof.
  unfold resolve_3d. intros Hr.
  do 11 (let u := fresh "u" in let g := fresh "g" in let Hm := fresh "Hm" in
         bind_inv Hr as u g Hm).
  bind_inv Hr as tt gt Htime. destruct tt. eauto.
Qed.

(** ** Deleting the attributes of the other topology *)

Lemma delete_all_Ok attrs g g' :
  delete_all attrs g = (Ok (), g') →
  (∀ a, a ∈ attrs → g' !! a = None) ∧ (∀ a, g !! a = None → g' !! a = None).
Proof.
  unfold delete_all. revert g.
  induction attrs as [|b attrs IH]; intros g; simpl.
  - intros [= <-]. split; [by intros a ?%elem_of_nil|done].
  - intros Hdel. bind_inv Hdel as u g1 Hb. unfold delattr in Hb.
    destruct (g !! b) eqn:Eb; [|done]. injection Hb as _ <-.
    destruct u. apply IH in Hdel as [Hin Hkeep]. split.
    + intros a [->|Ha]%elem_of_cons; [|by auto].
      apply Hkeep, lookup_delete_eq.
    + intros a Ha. apply Hkeep.
      destruct (decide (b = a)) as [->|Hne];
        [apply lookup_delete_eq|by rewrite lookup_delete_ne].
Qed.

Lemma resolve_2d_deletes `{Collaborators} ds topology_var nc_grid_topology_var g g' :
  resolve_2d ds topology_var nc_grid_topology_var g = (Ok (), g') →
  ∃ g1, delete_nd_attributes_2d g1 = (Ok (), g').
Proof.
  unfold resolve_2d. intros Hr.
  do 12 (let u := fresh "u" in let g := fresh "g" in let Hm := fresh "Hm" in
         bind_inv Hr as u g Hm).
  eauto.
Qed.

Lemma resolve_3d_deletes `{Collaborators} ds topology_var nc_grid_topology_var g g' :
  resolve_3d ds topology_var nc_grid_topology_var g = (Ok (), g') →
  ∃ g1, delete_nd_attributes_3d g1 = (Ok (), g').
Proof.
  unfold resolve_3d. intros Hr.
  do 13 (let u := fresh "u" in let g := fresh "g" in let Hm := fresh "Hm" in
         bind_inv Hr as u g Hm).
  eauto.
Qed.

Lemma set_dimensions_of_absent `{Collaborators} topology_variable topology_var
    attr dim_target padding_target g :
  ncattrs topology_var !! attr = None →
  set_dimensions_of topology_variable topology_var attr dim_target
    padding_target g = (Ok (), g).
Proof.
  intros Hattr. unfold set_dimensions_of, getattr. by rewrite Hattr.
Qed.

Lemma set_dimensions_of_present `{Collaborators} topology_variable topology_var
    attr dim_target padding_target g d p :
  ncattrs topology_var !! attr = Some d →
  parse_padding topology_variable d = Ok p →
  set_dimensions_of topology_variable topology_var attr dim_target
    padding_target g
  = (Ok (), <[padding_target := VList (VPadding <$> p)]>
              (<[dim_target := of_attr d]> g)).
Proof.
  intros Hattr Hp. unfold set_dimensions_of, getattr. rewrite Hattr. simpl.
  unfold mbind, M_bind, lift. by rewrite Hp.
Qed.


(** ** What the loader leaves alone *)

Lemma preserves_ret {A} S (a : A) : preserves S (mret a).
Proof. by intros g b _. Qed.

Lemma preserves_lift {A} S (o : outcome A) : preserves S (lift o).
Proof. by intros g b _. Qed.

Lemma preserves_bind {A B} S (m : M A) (k : A → M B) :
  preserves S m → (∀ a, preserves S (k a)) → preserves S (m ≫= k).
Proof.
  intros Hm Hk g b Hb. unfold mbind, M_bind.
  specialize (Hm g b Hb). destruct (m g) as [[a|e] g1]; simpl in *; [|done].
  by rewrite (Hk a g1 b Hb).
Qed.

Lemma preserves_bind_lift {A B} S (o : outcome A) (k : A → M B) :
  (∀ a, o = Ok a → preserves S (k a)) → preserves S (lift o ≫= k).
Proof.
  intros Hk. destruct o as [a|e]; [|by intros g b _].
  intros g b Hb. by apply (Hk a).
Qed.

Lemma preserves_setattr (S : string → Prop) attr v :
  S attr → preserves S (setattr attr v).
Proof.
  intros Hattr g b Hb. unfold setattr. simpl.
  apply lookup_insert_ne. by intros ->.
Qed.

Lemma preserves_delattr (S : string → Prop) attr :
  S attr → preserves S (delattr attr).
Proof.
  intros Hattr g b Hb. unfold delattr.
  destruct (g !! attr); simpl; [|done].
  apply lookup_delete_ne. by intros ->.
Qed.

Lemma preserves_getattr_grid S attr : preserves S (getattr_grid attr).
Proof. intros g b _. unfold getattr_grid. by destruct (g !! attr). Qed.

Lemma preserves_try_exceptM {A B} S (body : outcome A) caught
    (handler : M B) (orelse : A → M B) :
  preserves S handler → (∀ a, preserves S (orelse a)) →
  preserves S (try_exceptM body caught handler orelse).
Proof.
  intros Hh Ho. unfold try_exceptM. destruct body as [a|e]; [by auto|].
  destruct (caught e); [done|apply preserves_lift].
Qed.

Lemma preserves_for_eachM {A St} S (body : St → A → M St) s l :
  (∀ s x, preserves S (body s x)) → preserves S (for_eachM body s l).
Proof.
  intros Hbody. revert s. induction l as [|x l IH]; intros s; simpl.
  - apply preserves_ret.
  - apply preserves_bind; auto.
Qed.

Lemma preserves_read {A} S (f : sgrid → outcome A) :
  preserves S (λ g, (f g, g)).
Proof. by intros g b _. Qed.

Section Frame.
Context `{Collaborators}.
(** The attributes the loader may touch when it works on
    [nc_grid_topology_var]: the ones it names, and the names under which
    the variable descriptors are registered, provided registering a
    property touches that attribute only. *)
Variable ds : nc_dataset.
Variable nc_grid_topology_var : nc_variable.
Variable S : string → Prop.
Hypothesis S_touched : ∀ a, touched nc_grid_topology_var a = true → S a.
Hypothesis S_property :
  ∀ v sv, v ∈ ds_variables ds → create_variable v = Ok sv → S (variable sv).
Hypothesis add_property_frame :
  ∀ n v g a, a ≠ n → (add_property n v g).2 !! a = g !! a.

Lemma S_unconditional a : a ∈ unconditional_attributes → S a.
Proof.
  intros Ha. apply S_touched. unfold touched.
  by rewrite bool_decide_true.
Qed.

Lemma S_conditional attr d a :
  (attr, a) ∈ conditional_attributes →
  ncattrs nc_grid_topology_var !! attr = Some d → S a.
Proof.
  intros Hin Hattr. apply S_touched. unfold touched.
  apply orb_true_intro. right. apply existsb_exists.
  exists (attr, a). split; [by apply list_elem_of_In|].
  rewrite !bool_decide_true; [done| |done]. by rewrite Hattr.
Qed.

Local Ltac listed := apply (bool_decide_unpack _); by vm_compute.
Local Ltac named := apply S_unconditional; listed.
Lemma preserves_set_dimensions_of topology_variable
    attr dim_target padding_target :
  (attr, dim_target) ∈ conditional_attributes →
  (attr, padding_target) ∈ conditional_attributes →
  preserves S (set_dimensions_of topology_variable nc_grid_topology_var
                 attr dim_target padding_target).
Proof.
  intros Hdim Hpad. unfold set_dimensions_of, getattr.
  destruct (ncattrs nc_grid_topology_var !! attr) as [d|] eqn:Hattr; simpl;
    [|apply preserves_ret].
  apply preserves_bind; [apply preserves_lift|intros p].
  apply preserves_bind; [|intros []];
    apply preserves_setattr; by eapply S_conditional.
Qed.

Lemma preserves_set_coordinates_of attr wrap :
  (attr, attr) ∈ conditional_attributes →
  preserves S (set_coordinates_of nc_grid_topology_var attr wrap).
Proof.
  intros Hin. unfold set_coordinates_of, getattr.
  destruct (ncattrs nc_grid_topology_var !! attr) as [d|] eqn:Hattr; simpl;
    [|apply preserves_ret].
  apply preserves_bind; [apply preserves_lift|intros l].
  apply preserves_setattr. by eapply S_conditional.
Qed.

Lemma preserves_delete_all attrs :
  (∀ a, a ∈ attrs → S a) → preserves S (delete_all attrs).
Proof.
  intros Hattrs. unfold delete_all.
  induction attrs as [|b attrs IH]; simpl; [apply preserves_ret|].
  apply preserves_bind.
  - apply preserves_delattr, Hattrs. by left.
  - intros []. apply IH. intros a Ha. apply Hattrs. by right.
Qed.

Lemma preserves_variable_step acc nc_variable :
  preserves S (variable_step ds acc nc_variable).
Proof.
  unfold variable_step. destruct acc as [dvs gvs].
  apply preserves_bind_lift. intros nc_var [_ Hin]%getitem_Ok.
  apply preserves_bind_lift. intros sv Hcreate.
  apply preserves_bind; [apply preserves_read|]. intros slicing.
  apply preserves_bind; [|intros; apply preserves_ret].
  intros g a Ha. apply add_property_frame. intros ->.
  apply Ha. simpl. eauto.
Qed.

Local Ltac steps :=
  repeat first
    [ apply preserves_set_dimensions_of; [listed|listed]
    | apply preserves_set_coordinates_of; [listed]
    | apply preserves_for_eachM; intros; apply preserves_variable_step
    | apply preserves_delete_all; intros;
      apply S_unconditional, elem_of_app; right;
      apply elem_of_app; auto
    | apply preserves_ret | apply preserves_lift | apply preserves_read
    | apply preserves_getattr_grid
    | apply preserves_setattr; [named]
    | apply preserves_try_exceptM
    | apply preserves_bind
    | match goal with
      | |- ∀ _ : unit, _ => intros []
      | |- ∀ _ : _ * _, _ => intros [? ?]; cbv beta iota
      | |- ∀ _, _ => intros ?
      end ].

Lemma preserves_resolve_2d topology_var :
  preserves S (resolve_2d ds topology_var nc_grid_topology_var).
Proof.
  unfold resolve_2d, set_dimensions, set_topology_dimension,
    set_sgrid_topology, set_sgrid_vertical_dimensions,
    set_sgrid_node_coordinates, set_all_edge_attributes_2d,
    set_all_face_attributes_2d, set_cell_center_lat_lon_2d,
    set_cell_node_lat_lon_2d, set_sgrid_angles, set_sgrid_time,
    set_sgrid_variable_attributes, delete_nd_attributes_2d,
    set_edge1_dimensions, set_edge1_coordinates, set_edge2_dimensions,
    set_edge2_coordinates, set_face_dimensions, set_face_coordindates.
  steps.
Qed.

Lemma preserves_resolve_3d topology_var :
  preserves S (resolve_3d ds topology_var nc_grid_topology_var).
Proof.
  unfold resolve_3d, set_dimensions, set_topology_dimension,
    set_sgrid_topology, set_sgrid_node_coordinates,
    set_all_edge_attributes_3d, set_all_face_attributes_3d,
    set_volume_dimensions, set_volume_coordinates,
    set_cell_center_lat_lon_3d, set_cell_node_lat_lon_3d,
    set_sgrid_angles, set_sgrid_time,
    set_sgrid_variable_attributes, delete_nd_attributes_3d,
    set_edge1_dimensions, set_edge1_coordinates, set_edge2_dimensions,
    set_edge2_coordinates, set_edge3_dimensions, set_edge3_coordinates,
    set_face1_dimensions, set_face1_coordinates, set_face2_dimensions,
    set_face2_coordinates, set_face3_dimensions, set_face3_coordinates.
  steps.
Qed.

Lemma preserves_load grid_topology_vars topology_var :
  selects ds grid_topology_vars topology_var →
  getitem ds topology_var = Ok nc_grid_topology_var →
  preserves S (load_grid_from_nc_dataset ds grid_topology_vars).
Proof.
  intros Hsel Hvar. unfold load_grid_from_nc_dataset.
  apply preserves_bind; [apply preserves_lift|]. intros [|];
    [|apply preserves_lift].
  apply preserves_bind; [apply preserves_setattr; named|]. intros [].
  assert (Hattr : ∀ k : option string → M unit,
            preserves S (k (Some topology_var)) →
            preserves S (match grid_topology_vars with
                         | None => lift (find_grid_topology_vars ds)
                         | Some _ => mret grid_topology_vars
                         end ≫= k)).
  { intros k Hk. destruct grid_topology_vars as [given|]; simpl in Hsel.
    - subst given. intros g a Ha. by apply Hk.
    - rewrite Hsel. intros g a Ha. by apply Hk. }
  apply Hattr.
  apply preserves_bind; [apply preserves_setattr; named|]. intros [].
  rewrite Hvar. apply preserves_bind_lift. intros var' [= <-].
  apply preserves_bind; [apply preserves_lift|]. intros d.
  repeat case_match;
    auto using preserves_resolve_2d, preserves_resolve_3d, preserves_lift.
Qed.
End Frame.

(** What the loader does not resolve shows in the result: the same
    dataset, loaded into a fresh grid and into a grid on which
    [edge1_coordinates] had been set, gives two grids that differ on that
    field, the topology variable having no [edge1_coordinates] to
    overwrite it with. *)
Lemma load_depends_on_the_grid_handed_in :
  let r1 := load_grid_from_nc_dataset (H:=sample_collaborators)
              dataset_2d None fresh_grid in
  let r2 := load_grid_from_nc_dataset (H:=sample_collaborators)
              dataset_2d None preset_grid in
  r1.1 = Ok () ∧ r2.1 = Ok ()
  ∧ r1.2 !! "edge1_coordinates" = Some VNone
  ∧ r2.2 !! "edge1_coordinates" = Some (VTuple [VStr "lon_u"; VStr "lat_u"])
  ∧ r1.2 ≠ r2.2.
Proof.
  intros r1 r2.
  split; [vm_compute; reflexivity|].
  split; [vm_compute; reflexivity|].
  split; [vm_compute; reflexivity|].
  split; [vm_compute; reflexivity|].
  intros Heq. apply (f_equal (λ g : sgrid, g !! "edge1_coordinates")) in Heq.
  vm_compute in Heq. discriminate Heq.
Qed.

(** The frame of a load: an attribute which the loader, working on the
    selected topology variable, neither assigns nor deletes, and under
    which no variable descriptor is registered, has in the resulting grid
    the value it had in the grid handed in. *)
Theorem load_keeps_untouched_attributes `{Collaborators}
    ds grid_topology_vars topology_var nc_grid_topology_var a :
  (∀ n v g b, b ≠ n → (add_property n v g).2 !! b = g !! b) →
  selects ds grid_topology_vars topology_var →
  getitem ds topology_var = Ok nc_grid_topology_var →
  touched nc_grid_topology_var a = false →
  (∀ v sv, v ∈ ds_variables ds → create_variable v = Ok sv →
           variable sv ≠ a) →
  (∀ g, (load_grid_from_nc_dataset ds grid_topology_vars g).2 !! a = g !! a)
  ∧ (∀ g1 g2,
       (load_grid_from_nc_dataset ds grid_topology_vars g1).2 !! a
       = (load_grid_from_nc_dataset ds grid_topology_vars g2).2 !! a
       ↔ g1 !! a = g2 !! a).
Proof.
  intros Hadd Hsel Hvar Ha Hprop.
  set (S := λ b, touched nc_grid_topology_var b = true
                 ∨ ∃ v sv, v ∈ ds_variables ds
                           ∧ create_variable v = Ok sv ∧ variable sv = b).
  assert (Hframe : preserves S
            (load_grid_from_nc_dataset ds grid_topology_vars)).
  { apply (preserves_load ds nc_grid_topology_var S) with topology_var;
      unfold S; eauto 10. }
  assert (HnS : ¬ S a).
  { intros [Ht|(v & sv & Hv & Hsv & Heq)]; [congruence|].
    by apply (Hprop v sv). }
  split.
  - intros g. by apply Hframe.
  - intros g1 g2. by rewrite !(Hframe _ a HnS).
Qed.

Lemma load_keeps_edge1_coordinates :
  (load_grid_from_nc_dataset (H:=sample_collaborators)
     dataset_2d None preset_grid).2 !! "edge1_coordinates"
  = Some (VTuple [VStr "lon_u"; VStr "lat_u"]).
Proof.
  destruct (load_keeps_untouched_attributes (H:=sample_collaborators)
              dataset_2d None "grid"
              (mk_variable "grid" []
                 [("cf_role", AStr "grid_topology");
                  ("topology_dimension", AInt 2);
                  ("node_dimensions", AStr "xi_psi eta_psi");
                  ("node_coordinates", AStr "lon_psi lat_psi");
                  ("face_coordinates", AStr "lon_rho lat_rho")])
              "edge1_coordinates") as [Hframe _].
  - intros n v g b Hne. simpl. unfold setattr. simpl.
    apply lookup_insert_ne. by intros ->.
  - vm_compute. reflexivity.
  - vm_compute. reflexivity.
  - vm_compute. reflexivity.
  - intros v sv Hv [= <-]. simpl. revert v Hv.
    apply Forall_forall, (bool_decide_unpack _). vm_compute. exact I.
  - rewrite Hframe. vm_compute. reflexivity.
Defined.

(** ** Text *)

Lemma append_nil_l s : "" +:+ s = s.
Proof. reflexivity. Qed.

Lemma append_cons a s t : String a s +:+ t = String a (s +:+ t).
Proof. reflexivity. Qed.

Lemma prefix_spec sub s :
  String.prefix sub s = true ↔ ∃ after, s = sub +:+ after.
Proof.
  revert s. induction sub as [|a sub IH]; intros s.
  - split.
    + intros _. exists s. reflexivity.
    + intros _. by destruct s.
  - destruct s as [|b s]; simpl.
    + split.
      * intros Hf. discriminate Hf.
      * intros [after Heq]. discriminate Heq.
    + destruct (ascii_dec a b) as [->|Hne].
      * rewrite IH. split; intros [after Heq]; exists after.
        -- by rewrite append_cons, <- Heq.
        -- rewrite append_cons in Heq. by injection Heq.
      * split.
        -- intros Hf. discriminate Hf.
        -- intros [after Heq]. rewrite append_cons in Heq.
           injection Heq as Hb _. by subst.
Qed.

Lemma contains_spec sub s :
  PyStr.contains sub s = true ↔ ∃ before after, s = before +:+ sub +:+ after.
Proof.
  induction s as [|b s IH].
  - change (PyStr.contains sub "") with (String.prefix sub "" || false).
    rewrite orb_false_r, prefix_spec. split.
    + intros [after Heq]. by exists "", after.
    + intros (before & after & Heq). destruct before; [by exists after|done].
  - change (PyStr.contains sub (String b s))
      with (String.prefix sub (String b s) || PyStr.contains sub s).
    rewrite orb_true_iff, prefix_spec, IH. split.
    + intros [[after Heq]|(before & after & Heq)].
      * by exists "", after.
      * exists (String b before), after. by rewrite append_cons, <- Heq.
    + intros (before & after & Heq). destruct before as [|c before].
      * left. by exists after.
      * right. rewrite append_cons in Heq. injection Heq as _ Heq.
        by exists before, after.
Qed.

Lemma lower_append s t :
  PyStr.lower (s +:+ t) = PyStr.lower s +:+ PyStr.lower t.
Proof.
  induction s as [|a s IH]; [done|].
  rewrite append_cons. simpl. by rewrite IH, append_cons.
Qed.

Lemma lower_append_inv s a b :
  PyStr.lower s = a +:+ b →
  ∃ s1 s2, s = s1 +:+ s2 ∧ PyStr.lower s1 = a ∧ PyStr.lower s2 = b.
Proof.
  revert s. induction a as [|c a IH]; intros s.
  - rewrite append_nil_l. intros Heq. by exists "", s.
  - rewrite append_cons. destruct s as [|d s]; [done|]. simpl.
    intros [= Hc (s1 & s2 & -> & <- & <-)%IH].
    exists (String d s1), s2. by rewrite append_cons, <- Hc.
Qed.

(** The test [sub in name.lower()] is the case-insensitive substring
    match. *)
Lemma contains_lower_spec sub s :
  PyStr.contains sub (PyStr.lower s) = true ↔ occurs_ignoring_case sub s.
Proof.
  rewrite contains_spec. unfold occurs_ignoring_case. split.
  - intros (before & after & Heq).
    apply lower_append_inv in Heq as (s1 & s23 & -> & _ & Heq).
    apply lower_append_inv in Heq as (s2 & s3 & -> & Hsub & _).
    by exists s1, s2, s3.
  - intros (s1 & s2 & s3 & -> & <-).
    exists (PyStr.lower s1), (PyStr.lower s3). by rewrite !lower_append.
Qed.

Lemma contains_lower_false sub s :
  PyStr.contains sub (PyStr.lower s) = false ↔ ¬ occurs_ignoring_case sub s.
Proof.
  rewrite <- contains_lower_spec. by destruct (PyStr.contains _ _).
Qed.

(** ** The coordinate inference without a [coordinates] attribute *)

Lemma for_each_filter {A} (keep : A → bool) (l : list A) acc :
  for_each (λ s v, Ok (if keep v then s ++ [v] else s)) acc l
  = Ok (acc ++ filter (λ v, keep v = true) l).
Proof.
  revert acc. induction l as [|v l IH]; intros acc; simpl.
  - by rewrite app_nil_r.
  - rewrite filter_cons. destruct (keep v) eqn:K.
    + rewrite decide_True by done. by rewrite IH, <- app_assoc.
    + rewrite decide_False by done. apply IH.
Qed.

Lemma for_each_ext {A S} (f g : S → A → outcome S) s l :
  (∀ s x, f s x = g s x) → for_each f s l = for_each g s l.
Proof.
  intros Hfg. revert s. induction l as [|x l IH]; intros s; simpl; [done|].
  rewrite Hfg. destruct (g s x); simpl; auto.
Qed.

Lemma candidate_spec location_var v :
  candidate location_var v = true
  ↔ name v ≠ name location_var ∧ dimensions v ≠ []
    ∧ ∀ d, d ∈ dimensions v → d ∈ dimensions location_var.
Proof.
  unfold candidate.
  rewrite !andb_true_iff, !bool_decide_eq_true, forallb_forall.
  split.
  - intros [[Hsub Hne] Hdims]. do 2 (split; [done|]).
    intros d Hd%list_elem_of_In.
    specialize (Hsub d Hd). by apply bool_decide_eq_true in Hsub.
  - intros (Hne & Hdims & Hsub). split; [split|]; [|done..].
    intros d Hd%list_elem_of_In. apply bool_decide_eq_true. by apply Hsub.
Qed.

(** The test the source makes on sets of dimension names is [candidate]. *)
Lemma candidate_sets location_var v :
  bool_decide ((list_to_set (dimensions v) : gset string)
               ⊆ list_to_set (dimensions location_var))
  && bool_decide (name v ≠ name location_var)
  && bool_decide (0 < size (list_to_set (dimensions v) : gset string))%nat
  = candidate location_var v.
Proof.
  unfold candidate. f_equal; [f_equal|].
  - apply eq_true_iff_eq. rewrite bool_decide_eq_true, forallb_forall.
    split.
    + intros Hsub d Hd%list_elem_of_In. apply bool_decide_eq_true.
      assert (d ∈ (list_to_set (dimensions location_var) : gset string))
        as Hin by (apply Hsub; by apply elem_of_list_to_set).
      by apply elem_of_list_to_set in Hin.
    + intros Hall d Hd%elem_of_list_to_set. apply elem_of_list_to_set.
      apply list_elem_of_In, Hall in Hd. by apply bool_decide_eq_true in Hd.
  - apply bool_decide_ext. destruct (dimensions v) as [|d dims].
    + rewrite list_to_set_nil, size_empty. split; [lia|done].
    + split; [done|]. intros _. rewrite list_to_set_cons.
      destruct (decide (size ({[d]} ∪ list_to_set dims : gset string) = 0%nat))
        as [Hz|Hnz]; [|lia].
      apply size_empty_iff in Hz. set_solver.
Qed.

Lemma potential_coordinates_spec ds location_var :
  NoDup (keys ds) →
  potential_coordinates ds (dimensions location_var) (name location_var)
  = Ok (filter (λ v, candidate location_var v = true) (ds_variables ds)).
Proof.
  intros Hnd. unfold potential_coordinates.
  rewrite for_each_variable_nodup by done.
  etrans; [|apply (for_each_filter (candidate location_var) _ [])].
  apply for_each_ext. intros acc v. by rewrite candidate_sets.
Qed.

(** C7, as stated, fails: the name [lonlat] contains "lat", yet it fills
    the x slot only; the y slot stays unfilled and the inference for the
    face variable of the sample dataset returns none. *)
Lemma name_with_lon_and_lat_fills_x_only :
  PyStr.contains "lat" (PyStr.lower "lonlat") = true
  ∧ location_slots lonlat_dataset "face"
    = Ok {| x_coordinate := Some "lonlat"; y_coordinate := None;
            z_coordinate := None |}
  ∧ find_coordinates_by_location lonlat_dataset "face" 2 = Ok None.
Proof. repeat split; vm_compute; reflexivity. Qed.

(** C7, amended.  For a location variable without a [coordinates]
    attribute, the step of the loop collects exactly the other variables
    whose dimensions are a non-empty subset of its own, in the order of
    the store, and classifies each by a case-insensitive substring match
    on its name: a name containing "lon" fills the x slot; a name
    containing "lat" and not "lon" fills the y slot; any other name fills
    the z slot.  The loop then goes on. *)
Theorem fallback_collects_and_classifies ds location_var s :
  NoDup (keys ds) →
  location_var ∈ ds_variables ds →
  ncattrs location_var !! "coordinates" = None →
  location_step ds s (name location_var)
  = Ok (Continue,
        foldl classify_potential s
          (filter (λ v, candidate location_var v = true) (ds_variables ds)))
  ∧ (∀ v, v ∈ filter (λ v, candidate location_var v = true) (ds_variables ds)
          ↔ v ∈ ds_variables ds
            ∧ name v ≠ name location_var
            ∧ dimensions v ≠ []
            ∧ ∀ d, d ∈ dimensions v → d ∈ dimensions location_var)
  ∧ (∀ s pc,
       (occurs_ignoring_case "lon" (name pc) →
        classify_potential s pc = set_x s (name pc))
       ∧ (occurs_ignoring_case "lat" (name pc) →
          ¬ occurs_ignoring_case "lon" (name pc) →
          classify_potential s pc = set_y s (name pc))
       ∧ (¬ occurs_ignoring_case "lon" (name pc) →
          ¬ occurs_ignoring_case "lat" (name pc) →
          classify_potential s pc = set_z s (name pc))).
Proof.
  intros Hnd Hin Hcoord. split; [|split].
  - unfold location_step.
    rewrite (getitem_nodup _ _ Hnd Hin). simpl.
    unfold getattr. rewrite Hcoord. simpl.
    by rewrite potential_coordinates_spec.
  - intros v. rewrite list_elem_of_filter, candidate_spec. tauto.
  - intros s' pc. unfold classify_potential. repeat split.
    + intros Hlon%contains_lower_spec. by rewrite Hlon.
    + intros Hlat%contains_lower_spec Hlon%contains_lower_false.
      by rewrite Hlon, Hlat.
    + intros Hlon%contains_lower_false Hlat%contains_lower_false.
      by rewrite Hlon, Hlat.
Qed.

Lemma fallback_on_two_faces_dataset :
  location_step two_faces_dataset no_slots "u"
  = Ok (Continue,
        {| x_coordinate := Some "lon_u"; y_coordinate := Some "lat_u";
           z_coordinate := None |}).
Proof.
  destruct (fallback_collects_and_classifies two_faces_dataset
              (mk_variable "u" ["eta_u"; "xi_u"] [("location", AStr "face")])
              no_slots) as (Hstep & _ & _).
  - apply (bool_decide_unpack _). vm_compute. exact I.
  - left.
  - vm_compute. reflexivity.
  - etrans; [exact Hstep|]. vm_compute. reflexivity.
Defined.

(** ** The result of the coordinate inference *)

Lemma for_each_invariant {A S} (P : S → Prop) (body : S → A → outcome S) s l r :
  P s →
  (∀ s x s', x ∈ l → P s → body s x = Ok s' → P s') →
  for_each body s l = Ok r → P r.
Proof.
  revert s. induction l as [|x l IH]; intros s Hs Hbody; simpl.
  - by intros [= <-].
  - destruct (body s x) as [s'|e] eqn:E; simpl; [|done].
    apply IH.
    + apply (Hbody s x); [by left|done..].
    + intros s1 y s2 Hy. apply Hbody. by right.
Qed.

Lemma for_each_break_invariant {A S} (P : S → Prop)
    (body : S → A → outcome (loop_ctl * S)) s l r :
  P s →
  (∀ s x c s', x ∈ l → P s → body s x = Ok (c, s') → P s') →
  for_each_break body s l = Ok r → P r.
Proof.
  revert s. induction l as [|x l IH]; intros s Hs Hbody; simpl.
  - by intros [= <-].
  - destruct (body s x) as [[c s']|e] eqn:E; simpl; [|done].
    assert (P s') by (apply (Hbody s x c); [by left|done..]).
    destruct c.
    + apply IH; [done|]. intros s1 y c s2 Hy. apply Hbody. by right.
    + by intros [= <-].
Qed.

Lemma getitem_keys ds k : k ∈ keys ds → ∃ v, getitem ds k = Ok v.
Proof.
  unfold keys, getitem. induction (ds_variables ds) as [|w vars IH]; simpl.
  - by intros ?%elem_of_nil.
  - intros [->|Hk]%elem_of_cons.
    + rewrite bool_decide_true by done. eauto.
    + case_bool_decide; eauto.
Qed.

Lemma getitem_in_keys ds k v : getitem ds k = Ok v → k ∈ keys ds.
Proof.
  intros [<- Hv]%getitem_Ok. unfold keys. by apply list_elem_of_fmap_2.
Qed.

(** Without a variable that carries the tag, the search finds nothing. *)
Lemma search_variables_by_location_none ds location_str :
  (∀ v, v ∈ ds_variables ds → tagged location_str v = false) →
  search_variables_by_location ds location_str = Ok [].
Proof.
  intros Hnone. unfold search_variables_by_location, for_each_variable.
  assert (Hgen : ∀ l, (∀ k, k ∈ l → k ∈ keys ds) →
    for_each (λ s nc_var,
        nc_var_obj ← getitem ds nc_var;
        try_except (getattr nc_var_obj "location") is_AttributeError (Ok s)
          (λ nc_var_location,
             Ok (if attr_eq_str nc_var_location location_str
                 then s ++ [nc_var] else s))) [] l = Ok []).
  { induction l as [|k l IH]; intros Hl; simpl; [done|].
    destruct (getitem_keys ds k) as [v Hv]; [apply Hl; by left|].
    rewrite Hv. simpl. apply getitem_Ok in Hv as [_ Hin].
    specialize (Hnone v Hin). unfold tagged in Hnone.
    apply bool_decide_eq_false in Hnone.
    unfold getattr, attr_eq_str.
    destruct (ncattrs v !! "location") as [a|]; simpl.
    - rewrite bool_decide_false by congruence. simpl.
      apply IH. intros k' Hk'. apply Hl. by right.
    - apply IH. intros k' Hk'. apply Hl. by right. }
  by apply Hgen.
Qed.

Lemma potential_coordinates_elem ds dims k pcs pc :
  potential_coordinates ds dims k = Ok pcs → pc ∈ pcs → name pc ∈ keys ds.
Proof.
  unfold potential_coordinates, for_each_variable. intros Hpcs.
  revert pc. pattern pcs.
  eapply for_each_invariant; [| |exact Hpcs]; simpl.
  - by intros pc ?%elem_of_nil.
  - intros acc k' acc' _ Hacc.
    destruct (getitem ds k') as [v|e] eqn:Hv; simpl; [|done].
    intros [= <-] pc. case_match; [|by auto].
    intros [Hpc| ->%list_elem_of_singleton]%elem_of_app; [by auto|].
    apply getitem_Ok in Hv as [<- Hin]. unfold keys.
    by apply list_elem_of_fmap_2.
Qed.

Lemma slots_named_set_x ds s n :
  slots_named ds s → n ∈ keys ds → slots_named ds (set_x s n).
Proof. intros Hs Hn m. unfold set_x. simpl. intros [[= <-]|[?|?]]; auto. Qed.

Lemma slots_named_set_y ds s n :
  slots_named ds s → n ∈ keys ds → slots_named ds (set_y s n).
Proof. intros Hs Hn m. unfold set_y. simpl. intros [?|[[= <-]|?]]; auto. Qed.

Lemma slots_named_set_z ds s n :
  slots_named ds s → n ∈ keys ds → slots_named ds (set_z s n).
Proof. intros Hs Hn m. unfold set_z. simpl. intros [?|[?|[= <-]]]; auto. Qed.

Lemma slots_named_classify_potential ds s pcs :
  slots_named ds s → (∀ pc, pc ∈ pcs → name pc ∈ keys ds) →
  slots_named ds (foldl classify_potential s pcs).
Proof.
  revert s. induction pcs as [|pc pcs IH]; intros s Hs Hpcs; simpl; [done|].
  apply IH; [|intros; apply Hpcs; by right].
  assert (name pc ∈ keys ds) by (apply Hpcs; by left).
  unfold classify_potential. repeat case_match;
    auto using slots_named_set_x, slots_named_set_y, slots_named_set_z.
Qed.

Lemma classify_token_Ok ds s lvc s' :
  classify_token ds s lvc = Ok s' →
  lvc ∈ keys ds ∧ (slots_named ds s → slots_named ds s').
Proof.
  unfold classify_token.
  destruct (getitem ds lvc) as [v|e] eqn:Hv; simpl; [|done].
  apply getitem_in_keys in Hv. intros Hs'. split; [done|]. intros Hs.
  revert Hs'. unfold try_except.
  destruct (getattr v "standard_name") as [sn|e]; simpl.
  - intros [= <-]. repeat case_match;
      auto using slots_named_set_x, slots_named_set_y.
  - destruct (is_AttributeError e); [|done].
    intros [= <-]. repeat case_match;
      auto using slots_named_set_x, slots_named_set_y.
Qed.

Lemma classify_coordinates_Ok ds s c s' :
  classify_coordinates ds s c = Ok s' → slots_named ds s → slots_named ds s'.
Proof.
  unfold classify_coordinates. destruct (py_strip c) as [stripped|e]; [|done].
  simpl. destruct (for_each _ _ _) as [s1|e] eqn:Hloop; simpl; [|done].
  intros [= <-] Hs.
  assert (slots_named ds s1).
  { revert Hloop. apply for_each_invariant; [done|].
    intros s2 lvc s3 _ Hs2 Hstep. by apply classify_token_Ok in Hstep as [_ ?]; auto. }
  case_bool_decide; [|done].
  destruct (last (PyStr.split " " stripped)) as [lvc|] eqn:Hlast; [|done].
  apply slots_named_set_z; [done|].
  apply last_Some_elem_of in Hlast.
  destruct (for_each_Ok_inv _ _ _ _ _ Hloop Hlast) as (s2 & s3 & Hstep).
  by apply classify_token_Ok in Hstep as [? _].
Qed.

(** The slots only ever hold names of variables of the dataset. *)
Lemma location_slots_named ds location_str s :
  location_slots ds location_str = Ok s → slots_named ds s.
Proof.
  unfold location_slots.
  destruct (search_variables_by_location ds location_str) as [l|e];
    simpl; [|done].
  apply for_each_break_invariant.
  - intros n. unfold no_slots. simpl. by intros [?|[?|?]].
  - intros s1 k c s2 _ Hs1. unfold location_step.
    destruct (getitem ds k) as [lv|e] eqn:Hlv; simpl; [|done].
    unfold try_except. destruct (getattr lv "coordinates") as [coords|e]; simpl.
    + destruct (classify_coordinates ds s1 coords) as [s3|e] eqn:Hc; simpl;
        [|done].
      intros [= _ <-]. by eapply classify_coordinates_Ok.
    + destruct (is_AttributeError e); [|done].
      destruct (potential_coordinates ds (dimensions lv) k) as [pcs|e'] eqn:Hp;
        simpl; [|done].
      intros [= _ <-]. apply slots_named_classify_potential; [done|].
      intros pc Hpc. by eapply potential_coordinates_elem.
Qed.

Lemma truthy_named ds o :
  "" ∉ keys ds → (∀ n, o = Some n → n ∈ keys ds) →
  truthy o = bool_decide (o ≠ None).
Proof.
  intros Hempty Ho. destruct o as [n|]; simpl; [|done].
  assert (n ∈ keys ds) by auto.
  rewrite bool_decide_false; [done|]. by intros ->.
Qed.

Lemma forallb_truthy ds (l : list (option string)) :
  "" ∉ keys ds → (∀ n, Some n ∈ l → n ∈ keys ds) →
  forallb truthy l = true ↔ None ∉ l.
Proof.
  intros Hempty. induction l as [|o l IH]; intros Hl; simpl.
  - split; [intros _; apply not_elem_of_nil|done].
  - rewrite andb_true_iff, IH, not_elem_of_cons
      by (intros n Hn; apply Hl; by right).
    rewrite (truthy_named ds o Hempty) by (intros n ->; apply Hl; by left).
    rewrite bool_decide_eq_true. split; intros [? ?]; split; congruence.
Qed.

Lemma all_filled (l : list (option string)) :
  None ∉ l → ∃ names, l = Some <$> names.
Proof.
  induction l as [|o l IH].
  - intros _. by exists [].
  - intros [Ho [names ->]%IH]%not_elem_of_cons.
    destruct o as [n|]; [|done]. by exists (n :: names).
Qed.

Lemma required_slots_named ds topology_dim s n :
  slots_named ds s → Some n ∈ required_slots topology_dim s → n ∈ keys ds.
Proof.
  intros Hs. unfold required_slots.
  case_bool_decide; intros Hin; apply Hs;
    repeat (apply elem_of_cons in Hin as [[= Hin]|Hin]; [by auto|]);
    by apply elem_of_nil in Hin.
Qed.

Lemma required_slots_length topology_dim s :
  List.length (required_slots topology_dim s)
  = if bool_decide (topology_dim = 2) then 2%nat else 3%nat.
Proof. unfold required_slots. by case_bool_decide. Qed.

(** C6.  On a dataset whose variables have non-empty names: when no
    variable carries the location tag the inference returns none; and when
    the classification has run to its end, the inference returns none if
    a slot required for the topology dimension is unfilled, and otherwise
    the tuple of the names in the required slots, 2 of them for topology
    dimension 2 and 3 of them otherwise. *)
Theorem find_coordinates_by_location_result ds location_str topology_dim :
  "" ∉ keys ds →
  ((∀ v, v ∈ ds_variables ds →
         ncattrs v !! "location" ≠ Some (AStr location_str)) →
   find_coordinates_by_location ds location_str topology_dim = Ok None)
  ∧ (∀ s, location_slots ds location_str = Ok s →
       (None ∈ required_slots topology_dim s →
        find_coordinates_by_location ds location_str topology_dim = Ok None)
       ∧ (None ∉ required_slots topology_dim s →
          ∃ names,
            find_coordinates_by_location ds location_str topology_dim
            = Ok (Some (Some <$> names))
            ∧ required_slots topology_dim s = Some <$> names
            ∧ List.length names
              = if bool_decide (topology_dim = 2) then 2%nat else 3%nat)).
Proof.
  intros Hempty. split.
  - intros Hnone. unfold find_coordinates_by_location, location_slots.
    rewrite search_variables_by_location_none.
    + simpl. unfold coordinate_result, coordinates_of.
      by case_bool_decide.
    + intros v Hv. unfold tagged. apply bool_decide_eq_false. by apply Hnone.
  - intros s Hs. pose proof (location_slots_named _ _ _ Hs) as Hnamed.
    unfold find_coordinates_by_location. rewrite Hs. simpl.
    unfold coordinate_result.
    change (coordinates_of topology_dim s)
      with (required_slots topology_dim s).
    pose proof (forallb_truthy ds (required_slots topology_dim s) Hempty
                  (λ n, required_slots_named ds topology_dim s n Hnamed))
      as Hall.
    destruct (forallb truthy (required_slots topology_dim s)) eqn:E.
    + assert (Hfilled : None ∉ required_slots topology_dim s)
        by by apply Hall.
      split; [done|]. intros _.
      destruct (all_filled _ Hfilled) as [names Hnames].
      exists names. rewrite Hnames. do 2 (split; [done|]).
      rewrite <- (length_fmap Some names), <- Hnames.
      apply required_slots_length.
    + split; [done|]. intros Hfilled%Hall. congruence.
Qed.

Lemma find_coordinates_samples :
  find_coordinates_by_location three_faces_dataset "edge1" 2 = Ok None
  ∧ find_coordinates_by_location two_faces_dataset "face" 3 = Ok None
  ∧ ∃ names,
      find_coordinates_by_location three_faces_dataset "face" 3
      = Ok (Some (Some <$> names)) ∧ List.length names = 3%nat.
Proof.
  assert (Hempty3 : "" ∉ keys three_faces_dataset).
  { apply (bool_decide_unpack _). vm_compute. exact I. }
  assert (Hempty2 : "" ∉ keys two_faces_dataset).
  { apply (bool_decide_unpack _). vm_compute. exact I. }
  destruct (find_coordinates_by_location_result
              three_faces_dataset "edge1" 2 Hempty3) as [Hnone _].
  destruct (find_coordinates_by_location_result
              two_faces_dataset "face" 3 Hempty2) as [_ Hslots2].
  destruct (find_coordinates_by_location_result
              three_faces_dataset "face" 3 Hempty3) as [_ Hslots3].
  split; [|split].
  - apply Hnone. apply Forall_forall, (bool_decide_unpack _).
    vm_compute. exact I.
  - apply (Hslots2 {| x_coordinate := Some "lon_v";
                      y_coordinate := Some "lat_v";
                      z_coordinate := None |}).
    + vm_compute. reflexivity.
    + apply (bool_decide_unpack _). vm_compute. exact I.
  - destruct (Hslots3 {| x_coordinate := Some "lon_rho";
                         y_coordinate := Some "lat_rho";
                         z_coordinate := Some "depth_u" |})
      as [_ Htuple]; [vm_compute; reflexivity|].
    destruct Htuple as (names & Hfind & _ & Hlen).
    + apply (bool_decide_unpack _). vm_compute. exact I.
    + exists names. split; [exact Hfind|exact Hlen].
Defined.

(** ** Several variables with the same location *)

Lemma location_step_fallback ds s k v :
  getitem ds k = Ok v →
  ncattrs v !! "coordinates" = None →
  location_step ds s k
  = (pcs ← potential_coordinates ds (dimensions v) k;
     Ok (Continue, foldl classify_potential s pcs)).
Proof.
  intros Hv Hc. unfold location_step, getattr. by rewrite Hv; simpl; rewrite Hc.
Qed.

Lemma location_step_coordinates ds s k v c :
  getitem ds k = Ok v →
  ncattrs v !! "coordinates" = Some c →
  location_step ds s k = (s' ← classify_coordinates ds s c; Ok (Break, s')).
Proof.
  intros Hv Hc. unfold location_step, getattr. by rewrite Hv; simpl; rewrite Hc.
Qed.

(** C10, as stated, fails: in the sample dataset the loop stops at [rho],
    the first face variable with a [coordinates] attribute, but the result
    is not the classification of [rho], which fills x and y only: its z
    slot is the one the fallback classification of [u] had filled
    before. *)
Lemma result_keeps_earlier_fallback_slot :
  search_variables_by_location three_faces_dataset "face"
  = Ok ["u"; "rho"; "v"]
  ∧ classify_coordinates three_faces_dataset no_slots (AStr "lon_rho lat_rho")
    = Ok {| x_coordinate := Some "lon_rho"; y_coordinate := Some "lat_rho";
            z_coordinate := None |}
  ∧ location_slots three_faces_dataset "face"
    = Ok {| x_coordinate := Some "lon_rho"; y_coordinate := Some "lat_rho";
            z_coordinate := Some "depth_u" |}
  ∧ find_coordinates_by_location three_faces_dataset "face" 3
    = Ok (Some [Some "lon_rho"; Some "lat_rho"; Some "depth_u"]).
Proof. repeat split; vm_compute; reflexivity. Qed.

(** C10, amended.  The loop over the variables that carry the location
    stops at the first one that has a [coordinates] attribute: its
    classification is laid over the slots as the variables before it left
    them, and that is the result, whatever variables come after it.  A
    variable without a [coordinates] attribute does not stop the loop: the
    variables before the first one with [coordinates] are all run through
    the fallback classification, each on the slots the previous one left,
    so that a later one overwrites what an earlier one filled, as [v] does
    to [u] in the sample dataset. *)
Theorem loop_stops_at_first_coordinates ds s0 before k after location_var c :
  (∀ k', k' ∈ before →
         ∃ v, getitem ds k' = Ok v ∧ ncattrs v !! "coordinates" = None) →
  getitem ds k = Ok location_var →
  ncattrs location_var !! "coordinates" = Some c →
  for_each_break (location_step ds) s0 (before ++ k :: after)
  = (s1 ← for_each_break (location_step ds) s0 before;
     classify_coordinates ds s1 c)
  ∧ for_each_break (location_step ds) s0 before
    = for_each (λ s k',
          v ← getitem ds k';
          pcs ← potential_coordinates ds (dimensions v) k';
          Ok (foldl classify_potential s pcs)) s0 before
  ∧ (for_each_break (location_step two_faces_dataset) no_slots ["u"]
     = Ok {| x_coordinate := Some "lon_u"; y_coordinate := Some "lat_u";
             z_coordinate := None |}
     ∧ for_each_break (location_step two_faces_dataset) no_slots ["u"; "v"]
       = Ok {| x_coordinate := Some "lon_v"; y_coordinate := Some "lat_v";
               z_coordinate := None |}).
Proof.
  intros Hbefore Hk Hc. split; [|split].
  - revert s0. induction before as [|k' before IH]; intros s0; simpl.
    + rewrite (location_step_coordinates _ _ _ _ _ Hk Hc).
      by destruct (classify_coordinates ds s0 c).
    + destruct (Hbefore k') as (v & Hv & Hnone); [by left|].
      rewrite (location_step_fallback _ _ _ _ Hv Hnone).
      destruct (potential_coordinates ds (dimensions v) k'); simpl; [|done].
      apply IH. intros k'' Hk''. apply Hbefore. by right.
  - revert s0. induction before as [|k' before IH]; intros s0; simpl; [done|].
    destruct (Hbefore k') as (v & Hv & Hnone); [by left|].
    rewrite (location_step_fallback _ _ _ _ Hv Hnone), Hv. simpl.
    destruct (potential_coordinates ds (dimensions v) k'); simpl; [|done].
    apply IH. intros k'' Hk''. apply Hbefore. by right.
  - split; vm_compute; reflexivity.
Qed.

Lemma loop_on_three_faces_dataset :
  for_each_break (location_step three_faces_dataset) no_slots ["u"; "rho"; "v"]
  = (s1 ← for_each_break (location_step three_faces_dataset) no_slots ["u"];
     classify_coordinates three_faces_dataset s1 (AStr "lon_rho lat_rho")).
Proof.
  destruct (loop_stops_at_first_coordinates three_faces_dataset no_slots
              ["u"] "rho" ["v"]
              (mk_variable "rho" ["eta_rho"; "xi_rho"]
                 [("location", AStr "face");
                  ("coordinates", AStr "lon_rho lat_rho")])
              (AStr "lon_rho lat_rho")) as [Hloop _].
  - intros k' Hk'. apply list_elem_of_singleton in Hk' as ->.
    eexists. split; vm_compute; reflexivity.
  - vm_compute. reflexivity.
  - vm_compute. reflexivity.
  - exact Hloop.
Defined.

(** * Further properties of the reader *)

(** ** The convention detector on a dictionary *)

Lemma for_each_filter_names (keep : nc_variable → bool) l acc :
  for_each (λ s v, Ok (if keep v then s ++ [name v] else s)) acc l
  = Ok (acc ++ (name <$> filter (λ v, keep v = true) l)).
Proof.
  revert acc. induction l as [|v l IH]; intros acc; simpl.
  - by rewrite app_nil_r.
  - rewrite filter_cons. destruct (keep v) eqn:K.
    + rewrite decide_True by done. rewrite IH.
      by rewrite fmap_cons, <- app_assoc.
    + rewrite decide_False by done. apply IH.
Qed.

(** X1.  On a dictionary of variables, [search_variables_by_location]
    never raises and returns, in the order of the store, exactly the names
    of the variables whose [location] attribute is the text searched for;
    a variable without the attribute, or with a number for it, is passed
    over. *)
Theorem search_variables_by_location_spec ds location_str :
  NoDup (keys ds) →
  search_variables_by_location ds location_str
  = Ok (name <$> filter (λ v, tagged location_str v = true) (ds_variables ds)).
Proof.
  intros Hnd. unfold search_variables_by_location.
  rewrite for_each_variable_nodup by done.
  etrans; [|apply (for_each_filter_names (tagged location_str) _ [])].
  apply for_each_ext. intros acc v. unfold getattr, tagged, attr_eq_str.
  destruct (ncattrs v !! "location") as [a|]; simpl; [|done].
  by rewrite (bool_decide_ext (a = AStr location_str)
                (Some a = Some (AStr location_str)))
    by (split; congruence).
Qed.

Lemma search_on_three_faces_dataset :
  search_variables_by_location three_faces_dataset "face"
  = Ok ["u"; "rho"; "v"].
Proof.
  etrans; [apply (search_variables_by_location_spec three_faces_dataset "face")|].
  - apply (bool_decide_unpack _). vm_compute. exact I.
  - vm_compute. reflexivity.
Defined.

Lemma last_or_cons {A} (default : option A) x l :
  last_or default (x :: l) = last_or (Some x) l.
Proof.
  unfold last_or. destruct l as [|y l]; [done|].
  change (last (x :: y :: l)) with (last (y :: l)).
  by destruct (last (y :: l)) eqn:E; [|apply last_None in E].
Qed.

Lemma last_or_filter_cons (keep : nc_variable → bool) v l default :
  last_or default (name <$> filter (λ v, keep v = true) (v :: l))
  = last_or (if keep v then Some (name v) else default)
      (name <$> filter (λ v, keep v = true) l).
Proof.
  rewrite filter_cons. destruct (keep v) eqn:K.
  - rewrite decide_True by done. by rewrite fmap_cons, last_or_cons.
  - by rewrite decide_False by done.
Qed.

(** X2.  On a dictionary of variables, [find_grid_cell_node_vars] never
    raises; for the longitude and for the latitude it returns the last
    variable, in the order of the store, whose [long_name] is one of the
    accepted names, and none when there is no such variable.  (The scan
    for the topology variable keeps the first match instead.) *)
Theorem find_grid_cell_node_vars_spec `{Collaborators} ds :
  NoDup (keys ds) →
  find_grid_cell_node_vars ds
  = Ok (last (name <$> filter (λ v, long_name_in LON_GRID_CELL_NODE_LONG_NAME v
                                    = true) (ds_variables ds)),
        last (name <$> filter (λ v, long_name_in LAT_GRID_CELL_NODE_LONG_NAME v
                                    = true) (ds_variables ds))).
Proof.
  intros Hnd. unfold find_grid_cell_node_vars.
  rewrite for_each_variable_nodup by done.
  assert (Hgen : ∀ l lon lat,
    for_each (λ '(grid_cell_node_lon, grid_cell_node_lat) v,
        try_except (getattr v "long_name") is_AttributeError
          (Ok (grid_cell_node_lon, grid_cell_node_lat))
          (λ nc_var_long_name,
             Ok (if attr_in nc_var_long_name LON_GRID_CELL_NODE_LONG_NAME
                 then Some (name v) else grid_cell_node_lon,
                 if attr_in nc_var_long_name LAT_GRID_CELL_NODE_LONG_NAME
                 then Some (name v) else grid_cell_node_lat)))
      (lon, lat) l
    = Ok (last_or lon
            (name <$> filter (λ v, long_name_in LON_GRID_CELL_NODE_LONG_NAME v
                                   = true) l),
          last_or lat
            (name <$> filter (λ v, long_name_in LAT_GRID_CELL_NODE_LONG_NAME v
                                   = true) l))).
  { assert (Hstep : ∀ (lon lat : option string) v,
      try_except (getattr v "long_name") is_AttributeError (Ok (lon, lat))
        (λ nc_var_long_name,
           Ok (if attr_in nc_var_long_name LON_GRID_CELL_NODE_LONG_NAME
               then Some (name v) else lon,
               if attr_in nc_var_long_name LAT_GRID_CELL_NODE_LONG_NAME
               then Some (name v) else lat))
      = Ok (if long_name_in LON_GRID_CELL_NODE_LONG_NAME v
            then Some (name v) else lon,
            if long_name_in LAT_GRID_CELL_NODE_LONG_NAME v
            then Some (name v) else lat)).
    { intros lon lat v. unfold long_name_in, getattr.
      by destruct (ncattrs v !! "long_name"). }
    induction l as [|v l IH]; intros lon lat.
    - unfold last_or. simpl. by destruct lon, lat.
    - cbn [for_each]. rewrite Hstep. simpl. rewrite IH.
      by rewrite !last_or_filter_cons. }
  etrans; [etrans; [|apply (Hgen (ds_variables ds) None None)]|].
  - apply for_each_ext. by intros [lon lat] v.
  - unfold last_or. by do 2 destruct (last _).
Qed.

Lemma node_vars_of_sample_dataset :
  find_grid_cell_node_vars (H:=sample_collaborators) node_vars_dataset
  = Ok (Some "lon_vert", Some "lat_psi").
Proof.
  etrans; [apply (find_grid_cell_node_vars_spec (H:=sample_collaborators)
                    node_vars_dataset)|].
  - apply (bool_decide_unpack _). vm_compute. exact I.
  - vm_compute. reflexivity.
Defined.

Lemma sgrid_compliant_file_safe ds :
  NoDup (keys ds) →
  forallb scan_safe (ds_variables ds) = true →
  sgrid_compliant_file ds = Ok (existsb qualifies (ds_variables ds)).
Proof.
  intros Hnd Hsafe. unfold sgrid_compliant_file.
  rewrite (find_grid_topology_vars_safe ds Hnd Hsafe). simpl.
  f_equal. clear. induction (ds_variables ds) as [|v l IH]; [done|].
  cbn [existsb]. rewrite filter_cons. destruct (qualifies v) eqn:Q.
  - rewrite decide_True by done. rewrite fmap_cons. cbn [head orb].
    by apply bool_decide_eq_true_2.
  - by rewrite decide_False by done.
Qed.

(** X3.  On a dictionary of variables in which every variable with a
    textual [cf_role] also has a [topology_dimension] (a number when the
    role is the grid topology's), the compliance check never raises: it
    answers true exactly when some variable qualifies, and the scan
    returns the first qualifying variable in the order of the store. *)
Theorem sgrid_compliant_file_spec ds :
  NoDup (keys ds) →
  forallb scan_safe (ds_variables ds) = true →
  sgrid_compliant_file ds = Ok (existsb qualifies (ds_variables ds))
  ∧ find_grid_topology_vars ds
    = Ok (head (name <$> filter (λ v, qualifies v = true) (ds_variables ds))).
Proof.
  intros Hnd Hsafe. split.
  - by apply sgrid_compliant_file_safe.
  - by apply find_grid_topology_vars_safe.
Qed.

Lemma compliance_of_two_grids_dataset :
  sgrid_compliant_file two_grids_dataset = Ok true
  ∧ find_grid_topology_vars two_grids_dataset = Ok (Some "grid_a").
Proof.
  destruct (sgrid_compliant_file_spec two_grids_dataset) as [Hc Hfind].
  - apply (bool_decide_unpack _). vm_compute. exact I.
  - vm_compute. reflexivity.
  - split.
    + etrans; [exact Hc|]. vm_compute. reflexivity.
    + etrans; [exact Hfind|]. vm_compute. reflexivity.
Defined.

(** X4.  On such a dataset without a qualifying variable the loader
    raises [SGridNonCompliantError] and leaves the grid handed in
    untouched, whether or not a topology variable is named by the caller:
    naming one does not bypass the compliance check. *)
Theorem load_refuses_non_compliant `{Collaborators} ds grid_topology_vars g :
  NoDup (keys ds) →
  forallb scan_safe (ds_variables ds) = true →
  existsb qualifies (ds_variables ds) = false →
  load_grid_from_nc_dataset ds grid_topology_vars g
  = (Raise SGridNonCompliantError, g).
Proof.
  intros Hnd Hsafe Hnone.
  unfold load_grid_from_nc_dataset.
  by rewrite (sgrid_compliant_file_safe ds Hnd Hsafe), Hnone.
Qed.

Lemma load_refuses_plain_dataset :
  load_grid_from_nc_dataset (H:=sample_collaborators)
    plain_dataset (Some "temp") fresh_grid
  = (Raise SGridNonCompliantError, fresh_grid).
Proof.
  apply (load_refuses_non_compliant (H:=sample_collaborators)).
  - apply (bool_decide_unpack _). vm_compute. exact I.
  - vm_compute. reflexivity.
  - vm_compute. reflexivity.
Defined.

(** ** The loader's errors on the topology variable *)

Lemma getitem_missing ds k :
  k ∉ keys ds → getitem ds k = Raise (KeyError (VStr k)).
Proof.
  intros Hk. unfold getitem.
  destruct (lookup_variable (ds_variables ds) k) as [v|] eqn:E; [|done].
  destruct Hk. apply (getitem_in_keys ds k v). unfold getitem. by rewrite E.
Qed.

(** X5.  On a compliant dataset, a topology variable named by the caller
    is looked up as it is: a name that is not in the dataset raises
    [KeyError] for that name, and a variable without a
    [topology_dimension] raises [AttributeError], whatever the scan would
    have found.  In both cases the grid has by then received [dimensions]
    and, under [grid_topology_vars], the name handed in. *)
Theorem load_named_variable_errors `{Collaborators} ds k g :
  sgrid_compliant_file ds = Ok true →
  (k ∉ keys ds →
   load_grid_from_nc_dataset ds (Some k) g
   = (Raise (KeyError (VStr k)),
      <["grid_topology_vars" := VStr k]> (<["dimensions" := grid_dims ds]> g)))
  ∧ (∀ v, getitem ds k = Ok v →
          ncattrs v !! "topology_dimension" = None →
          load_grid_from_nc_dataset ds (Some k) g
          = (Raise (AttributeError "topology_dimension"),
             <["grid_topology_vars" := VStr k]>
               (<["dimensions" := grid_dims ds]> g))).
Proof.
  intros Hc. split.
  - intros Hk%getitem_missing.
    unfold load_grid_from_nc_dataset, mbind, M_bind, lift, setattr,
      mret, M_ret.
    by rewrite Hc, Hk.
  - intros v Hv Hd.
    unfold load_grid_from_nc_dataset, mbind, M_bind, lift, setattr,
      mret, M_ret, getattr.
    by rewrite Hc, Hv, Hd.
Qed.

Lemma load_named_variable_errors_samples :
  load_grid_from_nc_dataset (H:=sample_collaborators)
    dataset_2d (Some "mesh") ∅
  = (Raise (KeyError (VStr "mesh")),
     <["grid_topology_vars" := VStr "mesh"]>
       (<["dimensions" := grid_dims dataset_2d]> ∅))
  ∧ load_grid_from_nc_dataset (H:=sample_collaborators)
      dataset_2d (Some "lon_rho") ∅
    = (Raise (AttributeError "topology_dimension"),
       <["grid_topology_vars" := VStr "lon_rho"]>
         (<["dimensions" := grid_dims dataset_2d]> ∅)).
Proof.
  split.
  - apply (load_named_variable_errors (H:=sample_collaborators)
             dataset_2d "mesh" ∅).
    + vm_compute. reflexivity.
    + apply (bool_decide_unpack _). vm_compute. exact I.
  - destruct (load_named_variable_errors (H:=sample_collaborators)
                dataset_2d "lon_rho" ∅) as [_ Hno_dimension].
    + vm_compute. reflexivity.
    + apply (Hno_dimension (mk_variable "lon_rho" ["eta"; "xi"] [])).
      * vm_compute. reflexivity.
      * vm_compute. reflexivity.
Defined.

Lemma resolve_2d_node_dimensions `{Collaborators} ds topology_var v d g :
  ncattrs v !! "topology_dimension" = Some d →
  (∀ vd, ncattrs v !! "vertical_dimensions" = Some vd →
         ∃ p, parse_padding topology_var vd = Ok p) →
  ncattrs v !! "node_dimensions" = None →
  (resolve_2d ds topology_var v g).1 = Raise (AttributeError "node_dimensions").
Proof.
  intros Hd Hvert Hnode.
  unfold resolve_2d, set_dimensions, set_topology_dimension,
    set_sgrid_topology, set_sgrid_vertical_dimensions, set_dimensions_of,
    set_sgrid_node_coordinates, try_exceptM, getattr.
  rewrite Hd, Hnode.
  destruct (ncattrs v !! "vertical_dimensions") as [vd|]; [|done].
  destruct (Hvert vd eq_refl) as [p Hp].
  unfold mbind, M_bind, lift, setattr. by rewrite Hp.
Qed.

Lemma resolve_3d_node_dimensions `{Collaborators} ds topology_var v d g :
  ncattrs v !! "topology_dimension" = Some d →
  ncattrs v !! "node_dimensions" = None →
  (resolve_3d ds topology_var v g).1 = Raise (AttributeError "node_dimensions").
Proof.
  intros Hd Hnode.
  unfold resolve_3d, set_dimensions, set_topology_dimension,
    set_sgrid_topology, set_sgrid_node_coordinates, getattr.
  by rewrite Hd, Hnode.
Qed.

(** X6.  The topology variable has to declare [node_dimensions]: when the
    selected variable, of topology dimension 2 or 3, lacks the attribute,
    the loader raises [AttributeError] for it and returns no grid.  (In
    the 2-D case the [vertical_dimensions], read first, must parse.) *)
Theorem load_requires_node_dimensions `{Collaborators}
    ds grid_topology_vars topology_var v n g :
  sgrid_compliant_file ds = Ok true →
  selects ds grid_topology_vars topology_var →
  getitem ds topology_var = Ok v →
  ncattrs v !! "topology_dimension" = Some (AInt n) →
  n = 2 ∨ n = 3 →
  (n = 2 → ∀ vd, ncattrs v !! "vertical_dimensions" = Some vd →
                 ∃ p, parse_padding topology_var vd = Ok p) →
  ncattrs v !! "node_dimensions" = None →
  (load_grid_from_nc_dataset ds grid_topology_vars g).1
  = Raise (AttributeError "node_dimensions").
Proof.
  intros Hc Hsel Hv Hd Hn Hvert Hnode.
  unfold load_grid_from_nc_dataset, mbind, M_bind, lift, setattr.
  rewrite Hc.
  assert (Hres :
    ((if attr_eq_int (AInt n) 2 then resolve_2d ds topology_var v
      else if attr_eq_int (AInt n) 3 then resolve_3d ds topology_var v
      else λ g, (Raise (ValueError (unsupported_message (AInt n))), g))
       (<["grid_topology_vars" := VStr topology_var]>
          (<["dimensions" := grid_dims ds]> g))).1
    = Raise (AttributeError "node_dimensions")).
  { destruct Hn as [->| ->].
    - apply (resolve_2d_node_dimensions _ _ _ (AInt 2)); auto.
    - by apply (resolve_3d_node_dimensions _ _ _ (AInt 3)). }
  destruct grid_topology_vars as [given|]; simpl in Hsel;
    [subst given; unfold mret, M_ret|rewrite Hsel];
    rewrite Hv; unfold getattr; rewrite Hd; exact Hres.
Qed.

Lemma load_bare_3d_dataset :
  (load_grid_from_nc_dataset (H:=sample_collaborators)
     bare_3d_dataset None fresh_grid).1
  = Raise (AttributeError "node_dimensions").
Proof.
  apply (load_requires_node_dimensions (H:=sample_collaborators)
           bare_3d_dataset None "grid"
           (mk_variable "grid" []
              [("cf_role", AStr "grid_topology");
               ("topology_dimension", AInt 3)]) 3).
  - vm_compute. reflexivity.
  - vm_compute. reflexivity.
  - vm_compute. reflexivity.
  - vm_compute. reflexivity.
  - by right.
  - intros [=].
  - vm_compute. reflexivity.
Defined.

(** ** The inference of coordinates: errors and results *)

Lemma for_each_app {A S} (body : S → A → outcome S) s l1 l2 :
  for_each body s (l1 ++ l2)
  = (s' ← for_each body s l1; for_each body s' l2).
Proof.
  revert s. induction l1 as [|x l1 IH]; intros s; simpl; [done|].
  destruct (body s x) as [s1|e]; simpl; [apply IH|done].
Qed.

Lemma for_each_total {A S} (P : A → Prop) (body : S → A → outcome S) s l :
  (∀ s x, P x → ∃ s', body s x = Ok s') →
  (∀ x, x ∈ l → P x) →
  ∃ r, for_each body s l = Ok r.
Proof.
  intros Hbody. revert s. induction l as [|x l IH]; intros s Hl; simpl.
  - by eexists.
  - destruct (Hbody s x) as [s' ->]; [apply Hl; by left|]. simpl.
    apply IH. intros y Hy. apply Hl. by right.
Qed.

Lemma for_each_variable_total {S} ds
    (body : S → string → nc_variable → outcome S) s :
  (∀ s k v, getitem ds k = Ok v → ∃ s', body s k v = Ok s') →
  ∃ r, for_each_variable ds body s = Ok r.
Proof.
  intros Hbody. unfold for_each_variable.
  apply (for_each_total (λ k, k ∈ keys ds)); [|done].
  intros s1 k [v Hv]%getitem_keys. rewrite Hv. simpl. by eapply Hbody.
Qed.

Lemma for_each_break_Raise_inv {A S}
    (body : S → A → outcome (loop_ctl * S)) s l e :
  for_each_break body s l = Raise e → ∃ s1 x, x ∈ l ∧ body s1 x = Raise e.
Proof.
  revert s. induction l as [|x l IH]; intros s; simpl; [done|].
  destruct (body s x) as [[[|] s1]|e1] eqn:E; simpl.
  - intros (s2 & y & Hy & Hstep)%IH. exists s2, y. split; [by right|done].
  - done.
  - intros [= <-]. exists s, x. split; [by left|done].
Qed.

Lemma for_each_break_total {A S} (P : A → Prop)
    (body : S → A → outcome (loop_ctl * S)) s l :
  (∀ s x, P x → ∃ r, body s x = Ok r) →
  (∀ x, x ∈ l → P x) →
  ∃ r, for_each_break body s l = Ok r.
Proof.
  intros Hbody. revert s. induction l as [|x l IH]; intros s Hl; simpl.
  - by eexists.
  - destruct (Hbody s x) as [[[|] s'] ->]; [apply Hl; by left| |]; simpl.
    + apply IH. intros y Hy. apply Hl. by right.
    + by eexists.
Qed.

(** The search and the collection of candidates never raise, and the
    search returns names of variables. *)
Lemma search_variables_by_location_total ds location_str :
  ∃ l, search_variables_by_location ds location_str = Ok l.
Proof.
  apply for_each_variable_total. intros s k v _. unfold try_except, getattr.
  destruct (ncattrs v !! "location"); simpl; by eexists.
Qed.

Lemma search_variables_by_location_keys ds location_str l k :
  search_variables_by_location ds location_str = Ok l → k ∈ l → k ∈ keys ds.
Proof.
  unfold search_variables_by_location, for_each_variable. intros Hl.
  revert k. pattern l.
  eapply for_each_invariant; [| |exact Hl]; simpl.
  - by intros k ?%elem_of_nil.
  - intros acc k' acc' Hk' Hacc.
    destruct (getitem ds k') as [v|e] eqn:Hv; simpl; [|done].
    unfold try_except, getattr. destruct (ncattrs v !! "location"); simpl;
      intros [= <-]; [|done].
    case_match; [|done].
    intros k [?| ->%list_elem_of_singleton]%elem_of_app; auto.
Qed.

Lemma potential_coordinates_total ds dims k :
  ∃ pcs, potential_coordinates ds dims k = Ok pcs.
Proof. apply for_each_variable_total. intros s k' v _. by eexists. Qed.

Lemma classify_token_known ds s lvc :
  lvc ∈ keys ds → ∃ s', classify_token ds s lvc = Ok s'.
Proof.
  intros [v Hv]%getitem_keys. unfold classify_token. rewrite Hv. simpl.
  unfold try_except, getattr.
  destruct (ncattrs v !! "standard_name"); simpl; by eexists.
Qed.

Lemma classify_coordinates_text ds s c :
  classify_coordinates ds s (AStr c)
  = (s' ← for_each (classify_token ds) s (PyStr.split " " (PyStr.strip c));
     Ok (if bool_decide (List.length (PyStr.split " " (PyStr.strip c)) = 3%nat)
         then match last (PyStr.split " " (PyStr.strip c)) with
              | Some lvc => set_z s' lvc
              | None => s'
              end
         else s')).
Proof. reflexivity. Qed.

Lemma classify_token_Raise ds s lvc e :
  classify_token ds s lvc = Raise e → e = KeyError (VStr lvc) ∧ lvc ∉ keys ds.
Proof.
  unfold classify_token, getitem.
  destruct (lookup_variable (ds_variables ds) lvc) as [v|] eqn:E; simpl.
  - unfold try_except, getattr.
    by destruct (ncattrs v !! "standard_name"); simpl.
  - intros [= <-]. split; [done|]. intros [v Hv]%getitem_keys.
    unfold getitem in Hv. by rewrite E in Hv.
Qed.

Lemma classify_token_z ds s lvc s' :
  classify_token ds s lvc = Ok s' → z_coordinate s' = z_coordinate s.
Proof.
  unfold classify_token. destruct (getitem ds lvc) as [v|e]; simpl; [|done].
  unfold try_except, getattr.
  destruct (ncattrs v !! "standard_name"); simpl; intros [= <-];
    by repeat case_match.
Qed.

Lemma for_each_unknown_token ds s before t after :
  (∀ b, b ∈ before → b ∈ keys ds) →
  t ∉ keys ds →
  for_each (classify_token ds) s (before ++ t :: after)
  = Raise (KeyError (VStr t)).
Proof.
  intros Hbefore Ht. revert s.
  induction before as [|b before IH]; intros s; cbn [app for_each].
  - assert (classify_token ds s t = Raise (KeyError (VStr t))) as ->; [|done].
    unfold classify_token. by rewrite (getitem_missing ds t Ht).
  - destruct (classify_token_known ds s b) as [s' ->]; [apply Hbefore; by left|].
    apply IH. intros b' Hb'. apply Hbefore. by right.
Qed.

(** X7.  The tokens of a [coordinates] attribute are looked up one by one
    in the dataset: the first token that names no variable raises
    [KeyError] for that token.  The attribute is trimmed and split on
    single blanks, so that two blanks in a row give an empty token, which
    is looked up as any other. *)
Theorem coordinates_unknown_token ds s c before t after :
  PyStr.split " " (PyStr.strip c) = before ++ t :: after →
  (∀ b, b ∈ before → b ∈ keys ds) →
  t ∉ keys ds →
  classify_coordinates ds s (AStr c) = Raise (KeyError (VStr t)).
Proof.
  intros Hsplit Hbefore Ht.
  rewrite classify_coordinates_text, Hsplit.
  by rewrite for_each_unknown_token.
Qed.

Lemma coordinates_with_two_blanks :
  classify_coordinates double_blank_dataset no_slots (AStr "lon_rho  lat_rho")
  = Raise (KeyError (VStr ""))
  ∧ find_coordinates_by_location double_blank_dataset "face" 2
    = Raise (KeyError (VStr "")).
Proof.
  split; [|vm_compute; reflexivity].
  apply (coordinates_unknown_token double_blank_dataset no_slots
           "lon_rho  lat_rho" ["lon_rho"] "" ["lat_rho"]).
  - vm_compute. reflexivity.
  - intros b ->%list_elem_of_singleton.
    apply (bool_decide_unpack _). vm_compute. exact I.
  - apply (bool_decide_unpack _). vm_compute. exact I.
Defined.

(** X8.  When the tokens of a [coordinates] attribute are classified
    without an error, every token names a variable of the dataset, and the
    z slot is the last token exactly when there are three tokens; with any
    other number of tokens the z slot keeps what it held before, whatever
    the tokens are. *)
Theorem coordinates_z_rule ds s c s' :
  classify_coordinates ds s (AStr c) = Ok s' →
  (∀ t, t ∈ PyStr.split " " (PyStr.strip c) → t ∈ keys ds)
  ∧ z_coordinate s'
    = if bool_decide (List.length (PyStr.split " " (PyStr.strip c)) = 3%nat)
      then last (PyStr.split " " (PyStr.strip c))
      else z_coordinate s.
Proof.
  rewrite classify_coordinates_text.
  destruct (for_each _ _ _) as [s1|e] eqn:Hloop; simpl; [|done].
  intros [= <-]. split.
  - intros t Ht.
    destruct (for_each_Ok_inv _ _ _ _ _ Hloop Ht) as (s2 & s3 & Hstep).
    by apply classify_token_Ok in Hstep as [? _].
  - assert (Hz : z_coordinate s1 = z_coordinate s).
    { eapply (for_each_invariant (λ s2, z_coordinate s2 = z_coordinate s));
        [done| |exact Hloop].
      intros s2 lvc s3 _ Hs2 Hstep. apply classify_token_z in Hstep.
      congruence. }
    case_bool_decide as Hlen; [|done].
    destruct (last (PyStr.split " " (PyStr.strip c))) eqn:Hlast; [done|].
    apply last_None in Hlast. by rewrite Hlast in Hlen.
Qed.

Lemma coordinates_z_rule_samples :
  (∀ t, t ∈ PyStr.split " " (PyStr.strip "lon_rho lat_rho") →
        t ∈ keys three_faces_dataset)
  ∧ z_coordinate {| x_coordinate := Some "lon_rho";
                    y_coordinate := Some "lat_rho";
                    z_coordinate := Some "depth_u" |}
    = if bool_decide (List.length (PyStr.split " "
                                     (PyStr.strip "lon_rho lat_rho")) = 3%nat)
      then last (PyStr.split " " (PyStr.strip "lon_rho lat_rho"))
      else z_coordinate {| x_coordinate := None; y_coordinate := None;
                           z_coordinate := Some "depth_u" |}.
Proof.
  apply (coordinates_z_rule three_faces_dataset
           {| x_coordinate := None; y_coordinate := None;
              z_coordinate := Some "depth_u" |}).
  vm_compute. reflexivity.
Defined.

Lemma location_step_total ds s k :
  forallb (coordinates_resolve ds) (ds_variables ds) = true →
  k ∈ keys ds → ∃ r, location_step ds s k = Ok r.
Proof.
  intros Hres [v Hv]%getitem_keys. unfold location_step. rewrite Hv. simpl.
  apply getitem_Ok in Hv as [_ Hin].
  rewrite forallb_forall in Hres.
  specialize (Hres v (proj1 (list_elem_of_In _ _) Hin)).
  unfold coordinates_resolve in Hres. unfold try_except, getattr.
  destruct (ncattrs v !! "coordinates") as [[c|z]|]; simpl; [|done|].
  - rewrite classify_coordinates_text.
    destruct (for_each_total (λ t, t ∈ keys ds) (classify_token ds) s
                (PyStr.split " " (PyStr.strip c))) as [s1 ->].
    + intros. by apply classify_token_known.
    + intros t Ht. rewrite forallb_forall in Hres.
      eapply bool_decide_eq_true_1, Hres. by apply list_elem_of_In.
    + simpl. by eexists.
  - destruct (potential_coordinates_total ds (dimensions v) k) as [pcs ->].
    simpl. by eexists.
Qed.

(** X9.  When every [coordinates] attribute of the dataset is text whose
    tokens name variables of the dataset, the inference of coordinates
    returns, for any location and any topology dimension: it gives the
    tuple or none, never an error. *)
Theorem find_coordinates_by_location_total ds location_str topology_dim :
  forallb (coordinates_resolve ds) (ds_variables ds) = true →
  ∃ r, find_coordinates_by_location ds location_str topology_dim = Ok r.
Proof.
  intros Hres. unfold find_coordinates_by_location, location_slots.
  destruct (search_variables_by_location_total ds location_str) as [l Hl].
  rewrite Hl. simpl.
  destruct (for_each_break_total (λ k, k ∈ keys ds) (location_step ds)
              no_slots l) as [s ->].
  - intros. by apply location_step_total.
  - intros k Hk. by eapply search_variables_by_location_keys.
  - simpl. by eexists.
Qed.

Lemma find_coordinates_on_three_faces_dataset :
  ∃ r, find_coordinates_by_location three_faces_dataset "node" 7 = Ok r.
Proof.
  apply (find_coordinates_by_location_total three_faces_dataset "node" 7).
  vm_compute. reflexivity.
Defined.

(** X10.  The inference of coordinates raises nothing but the two errors
    of a bad [coordinates] attribute: [KeyError] for a token that names no
    variable of the dataset, and [AttributeError] for the [strip] that a
    numeric attribute does not have. *)
Theorem find_coordinates_by_location_errors ds location_str topology_dim e :
  find_coordinates_by_location ds location_str topology_dim = Raise e →
  e = AttributeError "strip" ∨ ∃ t, e = KeyError (VStr t) ∧ t ∉ keys ds.
Proof.
  unfold find_coordinates_by_location, location_slots.
  destruct (search_variables_by_location_total ds location_str) as [l Hl].
  rewrite Hl. simpl.
  destruct (for_each_break _ _ _) as [s|e'] eqn:Hloop; simpl; [done|].
  intros [= ->].
  apply for_each_break_Raise_inv in Hloop as (s1 & k & Hk & Hstep).
  destruct (getitem_keys ds k) as [v Hv];
    [by eapply search_variables_by_location_keys|].
  revert Hstep. unfold location_step. rewrite Hv. simpl.
  unfold try_except, getattr.
  destruct (ncattrs v !! "coordinates") as [[c|z]|]; simpl.
  - rewrite classify_coordinates_text.
    destruct (for_each _ _ _) as [s2|e'] eqn:Htokens; simpl; [done|].
    intros [= ->].
    apply for_each_Raise_inv in Htokens as (s3 & t & _ & Htoken).
    apply classify_token_Raise in Htoken as [-> Ht]. right. by exists t.
  - intros [= <-]. by left.
  - by destruct (potential_coordinates_total ds (dimensions v) k) as [pcs ->].
Qed.

Lemma find_coordinates_errors_on_two_blanks :
  KeyError (VStr "") = AttributeError "strip"
  ∨ ∃ t, KeyError (VStr "") = KeyError (VStr t)
         ∧ t ∉ keys double_blank_dataset.
Proof.
  apply (find_coordinates_by_location_errors double_blank_dataset "face" 2).
  vm_compute. reflexivity.
Defined.

(** X11.  When the inference of coordinates returns a tuple, the tuple
    has two entries for the topology dimension 2 and three otherwise, and
    every entry is the non-empty name of a variable of the dataset, which
    the loader can look up. *)
Theorem inferred_coordinates_name_variables ds location_str topology_dim l :
  find_coordinates_by_location ds location_str topology_dim = Ok (Some l) →
  List.length l = (if bool_decide (topology_dim = 2) then 2%nat else 3%nat)
  ∧ ∀ o, o ∈ l → ∃ n v, o = Some n ∧ n ≠ "" ∧ getitem ds n = Ok v.
Proof.
  unfold find_coordinates_by_location.
  destruct (location_slots ds location_str) as [s|e] eqn:Hs; simpl; [|done].
  unfold coordinate_result.
  destruct (forallb truthy (coordinates_of topology_dim s)) eqn:Hall; [|done].
  intros [= <-]. split.
  - unfold coordinates_of. by case_bool_decide.
  - intros o Ho. rewrite forallb_forall in Hall.
    specialize (Hall o (proj1 (list_elem_of_In _ _) Ho)).
    destruct o as [n|]; [|done]. simpl in Hall.
    apply negb_true_iff, bool_decide_eq_false in Hall.
    destruct (getitem_keys ds n) as [v Hv].
    { eapply (required_slots_named ds topology_dim s);
        [by eapply location_slots_named|exact Ho]. }
    by exists n, v.
Qed.

Lemma inferred_coordinates_of_two_faces_dataset :
  List.length [Some "lon_v"; Some "lat_v"] = 2%nat
  ∧ ∀ o, o ∈ [Some "lon_v"; Some "lat_v"] →
         ∃ n v, o = Some n ∧ n ≠ "" ∧ getitem two_faces_dataset n = Ok v.
Proof.
  apply (inferred_coordinates_name_variables two_faces_dataset "face" 2).
  vm_compute. reflexivity.
Defined.

(** ** From the coordinates to the cell centers and nodes *)

Lemma inferred_pair ds location_str l :
  find_coordinates_by_location ds location_str 2 = Ok (Some l) →
  ∃ x y vx vy, l = [Some x; Some y]
               ∧ getitem ds x = Ok vx ∧ getitem ds y = Ok vy.
Proof.
  unfold find_coordinates_by_location.
  destruct (location_slots ds location_str) as [s|e] eqn:Hs; simpl; [|done].
  apply location_slots_named in Hs.
  unfold coordinate_result, coordinates_of. rewrite bool_decide_true by done.
  destruct (x_coordinate s) as [x|] eqn:Hx; [|done].
  destruct (y_coordinate s) as [y|] eqn:Hy; simpl; [|by rewrite andb_false_r].
  case_match; [|done]. intros [= <-].
  destruct (getitem_keys ds x) as [vx Hvx]; [apply Hs; auto|].
  destruct (getitem_keys ds y) as [vy Hvy]; [apply Hs; auto|].
  by exists x, y, vx, vy.
Qed.

Lemma inferred_triple ds location_str l :
  find_coordinates_by_location ds location_str 3 = Ok (Some l) →
  ∃ x y z vx vy, l = [Some x; Some y; Some z]
                 ∧ getitem ds x = Ok vx ∧ getitem ds y = Ok vy.
Proof.
  unfold find_coordinates_by_location.
  destruct (location_slots ds location_str) as [s|e] eqn:Hs; simpl; [|done].
  apply location_slots_named in Hs.
  unfold coordinate_result, coordinates_of. rewrite bool_decide_false by done.
  destruct (x_coordinate s) as [x|] eqn:Hx; [|done].
  destruct (y_coordinate s) as [y|] eqn:Hy; simpl; [|by rewrite andb_false_r].
  destruct (z_coordinate s) as [z|] eqn:Hz; simpl;
    [|by rewrite !andb_false_r].
  case_match; [|done]. intros [= <-].
  destruct (getitem_keys ds x) as [vx Hvx]; [apply Hs; auto|].
  destruct (getitem_keys ds y) as [vy Hvy]; [apply Hs; auto|].
  by exists x, y, z, vx, vy.
Qed.

(** X12.  A 2-D topology variable without [face_coordinates]: when the
    inference finds the pair of names, [set_face_coordindates] stores
    the pair and [set_cell_center_lat_lon], run after it, finds both
    variables and stores as [centers] the pairing of the data of the first
    (longitude) with the data of the second (latitude); only the pairing
    itself can still fail. *)
Theorem centers_from_inferred_coordinates `{Collaborators} ds topology_var l g :
  ncattrs topology_var !! "face_coordinates" = None →
  find_coordinates_by_location ds "face" 2 = Ok (Some l) →
  ∃ x y vx vy,
    l = [Some x; Some y] ∧ getitem ds x = Ok vx ∧ getitem ds y = Ok vy
    ∧ (set_face_coordindates ds topology_var 2;;
       set_cell_center_lat_lon_2d ds) g
      = match pair_arrays (data vx) (data vy) with
        | Ok centers =>
            (Ok (), <["centers" := VArray centers]>
                      (<["face_coordinates" := VTuple [VStr x; VStr y]]> g))
        | Raise e =>
            (Raise e, <["face_coordinates" := VTuple [VStr x; VStr y]]> g)
        end.
Proof.
  intros Hattr Hfind.
  destruct (inferred_pair _ _ _ Hfind) as (x & y & vx & vy & -> & Hx & Hy).
  exists x, y, vx, vy. do 3 (split; [done|]).
  unfold set_face_coordindates, set_cell_center_lat_lon_2d, try_exceptM,
    getattr.
  rewrite Hattr, Hfind.
  unfold mbind, M_bind, lift, setattr, getattr_grid.
  cbn -[getitem insert lookup]. rewrite lookup_insert_eq.
  cbn -[getitem insert lookup]. rewrite Hy, Hx.
  by destruct (pair_arrays (data vx) (data vy)).
Qed.

Lemma centers_of_two_faces_dataset :
  ∃ x y vx vy,
    [Some "lon_v"; Some "lat_v"] = [Some x; Some y]
    ∧ getitem two_faces_dataset x = Ok vx
    ∧ getitem two_faces_dataset y = Ok vy
    ∧ (set_face_coordindates two_faces_dataset bare_topology 2;;
       set_cell_center_lat_lon_2d (H:=sample_collaborators)
         two_faces_dataset) ∅
      = match @pair_arrays sample_collaborators (data vx) (data vy) with
        | Ok centers =>
            (Ok (), <["centers" := VArray centers]>
                      (<["face_coordinates" := VTuple [VStr x; VStr y]]> ∅))
        | Raise e =>
            (Raise e, <["face_coordinates" := VTuple [VStr x; VStr y]]> ∅)
        end.
Proof.
  apply (centers_from_inferred_coordinates (H:=sample_collaborators)
           two_faces_dataset bare_topology).
  - vm_compute. reflexivity.
  - vm_compute. reflexivity.
Defined.

(** X13.  What keeps a 2-D grid from getting its cell centers.  Without
    [face_coordinates] on the topology variable and without a pair found
    by the inference, none is stored and unpacking it raises [TypeError].
    With a [face_coordinates] attribute that does not split, on single
    blanks and untrimmed, into exactly two names, the tuple is stored and
    unpacking it raises [ValueError]. *)
Theorem centers_2d_errors `{Collaborators} ds topology_var g :
  (ncattrs topology_var !! "face_coordinates" = None →
   find_coordinates_by_location ds "face" 2 = Ok None →
   (set_face_coordindates ds topology_var 2;;
    set_cell_center_lat_lon_2d ds) g
   = (Raise TypeError, <["face_coordinates" := VNone]> g))
  ∧ (∀ c, ncattrs topology_var !! "face_coordinates" = Some (AStr c) →
          List.length (PyStr.split " " c) ≠ 2%nat →
          ∃ msg,
            (set_face_coordindates ds topology_var 2;;
             set_cell_center_lat_lon_2d ds) g
            = (Raise (ValueError msg),
               <["face_coordinates" := VTuple (VStr <$> PyStr.split " " c)]> g)).
Proof.
  split.
  - intros Hattr Hfind.
    unfold set_face_coordindates, set_cell_center_lat_lon_2d, try_exceptM,
      getattr.
    rewrite Hattr, Hfind.
    unfold mbind, M_bind, lift, setattr, getattr_grid.
    cbn -[getitem insert lookup]. by rewrite lookup_insert_eq.
  - intros c Hattr Hlen.
    unfold set_face_coordindates, set_cell_center_lat_lon_2d, try_exceptM,
      getattr, py_split.
    rewrite Hattr.
    unfold mbind, M_bind, lift, setattr, getattr_grid.
    cbn -[getitem insert lookup PyStr.split]. rewrite lookup_insert_eq.
    unfold unpack2, py_iter. cbn -[getitem insert lookup PyStr.split].
    destruct (PyStr.split " " c) as [|a [|b [|d l]]];
      [| |by destruct Hlen|]; simpl; by eexists.
Qed.

Lemma centers_2d_errors_samples :
  (set_face_coordindates lonlat_dataset bare_topology 2;;
   set_cell_center_lat_lon_2d (H:=sample_collaborators) lonlat_dataset) ∅
  = (Raise TypeError, <["face_coordinates" := VNone]> ∅)
  ∧ ∃ msg,
      (set_face_coordindates dataset_2d trailing_blank_topology 2;;
       set_cell_center_lat_lon_2d (H:=sample_collaborators) dataset_2d) ∅
      = (Raise (ValueError msg),
         <["face_coordinates" :=
             VTuple [VStr "lon_rho"; VStr "lat_rho"; VStr ""]]> ∅).
Proof.
  split.
  - apply (centers_2d_errors (H:=sample_collaborators)
             lonlat_dataset bare_topology ∅).
    + vm_compute. reflexivity.
    + vm_compute. reflexivity.
  - destruct (centers_2d_errors (H:=sample_collaborators)
                dataset_2d trailing_blank_topology ∅) as [_ Harity].
    apply (Harity "lon_rho lat_rho ").
    + vm_compute. reflexivity.
    + vm_compute. discriminate.
Defined.

(** X14.  A 3-D topology variable without [volume_coordinates]: when the
    inference finds the three names, [set_volume_coordinates] stores
    them and [set_cell_center_lat_lon], run after it, finds the first
    two variables and stores as [centers] the pairing of their data; the
    third name is not used for the centers. *)
Theorem volume_centers_from_inferred_coordinates `{Collaborators}
    ds topology_var l g :
  ncattrs topology_var !! "volume_coordinates" = None →
  find_coordinates_by_location ds "volume" 3 = Ok (Some l) →
  ∃ x y z vx vy,
    l = [Some x; Some y; Some z]
    ∧ getitem ds x = Ok vx ∧ getitem ds y = Ok vy
    ∧ (set_volume_coordinates ds topology_var 3;;
       set_cell_center_lat_lon_3d ds) g
      = match pair_arrays (data vx) (data vy) with
        | Ok centers =>
            (Ok (), <["centers" := VArray centers]>
                      (<["volume_coordinates" :=
                           VTuple [VStr x; VStr y; VStr z]]> g))
        | Raise e =>
            (Raise e,
             <["volume_coordinates" := VTuple [VStr x; VStr y; VStr z]]> g)
        end.
Proof.
  intros Hattr Hfind.
  destruct (inferred_triple _ _ _ Hfind)
    as (x & y & z & vx & vy & -> & Hx & Hy).
  exists x, y, z, vx, vy. do 3 (split; [done|]).
  unfold set_volume_coordinates, set_cell_center_lat_lon_3d, try_exceptM,
    getattr.
  rewrite Hattr, Hfind.
  unfold mbind, M_bind, lift, setattr, getattr_grid.
  cbn -[getitem insert lookup]. rewrite !lookup_insert_eq.
  cbn -[getitem insert]. rewrite Hx, Hy.
  by destruct (pair_arrays (data vx) (data vy)).
Qed.

Lemma volume_centers_of_volume_dataset :
  ∃ x y z vx vy,
    [Some "lon_rho"; Some "lat_rho"; Some "s_rho"]
    = [Some x; Some y; Some z]
    ∧ getitem volume_dataset x = Ok vx ∧ getitem volume_dataset y = Ok vy
    ∧ (set_volume_coordinates volume_dataset bare_topology 3;;
       set_cell_center_lat_lon_3d (H:=sample_collaborators) volume_dataset) ∅
      = match @pair_arrays sample_collaborators (data vx) (data vy) with
        | Ok centers =>
            (Ok (), <["centers" := VArray centers]>
                      (<["volume_coordinates" :=
                           VTuple [VStr x; VStr y; VStr z]]> ∅))
        | Raise e =>
            (Raise e,
             <["volume_coordinates" := VTuple [VStr x; VStr y; VStr z]]> ∅)
        end.
Proof.
  apply (volume_centers_from_inferred_coordinates (H:=sample_collaborators)
           volume_dataset bare_topology).
  - vm_compute. reflexivity.
  - vm_compute. reflexivity.
Defined.

(** X15.  What keeps a 3-D grid from getting its cell centers.  Without
    [volume_coordinates] on the topology variable and without a triple
    found by the inference, none is stored and indexing it raises
    [TypeError].  With a [volume_coordinates] attribute that holds a
    single name, the one-element tuple is stored and its second entry
    raises [IndexError]. *)
Theorem centers_3d_errors `{Collaborators} ds topology_var g :
  (ncattrs topology_var !! "volume_coordinates" = None →
   find_coordinates_by_location ds "volume" 3 = Ok None →
   (set_volume_coordinates ds topology_var 3;;
    set_cell_center_lat_lon_3d ds) g
   = (Raise TypeError, <["volume_coordinates" := VNone]> g))
  ∧ (∀ c x, ncattrs topology_var !! "volume_coordinates" = Some (AStr c) →
            PyStr.split " " c = [x] →
            (set_volume_coordinates ds topology_var 3;;
             set_cell_center_lat_lon_3d ds) g
            = (Raise IndexError,
               <["volume_coordinates" := VTuple [VStr x]]> g)).
Proof.
  split.
  - intros Hattr Hfind.
    unfold set_volume_coordinates, set_cell_center_lat_lon_3d, try_exceptM,
      getattr.
    rewrite Hattr, Hfind.
    unfold mbind, M_bind, lift, setattr, getattr_grid.
    cbn -[getitem insert lookup]. by rewrite lookup_insert_eq.
  - intros c x Hattr Hsplit.
    unfold set_volume_coordinates, set_cell_center_lat_lon_3d, try_exceptM,
      getattr, py_split.
    rewrite Hattr.
    unfold mbind, M_bind, lift, setattr, getattr_grid.
    cbn -[getitem insert lookup PyStr.split]. rewrite Hsplit.
    by rewrite !lookup_insert_eq.
Qed.

Lemma centers_3d_errors_samples :
  (set_volume_coordinates two_faces_dataset bare_topology 3;;
   set_cell_center_lat_lon_3d (H:=sample_collaborators) two_faces_dataset) ∅
  = (Raise TypeError, <["volume_coordinates" := VNone]> ∅)
  ∧ (set_volume_coordinates volume_dataset single_name_topology 3;;
     set_cell_center_lat_lon_3d (H:=sample_collaborators) volume_dataset) ∅
    = (Raise IndexError, <["volume_coordinates" := VTuple [VStr "lon_rho"]]> ∅).
Proof.
  split.
  - apply (centers_3d_errors (H:=sample_collaborators)
             two_faces_dataset bare_topology ∅).
    + vm_compute. reflexivity.
    + vm_compute. reflexivity.
  - destruct (centers_3d_errors (H:=sample_collaborators)
                volume_dataset single_name_topology ∅) as [_ Hsingle].
    apply (Hsingle "lon_rho" "lon_rho").
    + vm_compute. reflexivity.
    + vm_compute. reflexivity.
Defined.

Lemma find_grid_cell_node_vars_keys `{Collaborators} ds lon lat :
  find_grid_cell_node_vars ds = Ok (lon, lat) →
  (∀ k, lon = Some k → k ∈ keys ds) ∧ (∀ k, lat = Some k → k ∈ keys ds).
Proof.
  unfold find_grid_cell_node_vars, for_each_variable. intros Hfind.
  eapply (for_each_invariant
            (λ r : option string * option string,
               (∀ k, r.1 = Some k → k ∈ keys ds)
               ∧ (∀ k, r.2 = Some k → k ∈ keys ds))
            _ _ _ (lon, lat)); [| |exact Hfind];
    [split; intros k' Hk'; by simpl in Hk'|].
  intros [lon1 lat1] k [lon2 lat2] Hk [Hlon Hlat]. simpl in *.
  destruct (getitem ds k) as [v|e]; simpl; [|done].
  unfold try_except, getattr.
  destruct (ncattrs v !! "long_name") as [a|]; simpl; intros [= <- <-];
    [|done].
  split; intros k'; case_match; try intros [= <-]; auto.
Qed.

(** X16.  A 2-D topology variable with [node_dimensions] and without
    [node_coordinates]: the node variables are searched by long name and
    the pair found is stored, found or not.  When the longitude or the
    latitude was not found, [set_cell_node_lat_lon], run after it, looks
    up none as a variable and raises [KeyError] for it; when both were
    found, it stores as [nodes] the pairing of their data. *)
Theorem nodes_from_long_names `{Collaborators} ds topology_var d lon lat g :
  ncattrs topology_var !! "node_dimensions" = Some d →
  ncattrs topology_var !! "node_coordinates" = None →
  find_grid_cell_node_vars ds = Ok (lon, lat) →
  (lon = None ∨ lat = None →
   (set_sgrid_node_coordinates ds topology_var;;
    set_cell_node_lat_lon_2d ds) g
   = (Raise (KeyError VNone),
      <["node_coordinates" := VTuple [of_name lon; of_name lat]]>
        (<["node_dimensions" := of_attr d]> g)))
  ∧ (∀ x y, lon = Some x → lat = Some y →
       ∃ vx vy,
         getitem ds x = Ok vx ∧ getitem ds y = Ok vy
         ∧ (set_sgrid_node_coordinates ds topology_var;;
            set_cell_node_lat_lon_2d ds) g
           = match pair_arrays (data vx) (data vy) with
             | Ok nodes =>
                 (Ok (), <["nodes" := VArray nodes]>
                           (<["node_coordinates" := VTuple [VStr x; VStr y]]>
                              (<["node_dimensions" := of_attr d]> g)))
             | Raise e =>
                 (Raise e,
                  <["node_coordinates" := VTuple [VStr x; VStr y]]>
                    (<["node_dimensions" := of_attr d]> g))
             end).
Proof.
  intros Hdims Hattr Hfind.
  destruct (find_grid_cell_node_vars_keys ds lon lat Hfind) as [Hlon Hlat].
  assert (Hrun :
    (set_sgrid_node_coordinates ds topology_var;;
     set_cell_node_lat_lon_2d ds) g
    = let g1 := <["node_coordinates" := VTuple [of_name lon; of_name lat]]>
                  (<["node_dimensions" := of_attr d]> g) in
      match getitem_value ds (of_name lat) with
      | Ok vy =>
          match getitem_value ds (of_name lon) with
          | Ok vx =>
              match pair_arrays (data vx) (data vy) with
              | Ok nodes => (Ok (), <["nodes" := VArray nodes]> g1)
              | Raise e => (Raise e, g1)
              end
          | Raise e => (Raise e, g1)
          end
      | Raise e => (Raise e, g1)
      end).
  { unfold set_sgrid_node_coordinates, set_cell_node_lat_lon_2d, try_exceptM,
      getattr.
    rewrite Hdims, Hattr, Hfind.
    unfold mbind, M_bind, lift, setattr, getattr_grid.
    cbn -[getitem_value insert lookup]. rewrite lookup_insert_eq.
    cbn -[getitem_value insert lookup].
    destruct (getitem_value ds (of_name lat)) as [vy|e]; [|done].
    destruct (getitem_value ds (of_name lon)) as [vx|e]; [|done].
    by destruct (pair_arrays (data vx) (data vy)). }
  rewrite Hrun. split.
  - intros Hnone. destruct lat as [y|]; simpl; [|done].
    destruct (getitem_keys ds y) as [vy ->]; [by apply Hlat|].
    by destruct Hnone as [->|?].
  - intros x y -> ->.
    destruct (getitem_keys ds x) as [vx Hx]; [by apply Hlon|].
    destruct (getitem_keys ds y) as [vy Hy]; [by apply Hlat|].
    exists vx, vy. do 2 (split; [done|]). simpl. by rewrite Hy, Hx.
Qed.

Lemma nodes_of_plain_dataset :
  (set_sgrid_node_coordinates (H:=sample_collaborators)
     plain_dataset node_dimensions_topology;;
   set_cell_node_lat_lon_2d (H:=sample_collaborators) plain_dataset) ∅
  = (Raise (KeyError VNone),
     <["node_coordinates" := VTuple [VNone; VNone]]>
       (<["node_dimensions" := VStr "xi_psi eta_psi"]> ∅)).
Proof.
  destruct (nodes_from_long_names (H:=sample_collaborators)
              plain_dataset node_dimensions_topology
              (AStr "xi_psi eta_psi") None None ∅) as [Hnone _].
  - vm_compute. reflexivity.
  - vm_compute. reflexivity.
  - vm_compute. reflexivity.
  - apply Hnone. by left.
Defined.

(** ** Deleting the attributes of the other topology *)

Lemma delete_all_cons a attrs g :
  delete_all (a :: attrs) g
  = match g !! a with
    | Some _ => delete_all attrs (delete a g)
    | None => (Raise (AttributeError a), g)
    end.
Proof.
  unfold delete_all. cbn [for_eachM]. unfold mbind, M_bind, delattr.
  by destruct (g !! a).
Qed.

Lemma delete_all_present attrs g :
  NoDup attrs → (∀ a, a ∈ attrs → is_Some (g !! a)) →
  ∃ g', delete_all attrs g = (Ok (), g')
        ∧ ∀ b, g' !! b = if bool_decide (b ∈ attrs) then None else g !! b.
Proof.
  intros Hnd. revert g. induction Hnd as [|a attrs Ha Hnd IH]; intros g Hg.
  - exists g. split; [done|]. intros b.
    by rewrite bool_decide_false by apply not_elem_of_nil.
  - rewrite delete_all_cons.
    destruct (Hg a) as [v ->]; [by left|].
    destruct (IH (delete a g)) as (g' & -> & Hg').
    { intros b Hb. rewrite lookup_delete_ne by (by intros ->).
      apply Hg. by right. }
    exists g'. split; [done|]. intros b. rewrite Hg'.
    destruct (decide (b = a)) as [->|Hne].
    + rewrite bool_decide_false by done.
      rewrite bool_decide_true by (by left). apply lookup_delete_eq.
    + rewrite lookup_delete_ne by done.
      rewrite (bool_decide_ext (b ∈ attrs) (b ∈ a :: attrs)); [done|].
      rewrite elem_of_cons. split; [by right|by intros [?|?]].
Qed.

Lemma delete_all_absent before a after g :
  NoDup before → (∀ b, b ∈ before → is_Some (g !! b)) → g !! a = None →
  ∃ g', delete_all (before ++ a :: after) g = (Raise (AttributeError a), g')
        ∧ ∀ b, g' !! b = if bool_decide (b ∈ before) then None else g !! b.
Proof.
  intros Hnd. revert g. induction Hnd as [|c before Hc Hnd IH]; intros g Hg Ha.
  - cbn [app]. rewrite delete_all_cons, Ha. exists g. split; [done|]. intros b.
    by rewrite bool_decide_false by apply not_elem_of_nil.
  - cbn [app]. rewrite delete_all_cons.
    destruct (Hg c) as [v Hv]; [by left|]. rewrite Hv.
    destruct (IH (delete c g)) as (g' & -> & Hg').
    { intros b Hb. rewrite lookup_delete_ne by (by intros ->).
      apply Hg. by right. }
    { rewrite lookup_delete_ne; [done|]. intros ->. by rewrite Hv in Ha. }
    exists g'. split; [done|]. intros b. rewrite Hg'.
    destruct (decide (b = c)) as [->|Hne].
    + rewrite bool_decide_false by done.
      rewrite bool_decide_true by (by left). apply lookup_delete_eq.
    + rewrite lookup_delete_ne by done.
      rewrite (bool_decide_ext (b ∈ before) (b ∈ c :: before)); [done|].
      rewrite elem_of_cons. split; [by right|by intros [?|?]].
Qed.

Lemma nd_attributes_NoDup : NoDup nd_attributes_2d ∧ NoDup nd_attributes_3d.
Proof. split; apply (bool_decide_unpack _); vm_compute; exact I. Qed.

(** X17.  [delete_nd_attributes] of either subclass deletes its
    attributes in the order of the source and needs every one of them on
    the grid.  When all are there it returns, and the grid has lost
    exactly these attributes.  When one is not, it raises
    [AttributeError] for the first such attribute, and the attributes
    before that one are already deleted: the deletion is not undone. *)
Theorem delete_nd_attributes_spec (delete_nd_attributes : M unit) attrs g :
  delete_nd_attributes = delete_nd_attributes_2d ∧ attrs = nd_attributes_2d
  ∨ delete_nd_attributes = delete_nd_attributes_3d ∧ attrs = nd_attributes_3d →
  ((∀ a, a ∈ attrs → is_Some (g !! a)) →
   ∃ g', delete_nd_attributes g = (Ok (), g')
         ∧ ∀ b, g' !! b = if bool_decide (b ∈ attrs) then None else g !! b)
  ∧ (∀ before a after,
       attrs = before ++ a :: after →
       (∀ b, b ∈ before → is_Some (g !! b)) →
       g !! a = None →
       ∃ g', delete_nd_attributes g = (Raise (AttributeError a), g')
             ∧ ∀ b, g' !! b
                    = if bool_decide (b ∈ before) then None else g !! b).
Proof.
  intros Hcase.
  assert (delete_nd_attributes = delete_all attrs ∧ NoDup attrs)
    as [-> Hnd].
  { destruct nd_attributes_NoDup.
    by destruct Hcase as [[-> ->]|[-> ->]]. }
  split.
  - by apply delete_all_present.
  - intros before a after -> Hbefore Ha.
    apply delete_all_absent; [|done|done].
    by apply NoDup_app in Hnd as [? _].
Qed.

Lemma delete_nd_attributes_samples :
  (∃ g', delete_nd_attributes_3d preset_grid = (Ok (), g')
         ∧ ∀ b, g' !! b = if bool_decide (b ∈ nd_attributes_3d)
                          then None else preset_grid !! b)
  ∧ ∃ g', delete_nd_attributes_3d
            (delete "face_dimensions" preset_grid)
          = (Raise (AttributeError "face_dimensions"), g')
          ∧ ∀ b, g' !! b
                 = if bool_decide (b ∈ ["face_padding"; "face_coordinates"])
                   then None
                   else delete "face_dimensions" preset_grid !! b.
Proof.
  split.
  - apply (delete_nd_attributes_spec delete_nd_attributes_3d
             nd_attributes_3d preset_grid); [by right|].
    apply Forall_forall. apply (bool_decide_unpack _). vm_compute. exact I.
  - destruct (delete_nd_attributes_spec delete_nd_attributes_3d
                nd_attributes_3d (delete "face_dimensions" preset_grid))
      as [_ Habsent]; [by right|].
    apply (Habsent ["face_padding"; "face_coordinates"] "face_dimensions"
             ["vertical_padding"; "vertical_dimensions"]).
    + reflexivity.
    + apply Forall_forall. apply (bool_decide_unpack _). vm_compute. exact I.
    + vm_compute. reflexivity.
Defined.

(** ** What a successful load asks of the grid handed in *)

Lemma needs_bind {A B} (S : string → Prop) (m : M A) (k : A → M B)
    g g' b a :
  preserves S m → ¬ S a →
  (∀ x g1, k x g1 = (Ok b, g') → is_Some (g1 !! a)) →
  (m ≫= k) g = (Ok b, g') → is_Some (g !! a).
Proof.
  intros Hm Ha Hk Hr. bind_inv Hr as x g1 Hstep.
  specialize (Hm g a Ha). rewrite Hstep in Hm. simpl in Hm.
  rewrite <- Hm. by eapply Hk.
Qed.

Lemma delete_all_needs attrs g g' a :
  delete_all attrs g = (Ok (), g') → a ∈ attrs → is_Some (g !! a).
Proof.
  revert g. induction attrs as [|b attrs IH]; intros g;
    [by intros _ ?%elem_of_nil|].
  rewrite delete_all_cons. destruct (g !! b) as [v|] eqn:Hb; [|done].
  intros Hr [->|Ha]%elem_of_cons; [by rewrite Hb|].
  specialize (IH _ Hr Ha).
  destruct (decide (b = a)) as [->|Hne]; [by rewrite Hb|].
  by rewrite lookup_delete_ne in IH.
Qed.

Ltac outside := cbv beta; apply (bool_decide_unpack _); vm_compute; exact I.

Ltac frame Hvar :=
  repeat first
    [ apply preserves_ret | apply preserves_lift | apply preserves_read
    | apply preserves_getattr_grid
    | apply preserves_setattr; [outside]
    | apply preserves_try_exceptM
    | apply preserves_for_eachM; intros; apply Hvar
    | apply preserves_delete_all; apply Forall_forall; outside
    | apply preserves_bind
    | match goal with
      | |- ∀ _ : unit, _ => intros []
      | |- ∀ _ : _ * _, _ => intros [? ?]; cbv beta iota
      | |- ∀ _, _ => intros ?
      end ].

Ltac needs_step S Hvar :=
  apply (needs_bind S);
  [solve [frame Hvar] | (by intros Hn; apply Hn) | intros [] ?; cbv beta].

Lemma resolve_2d_needs `{Collaborators} ds topology_var v g g' a :
  (∀ n w g a, a ≠ n → (add_property n w g).2 !! a = g !! a) →
  (∀ w sv, w ∈ ds_variables ds → create_variable w = Ok sv →
           variable sv ∉ nd_attributes_2d) →
  resolve_2d ds topology_var v g = (Ok (), g') →
  a ∈ nd_attributes_2d → is_Some (g !! a).
Proof.
  intros Hadd Hnames Hr Ha.
  pose proof (preserves_variable_step ds (λ b, b ∉ nd_attributes_2d)
                Hnames Hadd) as Hvar.
  revert Hr.
  unfold resolve_2d, set_dimensions, set_topology_dimension,
    set_sgrid_topology, set_sgrid_vertical_dimensions,
    set_sgrid_node_coordinates, set_all_edge_attributes_2d,
    set_all_face_attributes_2d, set_cell_center_lat_lon_2d,
    set_cell_node_lat_lon_2d, set_sgrid_angles, set_sgrid_time,
    set_sgrid_variable_attributes,
    set_edge1_dimensions, set_edge1_coordinates, set_edge2_dimensions,
    set_edge2_coordinates, set_face_dimensions, set_face_coordindates,
    set_dimensions_of, set_coordinates_of.
  do 12 needs_step (λ b, b ∉ nd_attributes_2d) Hvar.
  intros Hr. by eapply delete_all_needs.
Qed.

Lemma resolve_3d_needs `{Collaborators} ds topology_var v g g' a :
  (∀ n w g a, a ≠ n → (add_property n w g).2 !! a = g !! a) →
  (∀ w sv, w ∈ ds_variables ds → create_variable w = Ok sv →
           variable sv ∉ nd_attributes_3d) →
  resolve_3d ds topology_var v g = (Ok (), g') →
  a ∈ nd_attributes_3d → is_Some (g !! a).
Proof.
  intros Hadd Hnames Hr Ha.
  pose proof (preserves_variable_step ds (λ b, b ∉ nd_attributes_3d)
                Hnames Hadd) as Hvar.
  revert Hr.
  unfold resolve_3d, set_dimensions, set_topology_dimension,
    set_sgrid_topology, set_sgrid_node_coordinates,
    set_all_edge_attributes_3d, set_all_face_attributes_3d,
    set_volume_dimensions, set_volume_coordinates,
    set_cell_center_lat_lon_3d, set_cell_node_lat_lon_3d,
    set_sgrid_angles, set_sgrid_time, set_sgrid_variable_attributes,
    set_edge1_dimensions, set_edge1_coordinates, set_edge2_dimensions,
    set_edge2_coordinates, set_edge3_dimensions, set_edge3_coordinates,
    set_face1_dimensions, set_face1_coordinates, set_face2_dimensions,
    set_face2_coordinates, set_face3_dimensions, set_face3_coordinates,
    set_dimensions_of, set_coordinates_of.
  do 13 needs_step (λ b, b ∉ nd_attributes_3d) Hvar.
  intros Hr. by eapply delete_all_needs.
Qed.

Lemma selects_functional ds grid_topology_vars tv1 tv2 :
  selects ds grid_topology_vars tv1 → selects ds grid_topology_vars tv2 →
  tv1 = tv2.
Proof. unfold selects. destruct grid_topology_vars; congruence. Qed.

Lemma load_needs `{Collaborators} ds grid_topology_vars g g' :
  (∀ n w g a, a ≠ n → (add_property n w g).2 !! a = g !! a) →
  (∀ w sv, w ∈ ds_variables ds → create_variable w = Ok sv →
           variable sv ∉ nd_attributes_2d ++ nd_attributes_3d) →
  load_grid_from_nc_dataset ds grid_topology_vars g = (Ok (), g') →
  ∃ topology_var v,
    selects ds grid_topology_vars topology_var
    ∧ getitem ds topology_var = Ok v
    ∧ (ncattrs v !! "topology_dimension" = Some (AInt 2)
       ∧ (∀ a, a ∈ nd_attributes_2d → is_Some (g !! a) ∧ g' !! a = None)
       ∨ ncattrs v !! "topology_dimension" = Some (AInt 3)
         ∧ (∀ a, a ∈ nd_attributes_3d → is_Some (g !! a) ∧ g' !! a = None)).
Proof.
  intros Hadd Hnames Hload.
  apply load_Ok_inv in Hload
    as (tv & v & g1 & _ & Hsel & Hv & -> & [[Hd Hr]|[Hd Hr]]);
    exists tv, v; do 2 (split; [done|]); [left|right]; (split; [done|]);
    intros a Ha.
  - split.
    + eapply (resolve_2d_needs _ _ _ _ _ a) in Hr; [|done| |done].
      * rewrite !lookup_insert_ne in Hr; [done|intros <-..];
          revert Ha; apply (bool_decide_unpack _); vm_compute; exact I.
      * intros w sv Hw Hsv Hin. eapply Hnames; [done..|].
        apply elem_of_app. by left.
    + apply resolve_2d_deletes in Hr as [g2 Hdel].
      by apply delete_all_Ok in Hdel as [Hdel _]; apply Hdel.
  - split.
    + eapply (resolve_3d_needs _ _ _ _ _ a) in Hr; [|done| |done].
      * rewrite !lookup_insert_ne in Hr; [done|intros <-..];
          revert Ha; apply (bool_decide_unpack _); vm_compute; exact I.
      * intros w sv Hw Hsv Hin. eapply Hnames; [done..|].
        apply elem_of_app. by right.
    + apply resolve_3d_deletes in Hr as [g2 Hdel].
      by apply delete_all_Ok in Hdel as [Hdel _]; apply Hdel.
Qed.

(** X18.  The loader only succeeds on a grid that is already furnished:
    provided registering a variable descriptor touches the attribute of
    its name only, and no variable is registered under one of the names
    that [delete_nd_attributes] deletes, a load that returns a grid was
    handed a grid that had every attribute deleted at the end of the 2-D
    resolution, or every attribute deleted at the end of the 3-D one.  A
    grid object without these attributes cannot be loaded. *)
Theorem load_needs_off_topology_attributes `{Collaborators}
    ds grid_topology_vars g g' :
  (∀ n w g a, a ≠ n → (add_property n w g).2 !! a = g !! a) →
  (∀ w sv, w ∈ ds_variables ds → create_variable w = Ok sv →
           variable sv ∉ nd_attributes_2d ++ nd_attributes_3d) →
  load_grid_from_nc_dataset ds grid_topology_vars g = (Ok (), g') →
  (∀ a, a ∈ nd_attributes_2d → is_Some (g !! a))
  ∨ (∀ a, a ∈ nd_attributes_3d → is_Some (g !! a)).
Proof.
  intros Hadd Hnames Hload.
  destruct (load_needs _ _ _ _ Hadd Hnames Hload)
    as (tv & v & _ & _ & [[_ Hneeds]|[_ Hneeds]]);
    [left|right]; intros a Ha; by apply Hneeds.
Qed.

Lemma sample_add_property_frame :
  ∀ n w g a, a ≠ n →
    (add_property (Collaborators:=sample_collaborators) n w g).2 !! a = g !! a.
Proof.
  intros n w g a Hne. simpl. unfold setattr. simpl.
  apply lookup_insert_ne. by intros ->.
Qed.

Lemma dataset_2d_names :
  ∀ w sv, w ∈ ds_variables dataset_2d →
    create_variable (Collaborators:=sample_collaborators) w = Ok sv →
    variable sv ∉ nd_attributes_2d ++ nd_attributes_3d.
Proof.
  intros w sv Hw [= <-]. simpl. revert w Hw.
  apply Forall_forall, (bool_decide_unpack _). vm_compute. exact I.
Qed.

Lemma dataset_2d_needs_furnished_grid :
  (∀ a, a ∈ nd_attributes_2d → is_Some (fresh_grid !! a))
  ∨ (∀ a, a ∈ nd_attributes_3d → is_Some (fresh_grid !! a)).
Proof.
  apply (load_needs_off_topology_attributes (H:=sample_collaborators)
           dataset_2d None fresh_grid
           (load_grid_from_nc_dataset (H:=sample_collaborators)
              dataset_2d None fresh_grid).2).
  - exact sample_add_property_frame.
  - exact dataset_2d_names.
  - apply returned_grid. vm_compute. reflexivity.
Defined.

(** X19.  The loader cannot be run twice on one grid object: under the
    same provisos, the grid returned by a load has lost the attributes
    that the resolution deletes at its end, and loading the same dataset
    with the same topology variable into that grid again returns no
    grid. *)
Theorem load_twice_fails `{Collaborators} ds grid_topology_vars g g' :
  (∀ n w g a, a ≠ n → (add_property n w g).2 !! a = g !! a) →
  (∀ w sv, w ∈ ds_variables ds → create_variable w = Ok sv →
           variable sv ∉ nd_attributes_2d ++ nd_attributes_3d) →
  load_grid_from_nc_dataset ds grid_topology_vars g = (Ok (), g') →
  (load_grid_from_nc_dataset ds grid_topology_vars g').1 ≠ Ok ().
Proof.
  intros Hadd Hnames Hload Hagain. apply returned_grid in Hagain.
  destruct (load_needs _ _ _ _ Hadd Hnames Hload)
    as (tv1 & v1 & Hsel1 & Hv1 & Hfirst).
  destruct (load_needs _ _ _ _ Hadd Hnames Hagain)
    as (tv2 & v2 & Hsel2 & Hv2 & Hsecond).
  assert (tv2 = tv1) as -> by by eapply selects_functional.
  assert (v2 = v1) as -> by congruence.
  destruct Hfirst as [[Hd1 Hgone]|[Hd1 Hgone]],
    Hsecond as [[Hd2 Hthere]|[Hd2 Hthere]]; try congruence.
  - destruct (Hgone "volume_padding") as [_ Hnone]; [by left|].
    destruct (Hthere "volume_padding") as [[x Hx] _]; [by left|]. congruence.
  - destruct (Hgone "face_padding") as [_ Hnone]; [by left|].
    destruct (Hthere "face_padding") as [[x Hx] _]; [by left|]. congruence.
Qed.

Lemma load_dataset_2d_twice :
  (load_grid_from_nc_dataset (H:=sample_collaborators) dataset_2d None
     (load_grid_from_nc_dataset (H:=sample_collaborators)
        dataset_2d None fresh_grid).2).1 ≠ Ok ().
Proof.
  apply (load_twice_fails (H:=sample_collaborators)
           dataset_2d None fresh_grid).
  - exact sample_add_property_frame.
  - exact dataset_2d_names.
  - apply returned_grid. vm_compute. reflexivity.
Defined.

(** ** What a successful load leaves on the grid *)

Lemma lift_Ok_inv {A} (o : outcome A) g a g' :
  lift o g = (Ok a, g') → o = Ok a ∧ g' = g.
Proof. unfold lift. by intros [= -> ->]. Qed.

Lemma variable_step_Ok `{Collaborators} ds v acc1 acc2 g r g' :
  getitem ds (name v) = Ok v →
  variable_step ds (acc1, acc2) (name v) g = (Ok r, g') →
  r = (acc1 ++ [name v],
       if has_grid v then acc2 ++ [name v] else acc2).
Proof.
  intros Hv. unfold variable_step. rewrite Hv. intros Hr.
  bind_inv Hr as v' g1 Hm. apply lift_Ok_inv in Hm as [[= <-] ->].
  bind_inv Hr as sv g1 Hm. clear Hm.
  bind_inv Hr as slicing g2 Hm. clear Hm.
  bind_inv Hr as u g3 Hm. clear Hm.
  by injection Hr as <- _.
Qed.

Lemma variable_loop `{Collaborators} ds vs acc1 acc2 g dvs gvs g' :
  (∀ v, v ∈ vs → getitem ds (name v) = Ok v) →
  for_eachM (variable_step ds) (acc1, acc2) (name <$> vs) g
  = (Ok (dvs, gvs), g') →
  dvs = acc1 ++ (name <$> vs)
  ∧ gvs = acc2 ++ (name <$> filter (λ v, has_grid v = true) vs).
Proof.
  revert acc1 acc2 g. induction vs as [|v vs IH]; intros acc1 acc2 g Hvs.
  - intros [= <- <- _]. by rewrite !app_nil_r.
  - rewrite fmap_cons. cbn [for_eachM]. intros Hr.
    bind_inv Hr as r g1 Hstep.
    apply variable_step_Ok in Hstep as ->; [|apply Hvs; by left].
    apply IH in Hr as [-> ->]; [|intros w Hw; apply Hvs; by right].
    rewrite filter_cons. rewrite <- !app_assoc. split; [done|].
    destruct (has_grid v) eqn:Hg.
    + rewrite decide_True by done. by rewrite fmap_cons, <- app_assoc.
    + by rewrite decide_False by done.
Qed.

Lemma set_sgrid_variable_attributes_Ok `{Collaborators} ds g g' :
  NoDup (keys ds) →
  set_sgrid_variable_attributes ds g = (Ok (), g') →
  g' !! "variables" = Some (VList (VStr <$> keys ds))
  ∧ g' !! "grid_variables"
    = Some (VList (VStr <$> (name <$> filter (λ v, has_grid v = true)
                                        (ds_variables ds)))).
Proof.
  intros Hnd. unfold set_sgrid_variable_attributes. intros Hr.
  bind_inv Hr as r g1 Hloop. destruct r as [dvs gvs].
  apply variable_loop in Hloop as [-> ->];
    [|intros v Hv; by apply getitem_nodup].
  unfold mbind, M_bind, setattr in Hr. injection Hr as <-.
  split.
  - by rewrite lookup_insert_ne, lookup_insert_eq.
  - by rewrite lookup_insert_eq.
Qed.

(** X20.  [set_sgrid_variable_attributes], when it returns, has stored
    under [variables] the names of all the variables of the dataset, in
    the order of the store, and under [grid_variables] the names of those
    that have a [grid] attribute, whatever the attribute holds; what the
    two lists held before is replaced. *)
Theorem set_sgrid_variable_attributes_spec `{Collaborators} ds g g' :
  NoDup (keys ds) →
  set_sgrid_variable_attributes ds g = (Ok (), g') →
  g' !! "variables" = Some (VList (VStr <$> keys ds))
  ∧ g' !! "grid_variables"
    = Some (VList (VStr <$> (name <$> filter (λ v, has_grid v = true)
                                        (ds_variables ds)))).
Proof. apply set_sgrid_variable_attributes_Ok. Qed.

Lemma variables_of_two_grids_dataset :
  (set_sgrid_variable_attributes (H:=sample_collaborators)
     two_grids_dataset fresh_grid).2 !! "variables"
  = Some (VList [VStr "temp"; VStr "grid_a"; VStr "grid_b"; VStr "mesh"])
  ∧ (set_sgrid_variable_attributes (H:=sample_collaborators)
       two_grids_dataset fresh_grid).2 !! "grid_variables"
    = Some (VList [VStr "temp"]).
Proof.
  destruct (set_sgrid_variable_attributes_spec (H:=sample_collaborators)
              two_grids_dataset fresh_grid
              (set_sgrid_variable_attributes (H:=sample_collaborators)
                 two_grids_dataset fresh_grid).2) as [Hvars Hgrid].
  - apply (bool_decide_unpack _). vm_compute. exact I.
  - apply returned_grid. vm_compute. reflexivity.
  - split.
    + etrans; [exact Hvars|]. vm_compute. reflexivity.
    + etrans; [exact Hgrid|]. vm_compute. reflexivity.
Defined.

Lemma setattr_Ok_inv attr w g u g' :
  setattr attr w g = (Ok u, g') → g' = <[attr := w]> g.
Proof. unfold setattr. by intros [= <-]. Qed.

Lemma delete_nd_keeps attrs g g' o a :
  delete_all attrs g = (o, g') → a ∉ attrs → g' !! a = g !! a.
Proof.
  intros Hdel Ha.
  pose proof (preserves_delete_all (λ b, b ∈ attrs) attrs (λ _ Hb, Hb) g a Ha)
    as Hkeep.
  by rewrite Hdel in Hkeep.
Qed.

Lemma resolve_2d_variables `{Collaborators} ds topology_var v g g' :
  resolve_2d ds topology_var v g = (Ok (), g') →
  ∃ g1 g2, set_sgrid_variable_attributes ds g1 = (Ok (), g2)
           ∧ delete_nd_attributes_2d g2 = (Ok (), g').
Proof.
  unfold resolve_2d. intros Hr.
  do 11 (let u := fresh "u" in let g := fresh "g" in let Hm := fresh "Hm" in
         bind_inv Hr as u g Hm).
  bind_inv Hr as uv gv Hvars. destruct uv. eauto.
Qed.

Lemma resolve_3d_variables `{Collaborators} ds topology_var v g g' :
  resolve_3d ds topology_var v g = (Ok (), g') →
  ∃ g1 g2, set_sgrid_variable_attributes ds g1 = (Ok (), g2)
           ∧ delete_nd_attributes_3d g2 = (Ok (), g').
Proof.
  unfold resolve_3d. intros Hr.
  do 12 (let u := fresh "u" in let g := fresh "g" in let Hm := fresh "Hm" in
         bind_inv Hr as u g Hm).
  bind_inv Hr as uv gv Hvars. destruct uv. eauto.
Qed.

Lemma preserved_result {A} (S : string → Prop) (m : M A) g r g' a :
  preserves S m → m g = (r, g') → ¬ S a → g' !! a = g !! a.
Proof. intros Hm Hr Ha. specialize (Hm g a Ha). by rewrite Hr in Hm. Qed.

Ltac identified Hkeep Hr :=
  rewrite (preserved_result _ _ _ _ _ _ Hkeep Hr)
    by (intros Hn; apply Hn; apply (bool_decide_unpack _); vm_compute;
        exact I);
  repeat first [ apply lookup_insert_eq
               | rewrite lookup_insert_ne by done ]; try done.

Lemma resolve_2d_identifying `{Collaborators} ds topology_var v d g g' :
  (∀ n w g a, a ≠ n → (add_property n w g).2 !! a = g !! a) →
  (∀ w sv, w ∈ ds_variables ds → create_variable w = Ok sv →
           variable sv ∉ identifying_attributes) →
  ncattrs v !! "topology_dimension" = Some d →
  resolve_2d ds topology_var v g = (Ok (), g') →
  g' !! "dimensions" = Some (grid_dims ds)
  ∧ g' !! "grid_topology_vars" = g !! "grid_topology_vars"
  ∧ g' !! "topology_dimension" = Some (of_attr d).
Proof.
  intros Hadd Hnames Hd Hr.
  pose proof (preserves_variable_step ds (λ b, b ∉ identifying_attributes)
                Hnames Hadd) as Hvar.
  unfold resolve_2d, set_dimensions, set_topology_dimension,
    set_sgrid_topology, getattr in Hr.
  rewrite Hd in Hr.
  bind_inv Hr as u1 g1 Hm1. apply setattr_Ok_inv in Hm1 as ->.
  bind_inv Hr as u2 g2 Hm2. apply setattr_Ok_inv in Hm2 as ->.
  bind_inv Hr as u3 g3 Hm3. unfold mbind, M_bind, lift in Hm3.
  apply setattr_Ok_inv in Hm3 as ->.
  match type of Hr with
  | ?rest ?g3 = _ =>
      assert (Hkeep : preserves (λ b, b ∉ identifying_attributes) rest)
  end.
  { unfold set_sgrid_vertical_dimensions,
      set_sgrid_node_coordinates, set_all_edge_attributes_2d,
      set_all_face_attributes_2d, set_cell_center_lat_lon_2d,
      set_cell_node_lat_lon_2d, set_sgrid_angles, set_sgrid_time,
      set_sgrid_variable_attributes, delete_nd_attributes_2d,
      set_edge1_dimensions, set_edge1_coordinates, set_edge2_dimensions,
      set_edge2_coordinates, set_face_dimensions, set_face_coordindates,
      set_dimensions_of, set_coordinates_of.
    frame Hvar. }
  split; [|split]; identified Hkeep Hr.
Qed.

Lemma resolve_3d_identifying `{Collaborators} ds topology_var v d g g' :
  (∀ n w g a, a ≠ n → (add_property n w g).2 !! a = g !! a) →
  (∀ w sv, w ∈ ds_variables ds → create_variable w = Ok sv →
           variable sv ∉ identifying_attributes) →
  ncattrs v !! "topology_dimension" = Some d →
  resolve_3d ds topology_var v g = (Ok (), g') →
  g' !! "dimensions" = Some (grid_dims ds)
  ∧ g' !! "grid_topology_vars" = g !! "grid_topology_vars"
  ∧ g' !! "topology_dimension" = Some (of_attr d).
Proof.
  intros Hadd Hnames Hd Hr.
  pose proof (preserves_variable_step ds (λ b, b ∉ identifying_attributes)
                Hnames Hadd) as Hvar.
  unfold resolve_3d, set_dimensions, set_topology_dimension,
    set_sgrid_topology, getattr in Hr.
  rewrite Hd in Hr.
  bind_inv Hr as u1 g1 Hm1. apply setattr_Ok_inv in Hm1 as ->.
  bind_inv Hr as u2 g2 Hm2. apply setattr_Ok_inv in Hm2 as ->.
  bind_inv Hr as u3 g3 Hm3. unfold mbind, M_bind, lift in Hm3.
  apply setattr_Ok_inv in Hm3 as ->.
  match type of Hr with
  | ?rest ?g3 = _ =>
      assert (Hkeep : preserves (λ b, b ∉ identifying_attributes) rest)
  end.
  { unfold set_sgrid_node_coordinates,
      set_all_edge_attributes_3d, set_all_face_attributes_3d,
      set_volume_dimensions, set_volume_coordinates,
      set_cell_center_lat_lon_3d, set_cell_node_lat_lon_3d,
      set_sgrid_angles, set_sgrid_time, set_sgrid_variable_attributes,
      delete_nd_attributes_3d,
      set_edge1_dimensions, set_edge1_coordinates, set_edge2_dimensions,
      set_edge2_coordinates, set_edge3_dimensions, set_edge3_coordinates,
      set_face1_dimensions, set_face1_coordinates, set_face2_dimensions,
      set_face2_coordinates, set_face3_dimensions, set_face3_coordinates,
      set_dimensions_of, set_coordinates_of.
    frame Hvar. }
  split; [|split]; identified Hkeep Hr.
Qed.

(** X21.  The grid a load returns identifies what was loaded.  Provided
    the names of the dataset's variables are distinct, registering a
    variable descriptor touches the attribute of its name only, and no
    variable is registered as [dimensions], [grid_topology_vars] or
    [topology_dimension]: on the returned grid [dimensions] holds the
    dataset's dimensions with their sizes, [grid_topology_vars] the name
    of the topology variable worked on, [topology_dimension] that
    variable's dimension, 2 or 3, [variables] the names of all variables
    and [grid_variables] the names of those with a [grid] attribute. *)
Theorem load_identifies_the_grid `{Collaborators} ds grid_topology_vars g g' :
  NoDup (keys ds) →
  (∀ n w g a, a ≠ n → (add_property n w g).2 !! a = g !! a) →
  (∀ w sv, w ∈ ds_variables ds → create_variable w = Ok sv →
           variable sv ∉ identifying_attributes) →
  load_grid_from_nc_dataset ds grid_topology_vars g = (Ok (), g') →
  ∃ topology_var v n,
    selects ds grid_topology_vars topology_var
    ∧ getitem ds topology_var = Ok v
    ∧ ncattrs v !! "topology_dimension" = Some (AInt n)
    ∧ (n = 2 ∨ n = 3)
    ∧ g' !! "dimensions" = Some (grid_dims ds)
    ∧ g' !! "grid_topology_vars" = Some (VStr topology_var)
    ∧ g' !! "topology_dimension" = Some (VInt n)
    ∧ g' !! "variables" = Some (VList (VStr <$> keys ds))
    ∧ g' !! "grid_variables"
      = Some (VList (VStr <$> (name <$> filter (λ v, has_grid v = true)
                                          (ds_variables ds)))).
Proof.
  intros Hnd Hadd Hnames Hload.
  apply load_Ok_inv in Hload
    as (tv & v & g1 & _ & Hsel & Hv & -> & [[Hd Hr]|[Hd Hr]]).
  - exists tv, v, 2. do 3 (split; [done|]). split; [by left|].
    destruct (resolve_2d_identifying _ _ _ _ _ _ Hadd Hnames Hd Hr)
      as (Hdims & Htv & Htd).
    rewrite lookup_insert_eq in Htv. do 3 (split; [done|]).
    apply resolve_2d_variables in Hr as (g2 & g3 & Hvars & Hdel).
    apply (set_sgrid_variable_attributes_Ok _ _ _ Hnd) in Hvars
      as [Hvars Hgrid].
    split; (etrans; [eapply delete_nd_keeps; [exact Hdel|outside]|done]).
  - exists tv, v, 3. do 3 (split; [done|]). split; [by right|].
    destruct (resolve_3d_identifying _ _ _ _ _ _ Hadd Hnames Hd Hr)
      as (Hdims & Htv & Htd).
    rewrite lookup_insert_eq in Htv. do 3 (split; [done|]).
    apply resolve_3d_variables in Hr as (g2 & g3 & Hvars & Hdel).
    apply (set_sgrid_variable_attributes_Ok _ _ _ Hnd) in Hvars
      as [Hvars Hgrid].
    split; (etrans; [eapply delete_nd_keeps; [exact Hdel|outside]|done]).
Qed.

Lemma load_identifies_dataset_2d :
  ∃ topology_var v n,
    selects dataset_2d None topology_var
    ∧ getitem dataset_2d topology_var = Ok v
    ∧ ncattrs v !! "topology_dimension" = Some (AInt n)
    ∧ (n = 2 ∨ n = 3)
    ∧ (load_grid_from_nc_dataset (H:=sample_collaborators)
         dataset_2d None fresh_grid).2 !! "dimensions"
      = Some (grid_dims dataset_2d)
    ∧ (load_grid_from_nc_dataset (H:=sample_collaborators)
         dataset_2d None fresh_grid).2 !! "grid_topology_vars"
      = Some (VStr topology_var)
    ∧ (load_grid_from_nc_dataset (H:=sample_collaborators)
         dataset_2d None fresh_grid).2 !! "topology_dimension"
      = Some (VInt n)
    ∧ (load_grid_from_nc_dataset (H:=sample_collaborators)
         dataset_2d None fresh_grid).2 !! "variables"
      = Some (VList (VStr <$> keys dataset_2d))
    ∧ (load_grid_from_nc_dataset (H:=sample_collaborators)
         dataset_2d None fresh_grid).2 !! "grid_variables"
      = Some (VList (VStr <$> (name <$> filter (λ v, has_grid v = true)
                                          (ds_variables dataset_2d)))).
Proof.
  apply (load_identifies_the_grid (H:=sample_collaborators)
           dataset_2d None fresh_grid).
  - apply (bool_decide_unpack _). vm_compute. exact I.
  - intros n w g a Hne. simpl. unfold setattr. simpl.
    apply lookup_insert_ne. by intros ->.
  - intros w sv Hw [= <-]. simpl. revert w Hw.
    apply Forall_forall, (bool_decide_unpack _). vm_compute. exact I.
  - apply returned_grid. vm_compute. reflexivity.
Defined.

(** ** What the loader never assigns *)

Ltac frame_cases Hvar :=
  repeat first
    [ progress frame Hvar
    | match goal with
      | |- preserves _ (if ?b then _ else _) => destruct b
      | |- preserves _ (match ?x with _ => _ end) => destruct x
      | |- preserves _ (match ?x with _ => _ end ≫= _) => destruct x
      end ].

(** The loader never assigns the grid's [edge1_dimensions] and
    [edge2_dimensions]: they hold after the load, whether it returns or
    raises, what they held before. *)
Lemma load_keeps_plural_edge_dimensions `{Collaborators}
    ds grid_topology_vars g a :
  (∀ n w g a, a ≠ n → (add_property n w g).2 !! a = g !! a) →
  (∀ w sv, w ∈ ds_variables ds → create_variable w = Ok sv →
           variable sv ∉ edge_dimensions_attributes) →
  a ∈ edge_dimensions_attributes →
  (load_grid_from_nc_dataset ds grid_topology_vars g).2 !! a = g !! a.
Proof.
  intros Hadd Hnames Ha.
  pose proof (preserves_variable_step ds (λ b, b ∉ edge_dimensions_attributes)
                Hnames Hadd) as Hvar.
  assert (Hkeep : preserves (λ b, b ∉ edge_dimensions_attributes)
                    (load_grid_from_nc_dataset ds grid_topology_vars)).
  { unfold load_grid_from_nc_dataset, resolve_2d, resolve_3d,
      set_dimensions, set_topology_dimension,
      set_sgrid_topology, set_sgrid_vertical_dimensions,
      set_sgrid_node_coordinates, set_all_edge_attributes_2d,
      set_all_face_attributes_2d, set_cell_center_lat_lon_2d,
      set_cell_node_lat_lon_2d, set_sgrid_angles, set_sgrid_time,
      set_sgrid_variable_attributes, delete_nd_attributes_2d,
      set_all_edge_attributes_3d, set_all_face_attributes_3d,
      set_volume_dimensions, set_volume_coordinates,
      set_cell_center_lat_lon_3d, set_cell_node_lat_lon_3d,
      delete_nd_attributes_3d,
      set_edge1_dimensions, set_edge1_coordinates, set_edge2_dimensions,
      set_edge2_coordinates, set_edge3_dimensions, set_edge3_coordinates,
      set_face_dimensions, set_face_coordindates,
      set_face1_dimensions, set_face1_coordinates, set_face2_dimensions,
      set_face2_coordinates, set_face3_dimensions, set_face3_coordinates,
      set_dimensions_of, set_coordinates_of.
    frame_cases Hvar. }
  apply Hkeep. by intros Hn.
Qed.

(** X23.  A 3-D load computes no cell nodes: [set_cell_node_lat_lon] of
    the 3-D subclass does nothing, and no other step assigns [nodes].
    Provided registering a variable descriptor touches the attribute of
    its name only and no variable is registered as [nodes], the grid holds
    under [nodes], after a load that worked on a topology variable of
    dimension 3, what it held before. *)
Theorem load_3d_leaves_nodes `{Collaborators}
    ds grid_topology_vars topology_var v g :
  (∀ n w g a, a ≠ n → (add_property n w g).2 !! a = g !! a) →
  (∀ w sv, w ∈ ds_variables ds → create_variable w = Ok sv →
           variable sv ∉ ["nodes"]) →
  selects ds grid_topology_vars topology_var →
  getitem ds topology_var = Ok v →
  ncattrs v !! "topology_dimension" = Some (AInt 3) →
  (load_grid_from_nc_dataset ds grid_topology_vars g).2 !! "nodes"
  = g !! "nodes".
Proof.
  intros Hadd Hnames Hsel Hv Hd.
  pose proof (preserves_variable_step ds (λ b, b ∉ ["nodes"]) Hnames Hadd)
    as Hvar.
  assert (Hkeep : preserves (λ b, b ∉ ["nodes"])
                    (load_grid_from_nc_dataset ds grid_topology_vars)).
  { unfold load_grid_from_nc_dataset.
    apply preserves_bind; [apply preserves_lift|]. intros [|];
      [|apply preserves_lift].
    apply preserves_bind; [apply preserves_setattr; outside|]. intros [].
    assert (Hattr : ∀ k : option string → M unit,
              preserves (λ b, b ∉ ["nodes"]) (k (Some topology_var)) →
              preserves (λ b, b ∉ ["nodes"])
                (match grid_topology_vars with
                 | None => lift (find_grid_topology_vars ds)
                 | Some _ => mret grid_topology_vars
                 end ≫= k)).
    { intros k Hk. destruct grid_topology_vars as [given|]; simpl in Hsel.
      - subst given. intros g0 a Ha. by apply Hk.
      - rewrite Hsel. intros g0 a Ha. by apply Hk. }
    apply Hattr.
    apply preserves_bind; [apply preserves_setattr; outside|]. intros [].
    rewrite Hv. apply preserves_bind_lift. intros v' [= <-].
    unfold getattr. rewrite Hd. apply preserves_bind_lift. intros d [= <-].
    unfold attr_eq_int. rewrite bool_decide_false by done.
    rewrite bool_decide_true by done.
    unfold resolve_3d, set_dimensions, set_topology_dimension,
      set_sgrid_topology, set_sgrid_node_coordinates,
      set_all_edge_attributes_3d, set_all_face_attributes_3d,
      set_volume_dimensions, set_volume_coordinates,
      set_cell_center_lat_lon_3d, set_cell_node_lat_lon_3d,
      set_sgrid_angles, set_sgrid_time, set_sgrid_variable_attributes,
      delete_nd_attributes_3d,
      set_edge1_dimensions, set_edge1_coordinates, set_edge2_dimensions,
      set_edge2_coordinates, set_edge3_dimensions, set_edge3_coordinates,
      set_face1_dimensions, set_face1_coordinates, set_face2_dimensions,
      set_face2_coordinates, set_face3_dimensions, set_face3_coordinates,
      set_dimensions_of, set_coordinates_of.
    frame Hvar. }
  apply Hkeep. intros Hn. apply Hn. by left.
Qed.

Lemma load_dataset_3d_leaves_nodes :
  (load_grid_from_nc_dataset (H:=sample_collaborators)
     dataset_3d None fresh_grid).1 = Ok ()
  ∧ (load_grid_from_nc_dataset (H:=sample_collaborators)
       dataset_3d None fresh_grid).2 !! "nodes"
    = fresh_grid !! "nodes".
Proof.
  split; [vm_compute; reflexivity|].
  apply (load_3d_leaves_nodes (H:=sample_collaborators)
           dataset_3d None "grid"
           (mk_variable "grid" []
              [("cf_role", AStr "grid_topology");
               ("topology_dimension", AInt 3);
               ("node_dimensions", AStr "xi_psi eta_psi s_w");
               ("node_coordinates", AStr "lon_psi lat_psi s_w");
               ("volume_coordinates", AStr "lon_rho lat_rho s_rho")])).
  - intros n w g a Hne. simpl. unfold setattr. simpl.
    apply lookup_insert_ne. by intros ->.
  - intros w sv Hw [= <-]. simpl. revert w Hw.
    apply Forall_forall, (bool_decide_unpack _). vm_compute. exact I.
  - vm_compute. reflexivity.
  - vm_compute. reflexivity.
  - vm_compute. reflexivity.
Defined.

(** ** The attributes a load stores, step by step *)

Lemma establishes_here {A B} (Q : sgrid → Prop) (S : string → Prop)
    (m : M A) (k : A → M B) :
  establishes Q m →
  (∀ a, preserves S (k a)) →
  (∀ g1 g2, (∀ t, ¬ S t → g2 !! t = g1 !! t) → Q g1 → Q g2) →
  establishes Q (m ≫= k).
Proof.
  intros Hm Hk Hstable g b g' Hr. bind_inv Hr as a g1 Hstep.
  apply (Hstable g1); [|by eapply Hm].
  intros t Ht. by eapply preserved_result.
Qed.

Lemma establishes_later {A B} (Q : sgrid → Prop) (m : M A) (k : A → M B) :
  (∀ a, establishes Q (k a)) → establishes Q (m ≫= k).
Proof. intros Hk g b g' Hr. bind_inv Hr as a g1 Hstep. by eapply Hk. Qed.

Lemma set_dimensions_of_establishes `{Collaborators} topology_variable v
    attr dim_target padding_target d :
  dim_target ≠ padding_target →
  ncattrs v !! attr = Some d →
  establishes (stored_dimensions topology_variable d dim_target padding_target)
    (set_dimensions_of topology_variable v attr dim_target padding_target).
Proof.
  intros Hne Hattr g u g'. unfold set_dimensions_of, getattr. rewrite Hattr.
  unfold try_exceptM, mbind, M_bind, lift, setattr.
  destruct (parse_padding topology_variable d) as [p|e] eqn:Hp; [|done].
  cbn -[insert lookup]. intros Hr. injection Hr as Hg. subst g'. exists p. split; [done|]. split.
  - by rewrite lookup_insert_ne, lookup_insert_eq.
  - by rewrite lookup_insert_eq.
Qed.

Lemma set_dimensions_of_skips `{Collaborators} topology_variable v
    attr dim_target padding_target :
  ncattrs v !! attr = None →
  set_dimensions_of topology_variable v attr dim_target padding_target
  = mret ().
Proof. intros Hattr. unfold set_dimensions_of, getattr. by rewrite Hattr. Qed.

Lemma stored_dimensions_stable `{Collaborators} topology_variable d
    dim_target padding_target g1 g2 :
  (∀ t : string, ¬ (t ∉ [dim_target; padding_target]) →
                 g2 !! t = g1 !! t) →
  stored_dimensions topology_variable d dim_target padding_target g1 →
  stored_dimensions topology_variable d dim_target padding_target g2.
Proof.
  intros Hsame (p & Hp & Hd & Hpad). exists p. split; [done|].
  rewrite !Hsame; [done|intros Hn; apply Hn..];
    [by right; left|by left].
Qed.

Ltac unfold_setters :=
  unfold set_dimensions, set_topology_dimension,
    set_sgrid_topology, set_sgrid_vertical_dimensions,
    set_sgrid_node_coordinates, set_all_edge_attributes_2d,
    set_all_face_attributes_2d, set_cell_center_lat_lon_2d,
    set_cell_node_lat_lon_2d, set_sgrid_angles, set_sgrid_time,
    set_sgrid_variable_attributes, delete_nd_attributes_2d,
    set_all_edge_attributes_3d, set_all_face_attributes_3d,
    set_volume_dimensions, set_volume_coordinates,
    set_cell_center_lat_lon_3d, set_cell_node_lat_lon_3d,
    delete_nd_attributes_3d,
    set_edge1_dimensions, set_edge1_coordinates, set_edge2_dimensions,
    set_edge2_coordinates, set_edge3_dimensions, set_edge3_coordinates,
    set_face_dimensions, set_face_coordindates,
    set_face1_dimensions, set_face1_coordinates, set_face2_dimensions,
    set_face2_coordinates, set_face3_dimensions, set_face3_coordinates.

Ltac establish S Hvar Hstep Hstable :=
  first
    [ exact Hstep
    | apply (establishes_here _ S);
      [ establish S Hvar Hstep Hstable
      | intros; solve [unfold_setters;
                       unfold set_dimensions_of, set_coordinates_of;
                       frame Hvar]
      | exact Hstable ]
    | apply establishes_later; intros; establish S Hvar Hstep Hstable ].

Ltac each_target Hin :=
  repeat (apply elem_of_cons in Hin as [[= -> -> ->]|Hin]);
  try (by apply elem_of_nil in Hin).

Ltac establish_target topology_var v d Hattr Hvar Hstable :=
  match goal with
  | |- establishes (stored_dimensions _ _ ?dt ?pt) _ =>
      let Hstep := fresh "Hstep" in
      assert (Hstep := set_dimensions_of_establishes topology_var v
                         _ dt pt d ltac:(done) Hattr);
      establish (λ b : string, b ∉ [dt; pt]) Hvar Hstep Hstable
  end.

Lemma resolve_2d_stores `{Collaborators} ds topology_var v
    attr dim_target padding_target d :
  (attr, dim_target, padding_target) ∈ dimension_targets_2d →
  (∀ n w g a, a ≠ n → (add_property n w g).2 !! a = g !! a) →
  (∀ w sv, w ∈ ds_variables ds → create_variable w = Ok sv →
           variable sv ∉ [dim_target; padding_target]) →
  ncattrs v !! attr = Some d →
  establishes (stored_dimensions topology_var d dim_target padding_target)
    (resolve_2d ds topology_var v).
Proof.
  intros Hin Hadd Hnames Hattr.
  pose proof (preserves_variable_step ds
                (λ b, b ∉ [dim_target; padding_target]) Hnames Hadd) as Hvar.
  pose proof (stored_dimensions_stable topology_var d
                dim_target padding_target) as Hstable.
  unfold resolve_2d, set_all_edge_attributes_2d, set_all_face_attributes_2d,
    set_sgrid_vertical_dimensions, set_edge1_dimensions, set_edge2_dimensions,
    set_face_dimensions.
  each_target Hin; establish_target topology_var v d Hattr Hvar Hstable.
Qed.

Lemma resolve_3d_stores `{Collaborators} ds topology_var v
    attr dim_target padding_target d :
  (attr, dim_target, padding_target) ∈ dimension_targets_3d →
  (∀ n w g a, a ≠ n → (add_property n w g).2 !! a = g !! a) →
  (∀ w sv, w ∈ ds_variables ds → create_variable w = Ok sv →
           variable sv ∉ [dim_target; padding_target]) →
  ncattrs v !! attr = Some d →
  establishes (stored_dimensions topology_var d dim_target padding_target)
    (resolve_3d ds topology_var v).
Proof.
  intros Hin Hadd Hnames Hattr.
  pose proof (preserves_variable_step ds
                (λ b, b ∉ [dim_target; padding_target]) Hnames Hadd) as Hvar.
  pose proof (stored_dimensions_stable topology_var d
                dim_target padding_target) as Hstable.
  unfold resolve_3d, set_all_edge_attributes_3d, set_all_face_attributes_3d,
    set_edge1_dimensions, set_edge2_dimensions, set_edge3_dimensions,
    set_face1_dimensions, set_face2_dimensions, set_face3_dimensions,
    set_volume_dimensions.
  each_target Hin; establish_target topology_var v d Hattr Hvar Hstable.
Qed.

Ltac skip_target Hattr Hvar :=
  rewrite (set_dimensions_of_skips _ _ _ _ _ Hattr);
  unfold_setters; unfold set_dimensions_of, set_coordinates_of;
  solve [frame Hvar].

Lemma resolve_2d_skips `{Collaborators} ds topology_var v
    attr dim_target padding_target :
  (attr, dim_target, padding_target) ∈ dimension_targets_2d →
  (∀ n w g a, a ≠ n → (add_property n w g).2 !! a = g !! a) →
  (∀ w sv, w ∈ ds_variables ds → create_variable w = Ok sv →
           variable sv ∉ [dim_target; padding_target]) →
  ncattrs v !! attr = None →
  preserves (λ b, b ∉ [dim_target; padding_target])
    (resolve_2d ds topology_var v).
Proof.
  intros Hin Hadd Hnames Hattr.
  pose proof (preserves_variable_step ds
                (λ b, b ∉ [dim_target; padding_target]) Hnames Hadd) as Hvar.
  unfold resolve_2d, set_all_edge_attributes_2d, set_all_face_attributes_2d,
    set_sgrid_vertical_dimensions, set_edge1_dimensions, set_edge2_dimensions,
    set_face_dimensions.
  each_target Hin; skip_target Hattr Hvar.
Qed.

Lemma resolve_3d_skips `{Collaborators} ds topology_var v
    attr dim_target padding_target :
  (attr, dim_target, padding_target) ∈ dimension_targets_3d →
  (∀ n w g a, a ≠ n → (add_property n w g).2 !! a = g !! a) →
  (∀ w sv, w ∈ ds_variables ds → create_variable w = Ok sv →
           variable sv ∉ [dim_target; padding_target]) →
  ncattrs v !! attr = None →
  preserves (λ b, b ∉ [dim_target; padding_target])
    (resolve_3d ds topology_var v).
Proof.
  intros Hin Hadd Hnames Hattr.
  pose proof (preserves_variable_step ds
                (λ b, b ∉ [dim_target; padding_target]) Hnames Hadd) as Hvar.
  unfold resolve_3d, set_all_edge_attributes_3d, set_all_face_attributes_3d,
    set_edge1_dimensions, set_edge2_dimensions, set_edge3_dimensions,
    set_face1_dimensions, set_face2_dimensions, set_face3_dimensions,
    set_volume_dimensions.
  each_target Hin; skip_target Hattr Hvar.
Qed.

(** What a load that returns has done with one [*_dimensions] attribute
    of the topology variable it worked on: stored it with its padding, or,
    the attribute missing, left both targets as they were handed in. *)
Lemma load_dimension_target `{Collaborators}
    ds grid_topology_vars topology_var v g g' attr dim_target padding_target :
  (∀ n w g a, a ≠ n → (add_property n w g).2 !! a = g !! a) →
  (∀ w sv, w ∈ ds_variables ds → create_variable w = Ok sv →
           variable sv ∉ [dim_target; padding_target]) →
  load_grid_from_nc_dataset ds grid_topology_vars g = (Ok (), g') →
  selects ds grid_topology_vars topology_var →
  getitem ds topology_var = Ok v →
  ncattrs v !! "topology_dimension" = Some (AInt 2)
  ∧ (attr, dim_target, padding_target) ∈ dimension_targets_2d
  ∨ ncattrs v !! "topology_dimension" = Some (AInt 3)
    ∧ (attr, dim_target, padding_target) ∈ dimension_targets_3d →
  match ncattrs v !! attr with
  | Some d => stored_dimensions topology_var d dim_target padding_target g'
  | None => g' !! dim_target = g !! dim_target
            ∧ g' !! padding_target = g !! padding_target
  end.
Proof.
  intros Hadd Hnames Hload Hsel Hv Hcase.
  apply load_Ok_inv in Hload
    as (tv & v' & g1 & _ & Hsel' & Hv' & -> & Hres).
  assert (tv = topology_var) as -> by by eapply selects_functional.
  assert (v' = v) as -> by congruence.
  assert (Hfirst : ∀ t, t ∈ [dim_target; padding_target] →
            <["grid_topology_vars" := VStr topology_var]>
              (<["dimensions" := grid_dims ds]> g) !! t = g !! t).
  { intros t Ht. rewrite !lookup_insert_ne; [done|intros <-..];
      destruct Hcase as [[_ Hin]|[_ Hin]]; each_target Hin;
      revert Ht; apply (bool_decide_unpack _); vm_compute; exact I. }
  destruct (ncattrs v !! attr) as [d|] eqn:Hattr.
  - destruct Hcase as [[Hd Hin]|[Hd Hin]],
      Hres as [[Hd' Hr]|[Hd' Hr]]; try congruence.
    + by eapply resolve_2d_stores.
    + by eapply resolve_3d_stores.
  - assert (∀ t, t ∈ [dim_target; padding_target] → g' !! t = g !! t)
      as Hkeep.
    { intros t Ht. rewrite <- (Hfirst t Ht).
      destruct Hcase as [[Hd Hin]|[Hd Hin]],
        Hres as [[Hd' Hr]|[Hd' Hr]]; try congruence.
      - eapply preserved_result; [by eapply resolve_2d_skips|exact Hr|].
        by intros Hn.
      - eapply preserved_result; [by eapply resolve_3d_skips|exact Hr|].
        by intros Hn. }
    split; apply Hkeep; [by left|by right; left].
Qed.

Lemma not_elem_of_weaken (l1 l2 : list string) x :
  Forall (λ y, y ∈ l2) l1 → x ∉ l2 → x ∉ l1.
Proof. rewrite Forall_forall. intros Hsub Hx Hin. by apply Hx, Hsub. Qed.

Ltac narrowed Hnames :=
  let Hn := fresh "Hn" in
  intros w sv Hw Hsv; pose proof (Hnames w sv Hw Hsv) as Hn; revert Hn;
  apply not_elem_of_weaken; apply (bool_decide_unpack _); vm_compute;
  exact I.

Ltac listed_target := apply (bool_decide_unpack _); vm_compute; exact I.



(** X22.  The dimensions of the first two edges are stored under the
    singular names.  The loader never assigns the grid's
    [edge1_dimensions] and [edge2_dimensions], which hold after the load,
    whether it returns or raises, what they held before; and a load that
    returns has stored what the topology variable declares as
    [edge1_dimensions] under [edge1_dimension], with its parsed padding
    under [edge1_padding], and likewise for the second edge, leaving
    these attributes as they were handed in when the topology variable
    does not declare the dimensions.  (Registering a variable descriptor
    is taken to touch the attribute of its name only, and no variable to
    be registered under one of these names.) *)
Theorem edge_dimensions_stored_singular `{Collaborators}
    ds grid_topology_vars g :
  (∀ n w g a, a ≠ n → (add_property n w g).2 !! a = g !! a) →
  (∀ w sv, w ∈ ds_variables ds → create_variable w = Ok sv →
           variable sv ∉ edge_dimension_names) →
  (∀ a, a ∈ edge_dimensions_attributes →
        (load_grid_from_nc_dataset ds grid_topology_vars g).2 !! a = g !! a)
  ∧ (∀ g' topology_var v,
       load_grid_from_nc_dataset ds grid_topology_vars g = (Ok (), g') →
       selects ds grid_topology_vars topology_var →
       getitem ds topology_var = Ok v →
       match ncattrs v !! "edge1_dimensions" with
       | Some d =>
           ∃ p, parse_padding topology_var d = Ok p
                ∧ g' !! "edge1_dimension" = Some (of_attr d)
                ∧ g' !! "edge1_padding" = Some (VList (VPadding <$> p))
       | None => g' !! "edge1_dimension" = g !! "edge1_dimension"
                 ∧ g' !! "edge1_padding" = g !! "edge1_padding"
       end
       ∧ match ncattrs v !! "edge2_dimensions" with
         | Some d =>
             ∃ p, parse_padding topology_var d = Ok p
                  ∧ g' !! "edge2_dimension" = Some (of_attr d)
                  ∧ g' !! "edge2_padding" = Some (VList (VPadding <$> p))
         | None => g' !! "edge2_dimension" = g !! "edge2_dimension"
                   ∧ g' !! "edge2_padding" = g !! "edge2_padding"
         end).
Proof.
  intros Hadd Hnames. split.
  - intros a Ha. apply load_keeps_plural_edge_dimensions; [done| |done].
    narrowed Hnames.
  - intros g' topology_var v Hload Hsel Hv.
    assert (Hcase : ∀ attr dt pt,
              (attr, dt, pt) ∈ [("edge1_dimensions", "edge1_dimension",
                                 "edge1_padding");
                                ("edge2_dimensions", "edge2_dimension",
                                 "edge2_padding")] →
              ncattrs v !! "topology_dimension" = Some (AInt 2)
              ∧ (attr, dt, pt) ∈ dimension_targets_2d
              ∨ ncattrs v !! "topology_dimension" = Some (AInt 3)
                ∧ (attr, dt, pt) ∈ dimension_targets_3d).
    { intros attr dt pt Hin. pose proof Hload as Hinv.
      apply load_Ok_inv in Hinv
        as (tv & v' & g1 & _ & Hsel' & Hv' & _ & Hres).
      assert (tv = topology_var) as -> by by eapply selects_functional.
      assert (v' = v) as -> by congruence.
      destruct Hres as [[Hd _]|[Hd _]]; [left|right]; (split; [done|]);
        each_target Hin; listed_target. }
    split.
    + apply (load_dimension_target ds grid_topology_vars topology_var v g g'
               "edge1_dimensions" "edge1_dimension" "edge1_padding");
        [done|narrowed Hnames|done..|].
      apply Hcase. by left.
    + apply (load_dimension_target ds grid_topology_vars topology_var v g g'
               "edge2_dimensions" "edge2_dimension" "edge2_padding");
        [done|narrowed Hnames|done..|].
      apply Hcase. by right; left.
Qed.

Lemma edge_dimensions_of_dataset_2d_edges :
  (load_grid_from_nc_dataset (H:=sample_collaborators)
     dataset_2d_edges None fresh_grid).2 !! "edge1_dimensions"
  = fresh_grid !! "edge1_dimensions"
  ∧ (∃ p, parse_padding (Collaborators:=sample_collaborators) "grid"
            (AStr "xi_u: xi_psi eta_u: eta_psi (padding: both)") = Ok p
          ∧ (load_grid_from_nc_dataset (H:=sample_collaborators)
               dataset_2d_edges None fresh_grid).2 !! "edge1_dimension"
            = Some (VStr "xi_u: xi_psi eta_u: eta_psi (padding: both)")
          ∧ (load_grid_from_nc_dataset (H:=sample_collaborators)
               dataset_2d_edges None fresh_grid).2 !! "edge1_padding"
            = Some (VList (VPadding <$> p)))
  ∧ ∃ p, parse_padding (Collaborators:=sample_collaborators) "grid"
           (AStr "xi_v: xi_psi (padding: both) eta_v: eta_psi") = Ok p
         ∧ (load_grid_from_nc_dataset (H:=sample_collaborators)
              dataset_2d_edges None fresh_grid).2 !! "edge2_dimension"
           = Some (VStr "xi_v: xi_psi (padding: both) eta_v: eta_psi")
         ∧ (load_grid_from_nc_dataset (H:=sample_collaborators)
              dataset_2d_edges None fresh_grid).2 !! "edge2_padding"
           = Some (VList (VPadding <$> p)).
Proof.
  destruct (edge_dimensions_stored_singular (H:=sample_collaborators)
              dataset_2d_edges None fresh_grid) as [Hplural Hsingular].
  - intros n w g a Hne. simpl. unfold setattr. simpl.
    apply lookup_insert_ne. by intros ->.
  - intros w sv Hw [= <-]. simpl. revert w Hw.
    apply Forall_forall, (bool_decide_unpack _). vm_compute. exact I.
  - split; [apply Hplural; by left|].
    apply (Hsingular
             (load_grid_from_nc_dataset (H:=sample_collaborators)
                dataset_2d_edges None fresh_grid).2
             "grid"
             (mk_variable "grid" []
                [("cf_role", AStr "grid_topology");
                 ("topology_dimension", AInt 2);
                 ("node_dimensions", AStr "xi_psi eta_psi");
                 ("node_coordinates", AStr "lon_psi lat_psi");
                 ("face_coordinates", AStr "lon_rho lat_rho");
                 ("edge1_dimensions",
                  AStr "xi_u: xi_psi eta_u: eta_psi (padding: both)");
                 ("edge2_dimensions",
                  AStr "xi_v: xi_psi (padding: both) eta_v: eta_psi")])).
    + apply returned_grid. vm_compute. reflexivity.
    + vm_compute. reflexivity.
    + vm_compute. reflexivity.
Defined.

(** ** The time step within the load *)

Lemma M_bind_assoc {A B C} (m : M A) (f : A → M B) (k : B → M C) g :
  ((m ≫= f) ≫= k) g = (m ≫= (λ a, f a ≫= k)) g.
Proof.
  unfold mbind, M_bind. destruct (m g) as [[a|e] g1]; [|done].
  by destruct (f a g1) as [[b|e] g2].
Qed.

Lemma M_bind_congr {A B} (m : M A) (k1 k2 : A → M B) g :
  (∀ a g1, k1 a g1 = k2 a g1) → (m ≫= k1) g = (m ≫= k2) g.
Proof.
  intros Hk. unfold mbind, M_bind. destruct (m g) as [[a|e] g1]; [|done].
  apply Hk.
Qed.

(** Each resolver is its steps before the time step, then the time step,
    then the two steps after it. *)
Lemma resolve_2d_split `{Collaborators} ds topology_var v g :
  resolve_2d ds topology_var v g
  = (resolve_2d_before_time ds topology_var v;;
     set_sgrid_time ds;;
     set_sgrid_variable_attributes ds;;
     delete_nd_attributes_2d) g.
Proof.
  unfold resolve_2d, resolve_2d_before_time. symmetry.
  do 9 (rewrite M_bind_assoc; apply M_bind_congr; intros [] ?).
  done.
Qed.

Lemma resolve_3d_split `{Collaborators} ds topology_var v g :
  resolve_3d ds topology_var v g
  = (resolve_3d_before_time ds topology_var v;;
     set_sgrid_time ds;;
     set_sgrid_variable_attributes ds;;
     delete_nd_attributes_3d) g.
Proof.
  unfold resolve_3d, resolve_3d_before_time. symmetry.
  do 10 (rewrite M_bind_assoc; apply M_bind_congr; intros [] ?).
  done.
Qed.

Lemma resolve_2d_no_time `{Collaborators} ds topology_var v g g1 :
  lookup_variable (ds_variables ds) "time" = None →
  lookup_variable (ds_variables ds) "Times" = None →
  resolve_2d_before_time ds topology_var v g = (Ok (), g1) →
  resolve_2d ds topology_var v g = (Raise (KeyError (VStr "Times")), g1).
Proof.
  intros Htime HTimes Hbefore. rewrite resolve_2d_split.
  unfold mbind at 1, M_bind at 1. rewrite Hbefore.
  unfold mbind at 1, M_bind at 1.
  by rewrite set_sgrid_time_no_time.
Qed.

Lemma resolve_3d_no_time `{Collaborators} ds topology_var v g g1 :
  lookup_variable (ds_variables ds) "time" = None →
  lookup_variable (ds_variables ds) "Times" = None →
  resolve_3d_before_time ds topology_var v g = (Ok (), g1) →
  resolve_3d ds topology_var v g = (Raise (KeyError (VStr "Times")), g1).
Proof.
  intros Htime HTimes Hbefore. rewrite resolve_3d_split.
  unfold mbind at 1, M_bind at 1. rewrite Hbefore.
  unfold mbind at 1, M_bind at 1.
  by rewrite set_sgrid_time_no_time.
Qed.

Lemma load_selected `{Collaborators} ds grid_topology_vars topology_var v d g :
  sgrid_compliant_file ds = Ok true →
  selects ds grid_topology_vars topology_var →
  getitem ds topology_var = Ok v →
  ncattrs v !! "topology_dimension" = Some d →
  load_grid_from_nc_dataset ds grid_topology_vars g
  = (if attr_eq_int d 2 then resolve_2d ds topology_var v
     else if attr_eq_int d 3 then resolve_3d ds topology_var v
     else lift (Raise (ValueError (unsupported_message d))))
      (<["grid_topology_vars" := VStr topology_var]>
         (<["dimensions" := grid_dims ds]> g)).
Proof.
  intros Hc Hsel Hv Hd.
  unfold load_grid_from_nc_dataset, mbind, M_bind, lift, setattr.
  rewrite Hc.
  destruct grid_topology_vars as [given|]; simpl in Hsel;
    [subst given; unfold mret, M_ret|rewrite Hsel];
    rewrite Hv; unfold getattr; by rewrite Hd.
Qed.

(** C4, as stated, fails: a dataset with neither variable does not make
    the load fail with the error of the missing time when a step before
    the time step fails first.  The bare 3-D dataset has no ["time"] and
    no ["Times"], and its load raises the [AttributeError] of the missing
    [node_dimensions]. *)
Lemma missing_time_other_error :
  lookup_variable (ds_variables bare_3d_dataset) "time" = None
  ∧ lookup_variable (ds_variables bare_3d_dataset) "Times" = None
  ∧ (load_grid_from_nc_dataset (H:=sample_collaborators)
       bare_3d_dataset None fresh_grid).1
    = Raise (AttributeError "node_dimensions").
Proof. repeat split; vm_compute; reflexivity. Qed.

(** C4, amended.  [grid_times] is read from the variable ["time"];
    without one, from the variable ["Times"]; with either, the step
    raises nothing.  With neither, the step raises the [KeyError] of the
    second lookup and leaves the grid as it is, so that no load of such
    a dataset returns a grid; and when the compliance check answers true
    and the steps of the resolver before the time step return, the load
    raises that [KeyError], on the grid as these steps left it. *)
Theorem time_variable_required `{Collaborators} ds :
  (∀ time g, getitem ds "time" = Ok time →
     set_sgrid_time ds g = (Ok (), <["grid_times" := VArray (data time)]> g))
  ∧ (∀ times g,
       lookup_variable (ds_variables ds) "time" = None →
       getitem ds "Times" = Ok times →
       set_sgrid_time ds g
       = (Ok (), <["grid_times" := VArray (data times)]> g))
  ∧ (lookup_variable (ds_variables ds) "time" = None →
     lookup_variable (ds_variables ds) "Times" = None →
     (∀ g, set_sgrid_time ds g = (Raise (KeyError (VStr "Times")), g))
     ∧ (∀ grid_topology_vars g,
          ∃ e, (load_grid_from_nc_dataset ds grid_topology_vars g).1 = Raise e)
     ∧ ∀ grid_topology_vars topology_var v g g1,
         sgrid_compliant_file ds = Ok true →
         selects ds grid_topology_vars topology_var →
         getitem ds topology_var = Ok v →
         ncattrs v !! "topology_dimension" = Some (AInt 2)
         ∧ resolve_2d_before_time ds topology_var v
             (<["grid_topology_vars" := VStr topology_var]>
                (<["dimensions" := grid_dims ds]> g)) = (Ok (), g1)
         ∨ ncattrs v !! "topology_dimension" = Some (AInt 3)
           ∧ resolve_3d_before_time ds topology_var v
               (<["grid_topology_vars" := VStr topology_var]>
                  (<["dimensions" := grid_dims ds]> g)) = (Ok (), g1) →
         load_grid_from_nc_dataset ds grid_topology_vars g
         = (Raise (KeyError (VStr "Times")), g1)).
Proof.
  split; [|split].
  - intros time g Htime. unfold set_sgrid_time. by rewrite Htime.
  - intros times g Htime HTimes. unfold set_sgrid_time, getitem in *.
    rewrite Htime. simpl. destruct (lookup_variable _ "Times"); [|done].
    by injection HTimes as ->.
  - intros Htime HTimes. split; [eauto using set_sgrid_time_no_time|]. split.
    + intros topo g.
      destruct (load_grid_from_nc_dataset ds topo g) as [[[]|e] g'] eqn:Hload;
        [|by exists e].
      apply load_Ok_inv in Hload as (tv & var & g1 & _ & _ & _ & _ & Hres).
      assert (∃ g2 g3, set_sgrid_time ds g2 = (Ok (), g3))
        as (g2 & g3 & Hstep).
      { destruct Hres as [[_ Hr]|[_ Hr]];
          eauto using resolve_2d_time, resolve_3d_time. }
      by rewrite set_sgrid_time_no_time in Hstep.
    + intros topo tv v g g1 Hc Hsel Hv [[Hd Hbefore]|[Hd Hbefore]];
        rewrite (load_selected _ _ _ _ _ _ Hc Hsel Hv Hd); simpl.
      * by apply resolve_2d_no_time.
      * by apply resolve_3d_no_time.
Qed.

Lemma time_variable_samples :
  set_sgrid_time dataset_2d ∅ = (Ok (), {["grid_times" := VArray []]})
  ∧ set_sgrid_time dataset_2d_Times ∅ = (Ok (), {["grid_times" := VArray []]})
  ∧ set_sgrid_time dataset_2d_no_time ∅ = (Raise (KeyError (VStr "Times")), ∅)
  ∧ (load_grid_from_nc_dataset (H:=sample_collaborators)
       dataset_2d_no_time None fresh_grid).1
    = Raise (KeyError (VStr "Times")).
Proof.
  destruct (time_variable_required (H:=sample_collaborators) dataset_2d)
    as (Htime & _ & _).
  destruct (time_variable_required (H:=sample_collaborators) dataset_2d_Times)
    as (_ & HTimes & _).
  destruct (time_variable_required (H:=sample_collaborators)
              dataset_2d_no_time) as (_ & _ & Hnone).
  destruct Hnone as (Hstep & _ & Hload);
    [vm_compute; reflexivity|vm_compute; reflexivity|].
  split; [|split; [|split]].
  - by apply (Htime (mk_variable "time" ["time"] []) ∅).
  - by apply (HTimes (mk_variable "Times" ["time"] []) ∅).
  - apply Hstep.
  - rewrite (Hload None "grid"
               (mk_variable "grid" []
                  [("cf_role", AStr "grid_topology");
                   ("topology_dimension", AInt 2);
                   ("node_dimensions", AStr "xi_psi eta_psi");
                   ("node_coordinates", AStr "lon_psi lat_psi");
                   ("face_coordinates", AStr "lon_rho lat_rho")])
               fresh_grid
               (resolve_2d_before_time (H:=sample_collaborators)
                  dataset_2d_no_time "grid"
                  (mk_variable "grid" []
                     [("cf_role", AStr "grid_topology");
                      ("topology_dimension", AInt 2);
                      ("node_dimensions", AStr "xi_psi eta_psi");
                      ("node_coordinates", AStr "lon_psi lat_psi");
                      ("face_coordinates", AStr "lon_rho lat_rho")])
                  (<["grid_topology_vars" := VStr "grid"]>
                     (<["dimensions" := grid_dims dataset_2d_no_time]>
                        fresh_grid))).2); [done| | | |].
    + vm_compute. reflexivity.
    + vm_compute. reflexivity.
    + vm_compute. reflexivity.
    + left. split; [vm_compute; reflexivity|].
      apply returned_grid. vm_compute. reflexivity.
Defined.

(** ** Two runs of the loader, side by side *)

Section TwoRuns.
Context `{Collaborators}.
Variable ds : nc_dataset.
Variables g1 g2 : sgrid.
(** The attributes of the grid that the slicing of a variable reads. *)
Variable D : list string.
Hypothesis add_property_frame :
  ∀ n w g a, a ≠ n → (add_property n w g).2 !! a = g !! a.
Hypothesis add_property_value :
  ∀ n w h1 h2, (add_property n w h1).2 !! n = (add_property n w h2).2 !! n.
Hypothesis slicing_reads :
  ∀ h1 h2 k, agree D h1 h2 →
    determine_variable_slicing h1 ds k = determine_variable_slicing h2 ds k.
Hypothesis handed_in_agree : agree D g1 g2.

Lemma settles_ret {A} W (a : A) : settles g1 g2 W W (mret a).
Proof. intros h1 h2 a1 a2 h1' h2' HW Hs [= <- <-] [= <- <-]. done. Qed.

Lemma settles_lift {A} W (o : outcome A) : settles g1 g2 W W (lift o).
Proof.
  intros h1 h2 a1 a2 h1' h2' HW Hs. unfold lift.
  intros [= -> <-] [= ? <-]. split; [congruence|done].
Qed.

Lemma settles_bind {A B} W W1 W2 (m : M A) (k : A → M B) :
  settles g1 g2 W W1 m → (∀ a, settles g1 g2 W1 W2 (k a)) →
  settles g1 g2 W W2 (m ≫= k).
Proof.
  intros Hm Hk h1 h2 b1 b2 h1' h2' HW Hs Hr1 Hr2.
  bind_inv Hr1 as a1 k1 Hm1. bind_inv Hr2 as a2 k2 Hm2.
  destruct (Hm _ _ _ _ _ _ HW Hs Hm1 Hm2) as (-> & HW1 & Hs1).
  by eapply Hk.
Qed.

Lemma settles_weaken {A} W W' W0 (m : M A) :
  (∀ a, a ∈ W0 → a ∈ W') → settles g1 g2 W W' m → settles g1 g2 W W0 m.
Proof.
  intros Hsub Hm h1 h2 a1 a2 h1' h2' HW Hs Hr1 Hr2.
  destruct (Hm _ _ _ _ _ _ HW Hs Hr1 Hr2) as (-> & HW' & Hs').
  split; [done|]. split; [|done]. intros a Ha. by apply HW', Hsub.
Qed.

Lemma settles_setattr_add W attr w :
  settles g1 g2 W (attr :: W) (setattr attr w).
Proof.
  intros h1 h2 a1 a2 h1' h2' HW Hs. unfold setattr.
  intros [= <- <-] [= <- <-]. split; [done|]. split.
  - intros a Ha. destruct (decide (a = attr)) as [->|Hne].
    + by rewrite !lookup_insert_eq.
    + rewrite !lookup_insert_ne by done. apply HW.
      by apply elem_of_cons in Ha as [?|?].
  - intros b. destruct (decide (b = attr)) as [->|Hne].
    + left. by rewrite !lookup_insert_eq.
    + rewrite !lookup_insert_ne by done. apply Hs.
Qed.

Lemma settles_setattr W attr w : settles g1 g2 W W (setattr attr w).
Proof.
  apply (settles_weaken _ (attr :: W)); [|apply settles_setattr_add].
  intros a Ha. by right.
Qed.

Lemma settles_delattr W attr : settles g1 g2 W W (delattr attr).
Proof.
  intros h1 h2 a1 a2 h1' h2' HW Hs. unfold delattr.
  destruct (h1 !! attr); [|done]. destruct (h2 !! attr); [|done].
  intros [= <- <-] [= <- <-]. split; [done|]. split.
  - intros a Ha. destruct (decide (a = attr)) as [->|Hne].
    + by rewrite !lookup_delete_eq.
    + rewrite !lookup_delete_ne by done. by apply HW.
  - intros b. destruct (decide (b = attr)) as [->|Hne].
    + left. by rewrite !lookup_delete_eq.
    + rewrite !lookup_delete_ne by done. apply Hs.
Qed.

Lemma settles_getattr_grid W attr :
  attr ∈ W → settles g1 g2 W W (getattr_grid attr).
Proof.
  intros Hattr h1 h2 a1 a2 h1' h2' HW Hs. unfold getattr_grid.
  rewrite (HW attr Hattr). destruct (h2 !! attr); [|done].
  intros [= <- <-] [= <- <-]. done.
Qed.

Lemma settles_try_exceptM {A B} W W' (body : outcome A) caught
    (handler : M B) (orelse : A → M B) :
  settles g1 g2 W W' handler → (∀ a, settles g1 g2 W W' (orelse a)) →
  settles g1 g2 W W' (try_exceptM body caught handler orelse).
Proof.
  intros Hh Ho. unfold try_exceptM. destruct body as [a|e]; [by auto|].
  destruct (caught e); [done|]. by intros h1 h2 a1 a2 h1' h2' _ _ [=].
Qed.

Lemma settles_for_eachM {A St} W (body : St → A → M St) s l :
  (∀ s x, settles g1 g2 W W (body s x)) →
  settles g1 g2 W W (for_eachM body s l).
Proof.
  intros Hbody. revert s. induction l as [|x l IH]; intros s; simpl.
  - apply settles_ret.
  - eapply settles_bind; auto.
Qed.

Lemma agree_read h1 h2 : same_or_untouched g1 g2 h1 h2 → agree D h1 h2.
Proof.
  intros Hs a Ha. destruct (Hs a) as [?|[-> ->]]; [done|].
  by apply handed_in_agree.
Qed.

Lemma settles_slicing W k :
  settles g1 g2 W W (λ g, (determine_variable_slicing g ds k, g)).
Proof.
  intros h1 h2 a1 a2 h1' h2' HW Hs.
  rewrite (slicing_reads h1 h2 k (agree_read _ _ Hs)).
  intros [= -> <-] [= ? <-]. split; [congruence|done].
Qed.

Lemma settles_add_property W n w : settles g1 g2 W W (add_property n w).
Proof.
  intros h1 h2 [] [] h1' h2' HW Hs Hr1 Hr2.
  assert (Hk1 : ∀ a, a ≠ n → h1' !! a = h1 !! a).
  { intros a Ha. pose proof (add_property_frame n w h1 a Ha) as Hf.
    by rewrite Hr1 in Hf. }
  assert (Hk2 : ∀ a, a ≠ n → h2' !! a = h2 !! a).
  { intros a Ha. pose proof (add_property_frame n w h2 a Ha) as Hf.
    by rewrite Hr2 in Hf. }
  assert (Hn : h1' !! n = h2' !! n).
  { pose proof (add_property_value n w h1 h2) as Hv.
    by rewrite Hr1, Hr2 in Hv. }
  split; [done|]. split.
  - intros a Ha. destruct (decide (a = n)) as [->|Hne]; [done|].
    rewrite Hk1, Hk2 by done. by apply HW.
  - intros b. destruct (decide (b = n)) as [->|Hne]; [by left|].
    rewrite Hk1, Hk2 by done. apply Hs.
Qed.

Local Ltac listed_in := apply (bool_decide_unpack _); vm_compute; exact I.

Local Ltac settle :=
  repeat first
    [ apply settles_ret | apply settles_lift | apply settles_setattr
    | apply settles_delattr | apply settles_slicing
    | apply settles_add_property
    | apply settles_getattr_grid; [listed_in]
    | apply settles_try_exceptM
    | apply settles_for_eachM
    | eapply settles_bind
    | match goal with
      | |- ∀ _ : unit, _ => intros []
      | |- ∀ _ : _ * _, _ => intros [? ?]; cbv beta iota
      | |- ∀ _, _ => intros ?
      end ].

Lemma settles_variable_step W acc k :
  settles g1 g2 W W (variable_step ds acc k).
Proof. unfold variable_step. destruct acc as [dvs gvs]. settle. Qed.

Lemma settles_node_coordinates W v :
  settles g1 g2 W ("node_coordinates" :: W) (set_sgrid_node_coordinates ds v).
Proof.
  unfold set_sgrid_node_coordinates.
  eapply settles_bind; [apply settles_lift|intros nd].
  eapply settles_bind; [apply settles_setattr|intros []].
  apply settles_try_exceptM; [|intros c];
    (eapply settles_bind; [apply settles_lift|]).
  - intros [lon lat]. apply settles_setattr_add.
  - intros l. apply settles_setattr_add.
Qed.

Lemma settles_face_coordinates W v :
  settles g1 g2 W ("face_coordinates" :: W) (set_face_coordindates ds v 2).
Proof.
  unfold set_face_coordindates.
  apply settles_try_exceptM; [|intros c];
    (eapply settles_bind; [apply settles_lift|]);
    intros ?; apply settles_setattr_add.
Qed.

Lemma settles_volume_coordinates W v :
  settles g1 g2 W ("volume_coordinates" :: W) (set_volume_coordinates ds v 3).
Proof.
  unfold set_volume_coordinates.
  apply settles_try_exceptM; [|intros c];
    (eapply settles_bind; [apply settles_lift|]);
    intros ?; apply settles_setattr_add.
Qed.

Local Ltac settle_steps :=
  unfold set_dimensions, set_topology_dimension, set_sgrid_topology,
    set_sgrid_vertical_dimensions,
    set_all_edge_attributes_2d, set_all_edge_attributes_3d,
    set_all_face_attributes_3d, set_volume_dimensions,
    set_cell_center_lat_lon_2d, set_cell_node_lat_lon_2d,
    set_cell_center_lat_lon_3d, set_cell_node_lat_lon_3d,
    set_sgrid_angles, set_sgrid_time, set_sgrid_variable_attributes,
    delete_nd_attributes_2d, delete_nd_attributes_3d, delete_all,
    set_edge1_dimensions, set_edge1_coordinates, set_edge2_dimensions,
    set_edge2_coordinates, set_edge3_dimensions, set_edge3_coordinates,
    set_face_dimensions,
    set_face1_dimensions, set_face1_coordinates, set_face2_dimensions,
    set_face2_coordinates, set_face3_dimensions, set_face3_coordinates,
    set_dimensions_of, set_coordinates_of;
  repeat first
    [ apply settles_variable_step
    | apply settles_ret | apply settles_lift | apply settles_setattr
    | apply settles_delattr
    | apply settles_getattr_grid; [listed_in]
    | apply settles_try_exceptM
    | apply settles_for_eachM
    | eapply settles_bind
    | match goal with
      | |- ∀ _ : unit, _ => intros []
      | |- ∀ _ : _ * _, _ => intros [? ?]; cbv beta iota
      | |- ∀ _, _ => intros ?
      end ].

Lemma settles_resolve_2d topology_var v :
  settles g1 g2 [] ["face_coordinates"; "node_coordinates"]
    (resolve_2d ds topology_var v).
Proof.
  unfold resolve_2d.
  do 4 (eapply settles_bind; [solve [settle_steps]|intros []]).
  eapply settles_bind; [apply settles_node_coordinates|intros []].
  eapply settles_bind; [solve [settle_steps]|intros []].
  eapply settles_bind.
  { unfold set_all_face_attributes_2d.
    eapply settles_bind; [solve [settle_steps]|intros []].
    apply settles_face_coordinates. }
  intros [].
  do 5 (eapply settles_bind; [solve [settle_steps]|intros []]).
  solve [settle_steps].
Qed.

Lemma settles_resolve_3d topology_var v :
  settles g1 g2 [] ["volume_coordinates"; "node_coordinates"]
    (resolve_3d ds topology_var v).
Proof.
  unfold resolve_3d.
  do 3 (eapply settles_bind; [solve [settle_steps]|intros []]).
  eapply settles_bind; [apply settles_node_coordinates|intros []].
  do 3 (eapply settles_bind; [solve [settle_steps]|intros []]).
  eapply settles_bind; [apply settles_volume_coordinates|intros []].
  do 5 (eapply settles_bind; [solve [settle_steps]|intros []]).
  solve [settle_steps].
Qed.
End TwoRuns.

Lemma same_or_untouched_start ds topology_var g1 g2 :
  same_or_untouched g1 g2
    (<["grid_topology_vars" := VStr topology_var]>
       (<["dimensions" := grid_dims ds]> g1))
    (<["grid_topology_vars" := VStr topology_var]>
       (<["dimensions" := grid_dims ds]> g2)).
Proof.
  intros b.
  destruct (decide (b = "grid_topology_vars")) as [->|Hne1];
    [left; by rewrite !lookup_insert_eq|].
  rewrite !(lookup_insert_ne _ "grid_topology_vars") by done.
  destruct (decide (b = "dimensions")) as [->|Hne2];
    [left; by rewrite !lookup_insert_eq|].
  right. by rewrite !lookup_insert_ne by done.
Qed.

(** C8.  Two runs of the loader on the same dataset, with the same
    topology variable passed, that both return a grid agree on every
    field that either of them resolved: an attribute whose value one of
    the runs changed holds the same value in both results, whatever the
    two grids handed in held.  An attribute on which the grids handed in
    agreed holds the same in both results, so that two runs started from
    grids with the same attributes yield the same Grid Model.  (The
    package's own [add_property] and [determine_variable_slicing] are
    taken to register a descriptor under its name only, with a value that
    does not depend on the grid, and to read from the grid only
    attributes on which the grids handed in agree.) *)
Theorem load_twice_agrees `{Collaborators}
    ds grid_topology_vars D g1 g2 g1' g2' :
  (∀ n w g a, a ≠ n → (add_property n w g).2 !! a = g !! a) →
  (∀ n w h1 h2, (add_property n w h1).2 !! n = (add_property n w h2).2 !! n) →
  (∀ h1 h2 k, agree D h1 h2 →
     determine_variable_slicing h1 ds k = determine_variable_slicing h2 ds k) →
  agree D g1 g2 →
  load_grid_from_nc_dataset ds grid_topology_vars g1 = (Ok (), g1') →
  load_grid_from_nc_dataset ds grid_topology_vars g2 = (Ok (), g2') →
  (∀ b, g1' !! b ≠ g1 !! b ∨ g2' !! b ≠ g2 !! b → g1' !! b = g2' !! b)
  ∧ (∀ b, g1 !! b = g2 !! b → g1' !! b = g2' !! b)
  ∧ ((∀ b, g1 !! b = g2 !! b) → g1' = g2').
Proof.
  intros Hframe Hvalue Hslicing HD Hload1 Hload2.
  assert (Hs : same_or_untouched g1 g2 g1' g2').
  { apply load_Ok_inv in Hload1
      as (tv & v & h1 & _ & Hsel1 & Hv1 & -> & Hres1).
    apply load_Ok_inv in Hload2
      as (tv2 & v2 & h2 & _ & Hsel2 & Hv2 & -> & Hres2).
    assert (tv2 = tv) as -> by by eapply selects_functional.
    assert (v2 = v) as -> by congruence.
    pose proof (same_or_untouched_start ds tv g1 g2) as Hstart.
    assert (Hnil : ∀ h h', agree [] h h') by (by intros h h' a ?%elem_of_nil).
    destruct Hres1 as [[Hd1 Hr1]|[Hd1 Hr1]], Hres2 as [[Hd2 Hr2]|[Hd2 Hr2]];
      try congruence.
    - by destruct (settles_resolve_2d ds g1 g2 D Hframe Hvalue Hslicing HD
                     tv v _ _ _ _ _ _ (Hnil _ _) Hstart Hr1 Hr2)
        as (_ & _ & ?).
    - by destruct (settles_resolve_3d ds g1 g2 D Hframe Hvalue Hslicing HD
                     tv v _ _ _ _ _ _ (Hnil _ _) Hstart Hr1 Hr2)
        as (_ & _ & ?). }
  assert (Hsame : ∀ b, g1 !! b = g2 !! b → g1' !! b = g2' !! b).
  { intros b Hb. destruct (Hs b) as [?|[-> ->]]; done. }
  split; [|split; [done|]].
  - intros b Hchanged. destruct (Hs b) as [?|[? ?]]; [done|].
    by destruct Hchanged.
  - intros Hall. apply map_eq. intros b. by apply Hsame.
Qed.

Lemma load_twice_agrees_on_dataset_2d :
  (load_grid_from_nc_dataset (H:=sample_collaborators)
     dataset_2d None fresh_grid).2 !! "centers"
  = (load_grid_from_nc_dataset (H:=sample_collaborators)
       dataset_2d None preset_grid).2 !! "centers"
  ∧ (load_grid_from_nc_dataset (H:=sample_collaborators)
       dataset_2d None fresh_grid).2 !! "face_dimensions"
    = (load_grid_from_nc_dataset (H:=sample_collaborators)
         dataset_2d None preset_grid).2 !! "face_dimensions".
Proof.
  destruct (load_twice_agrees (H:=sample_collaborators) dataset_2d None []
              fresh_grid preset_grid
              (load_grid_from_nc_dataset (H:=sample_collaborators)
                 dataset_2d None fresh_grid).2
              (load_grid_from_nc_dataset (H:=sample_collaborators)
                 dataset_2d None preset_grid).2)
    as (Hchanged & Hsame & _).
  - intros n w g a Hne. simpl. unfold setattr. simpl.
    apply lookup_insert_ne. by intros ->.
  - intros n w h1 h2. simpl. unfold setattr. simpl.
    by rewrite !lookup_insert_eq.
  - intros h1 h2 k _. reflexivity.
  - by intros a ?%elem_of_nil.
  - apply returned_grid. vm_compute. reflexivity.
  - apply returned_grid. vm_compute. reflexivity.
  - split.
    + apply Hchanged. left. intros Heq. vm_compute in Heq. discriminate Heq.
    + apply Hsame. vm_compute. reflexivity.
Defined.
